(** * grid-provider: reconciliation and topology generation

    A shallow embedding of [internal/provider/resource_deployment.go] and
    [internal/provider/resource_network.go], and the properties of the
    diff engine, the IP allocator, the completion-wait loop, the create,
    read, update and delete paths of a deployment, the mesh topology
    generator, and the configuration, the recorded state and the delete
    path of a network.

    Go values are modelled as follows: [int], [byte], [uint8], [uint16] and
    [uint64] are [Z] with the conversions written out; strings are
    [string]; slices are lists; [map[int]T] is [gmap Z T]; a Go function
    returning [(T, error)] that may also panic returns an [Outcome T]; a
    loop that may run for ever returns an [option], [None] standing for no
    return; a function that calls the ledger or a node is an [Eff], which
    extends the list of calls made. *)

From stdpp Require Import base tactics option list strings pretty gmap.
From Stdlib Require Import ZArith Lia Ascii Sorted.

Open Scope string_scope.
Open Scope list_scope.
Open Scope Z_scope.

(** ** Go runtime prelude *)

(** The three ways a Go call ends: a value, a returned [error], a panic. *)
Inductive Outcome (A : Type) : Type :=
  | Ret (a : A)
  | Err (e : string)
  | Panic (m : string).
Arguments Ret {A} a.
Arguments Err {A} e.
Arguments Panic {A} m.

Definition bindO {A B : Type} (m : Outcome A) (k : A → Outcome B) : Outcome B :=
  match m with
  | Ret a => k a
  | Err e => Err e
  | Panic p => Panic p
  end.

Global Instance Outcome_ret : MRet Outcome := @Ret.
Global Instance Outcome_bind : MBind Outcome := λ A B k m, bindO m k.

(** [s[i]] on a slice: a run-time panic outside [0 .. len(s)-1]. *)
Definition index {A : Type} (s : list A) (i : Z) : Outcome A :=
  if (0 <=? i) && (i <? Z.of_nat (length s)) then
    match s !! Z.to_nat i with
    | Some x => Ret x
    | None => Panic "index out of range"
    end
  else Panic "index out of range".

Definition len {A : Type} (s : list A) : Z := Z.of_nat (length s).

(** Integer conversions. *)
Definition to_uint8 (x : Z) : Z := x mod 2 ^ 8.
Definition to_uint16 (x : Z) : Z := x mod 2 ^ 16.
Definition to_uint32 (x : Z) : Z := x mod 2 ^ 32.
Definition to_uint64 (x : Z) : Z := x mod 2 ^ 64.
(** Go's [int] is 64 bits wide on the supported platforms; [+] wraps. *)
Definition wrap_int (x : Z) : Z := (x + 2 ^ 63) mod 2 ^ 64 - 2 ^ 63.
Definition int_add (x y : Z) : Z := wrap_int (x + y).

(** [%d] of an integer. *)
Definition fmt_d (x : Z) : string := pretty x.

(** ** Addresses: [net.IP], [net.IPNet], [gridtypes.IPNet] *)

Record IPNet : Type := mkIPNet {
  IP : list Z;     (* net.IP, a byte slice of length 4 or 16 *)
  Mask : list Z    (* net.IPMask *)
}.

Global Instance IPNet_eq_dec : EqDecision IPNet.
Proof. solve_decision. Defined.

(** [net.IPv4(a, b, c, d)]: the address in its 16-byte form. *)
Definition v4InV6Prefix : list Z := [0; 0; 0; 0; 0; 0; 0; 0; 0; 0; 255; 255].
Definition IPv4 (a b c d : Z) : list Z := v4InV6Prefix ++ [a; b; c; d].

(** [net.CIDRMask(ones, 32)]: [nil] when [ones] is outside [0 .. 32]. *)
Definition mask_byte (n : Z) : Z :=
  if 8 <=? n then 255 else if n <=? 0 then 0 else 256 - 2 ^ (8 - n).
Definition CIDRMask32 (ones : Z) : list Z :=
  if (0 <=? ones) && (ones <=? 32)
  then [mask_byte ones; mask_byte (ones - 8); mask_byte (ones - 16); mask_byte (ones - 24)]
  else [].

Definition ipNet (a b c d msk : Z) : IPNet :=
  {| IP := IPv4 a b c d; Mask := CIDRMask32 msk |}.

(** Modelled from the spec: [isInStr] is called by [getFreeIP] but is not
    defined in the two source files; it is the membership test on the list
    of used dotted addresses, written as the linear scan of its siblings
    [isIn], [isInByte] and [isInInt]. *)
Fixpoint isInStr (l : list string) (i : string) : bool :=
  match l with
  | [] => false
  | x :: l' => if String.eqb i x then true else isInStr l' i
  end.

Module Deployment.

(** ** [getFreeIP] *)

(** [fmt.Sprintf("%d.%d.%d.%d", a, b, c, d)] *)
Definition dotted (a b c d : Z) : string :=
  fmt_d a +:+ "." +:+ fmt_d b +:+ "." +:+ fmt_d c +:+ "." +:+ fmt_d d.

(** One iteration's candidate: the address built with [ipNet] and then
    read back through the indices [l-4 .. l-1], [l] being the length of the
    range's own byte slice. *)
Definition candidate (ipRange : IPNet) (i : Z) : Outcome string :=
  let l := len (IP ipRange) in
  a ← index (IP ipRange) (l - 4);
  b ← index (IP ipRange) (l - 3);
  c ← index (IP ipRange) (l - 2);
  let ip := ipNet a b c (to_uint8 i) 32 in
  o1 ← index (IP ip) (l - 4);
  o2 ← index (IP ip) (l - 3);
  o3 ← index (IP ip) (l - 2);
  o4 ← index (IP ip) (l - 1);
  Ret (dotted o1 o2 o3 o4).

(** The loop [for i < 255 { ...; i += 1 }]; [fuel] bounds the number of
    iterations and is never exhausted from [i = 2] with 254 units. *)
Fixpoint getFreeIP_loop (fuel : nat) (ipRange : IPNet) (usedIPs : list string)
    (i : Z) : Outcome string :=
  match fuel with
  | O => Panic "out of fuel"
  | S fuel' =>
      if i <? 255 then
        ipStr ← candidate ipRange i;
        if negb (isInStr usedIPs ipStr) then Ret ipStr
        else getFreeIP_loop fuel' ipRange usedIPs (i + 1)
      else Err "all ips are used"
  end.

Definition getFreeIP (ipRange : IPNet) (usedIPs : list string) : Outcome string :=
  getFreeIP_loop 254 ipRange usedIPs 2.

(** ** Workloads and deployments ([gridtypes]) *)

(** [gridtypes.Megabyte], [gridtypes.Gigabyte] and [gridtypes.StateOk]. *)
Definition Megabyte : Z := 1024 * 1024.
Definition Gigabyte : Z := 1024 * 1024 * 1024.
Definition StateOk : string := "ok".

(** The package constant [Version = 0]. *)
Definition Version : Z := 0.

Inductive WorkloadType : Type :=
  | ZMountType | ZDBType | ZMachineType | NetworkType.

Record MachineMount : Type := mkMachineMount {
  mm_Name : string;
  mm_Mountpoint : string
}.

Record MachineInterface : Type := mkMachineInterface {
  mi_Network : string;
  mi_IP : option (list Z)        (* net.IP; [None] is the nil slice *)
}.

Record Peer : Type := mkPeer {
  Subnet : IPNet;
  WGPublicKey : string;
  Endpoint : string;
  AllowedIPs : list IPNet
}.

(** The payload handed to [gridtypes.MustMarshal], kept structured. *)
Inductive WorkloadData : Type :=
  | ZMount (Size : Z)
  | ZDB (Size : Z) (Mode : string) (Password : string)
  | ZMachine (FList : string) (Interfaces : list MachineInterface)
      (Planetary : bool) (CPU : Z) (Memory : Z) (Entrypoint : string)
      (Mounts : list MachineMount) (Env : gmap string string)
  | Network (NetworkIPRange : IPNet) (NetSubnet : IPNet)
      (WGPrivateKey : string) (WGListenPort : Z) (Peers : list Peer).

Record WorkloadResult : Type := mkWorkloadResult {
  State : string;
  Error : string
}.

Record Workload : Type := mkWorkload {
  wl_Version : Z;
  wl_Name : string;
  wl_Type : WorkloadType;
  wl_Description : string;
  wl_Data : WorkloadData;
  wl_Result : WorkloadResult
}.

Definition noResult : WorkloadResult := {| State := ""; Error := "" |}.

Record SignatureRequest : Type := mkSignatureRequest {
  sr_TwinID : Z;
  sr_Weight : Z
}.

Record SignatureRequirement : Type := mkSignatureRequirement {
  WeightRequired : Z;
  Requests : list SignatureRequest;
  Signatures : list (Z * string)
}.

Record DeploymentT : Type := mkDeployment {
  dl_Version : Z;
  dl_TwinID : Z;
  dl_ContractID : Z;
  dl_Workloads : list Workload;
  dl_SignatureRequirement : SignatureRequirement
}.

(** [net.ParseIP] on dotted-decimal text: four decimal fields, each at
    most 255, give the 16-byte form; anything else gives nil.  This program
    only ever passes dotted quads. *)
Definition digit_val (c : ascii) : option Z :=
  let n := Z.of_nat (nat_of_ascii c) in
  if (48 <=? n) && (n <=? 57) then Some (n - 48) else None.

Fixpoint parse_field (s : string) (acc : option Z) (fields : list Z) : option (list Z) :=
  match s with
  | EmptyString =>
      match acc with
      | Some v => Some (fields ++ [v])
      | None => None
      end
  | String c s' =>
      if Ascii.eqb c "."%char then
        match acc with
        | Some v => parse_field s' None (fields ++ [v])
        | None => None
        end
      else
        match digit_val c with
        | Some d =>
            let v := match acc with Some a => 10 * a + d | None => d end in
            if v <=? 255 then parse_field s' (Some v) fields else None
        | None => None
        end
  end.

Definition ParseIP (s : string) : option (list Z) :=
  match parse_field s None [] with
  | Some [a; b; c; d] => Some (IPv4 a b c d)
  | _ => None
  end.

(** ** [waitDeployment] *)

(** What the loop does to the outside world. *)
Inductive Event : Type :=
  | EvNow                       (* time.Now() *)
  | EvSince (elapsed : Z)       (* time.Since(start), in nanoseconds *)
  | EvDeploymentGet (id : Z)    (* nodeClient.DeploymentGet *)
  | EvSleep (d : Z).            (* a delay; the loop has none *)

(** The outside world as the loop meets it: the successive readings of the
    clock and the successive answers of the node. *)
Record World : Type := mkWorld {
  clock : list Z;
  answers : list (Outcome DeploymentT)
}.

Definition Minute : Z := 60 * 1000000000.

Definition workloadFailedMsg (idx deploymentID : Z) (err : string) : string :=
  "workload " +:+ fmt_d idx +:+ " failed within deployment " +:+ fmt_d deploymentID
    +:+ " with error " +:+ err.

Definition timedoutMsg (deploymentID : Z) : string :=
  "waiting for deployment " +:+ fmt_d deploymentID +:+ " timedout".

(** The inner [for idx, wl := range dl.Workloads]: the value of [done] at
    its end, or the error it returns. *)
Fixpoint scanWorkloads (deploymentID : Z) (wls : list Workload) (idx : Z)
    (done : bool) : Outcome bool :=
  match wls with
  | [] => Ret done
  | wl :: wls' =>
      if String.eqb (State (wl_Result wl)) "" then
        scanWorkloads deploymentID wls' (idx + 1) false
      else if negb (String.eqb (State (wl_Result wl)) StateOk) then
        Err (workloadFailedMsg idx deploymentID (Error (wl_Result wl)))
      else scanWorkloads deploymentID wls' (idx + 1) done
  end.

(** The outer loop, by recursion on the clock readings left.  [None]: the
    world description ended before the loop did. *)
Fixpoint waitLoop (deploymentID : Z) (clk : list Z)
    (ans : list (Outcome DeploymentT)) (log : list Event)
    : option (Outcome () * list Event) :=
  match clk with
  | [] => None
  | t :: clk' =>
      if t <? 4 * Minute then
        match ans with
        | [] => None
        | r :: ans' =>
            let log' := log ++ [EvSince t; EvDeploymentGet deploymentID] in
            match r with
            | Ret dl =>
                match scanWorkloads deploymentID (dl_Workloads dl) 0 true with
                | Ret true => Some (Ret (), log')
                | Ret false => waitLoop deploymentID clk' ans' log'
                | Err e => Some (Err e, log')
                | Panic m => Some (Panic m, log')
                end
            | Err e => Some (Err e, log')
            | Panic m => Some (Panic m, log')
            end
        end
      else Some (Err (timedoutMsg deploymentID), log ++ [EvSince t])
  end.

Definition waitDeployment (w : World) (deploymentID : Z)
    : option (Outcome () * list Event) :=
  waitLoop deploymentID (clock w) (answers w) [EvNow].

(** ** Declared and recorded resources

    The provider schema fixes the type of every field of the
    [map[string]interface{}] records, so they are records here. *)

Record Disk : Type := mkDisk {
  disk_name : string;
  disk_size : Z;
  disk_description : string;
  disk_version : Z
}.

Record Zdb : Type := mkZdb {
  zdb_name : string;
  zdb_password : string;
  zdb_size : Z;
  zdb_description : string;
  zdb_version : Z;
  zdb_mode : string
}.

Record Mount : Type := mkMount {
  mount_disk_name : string;
  mount_point : string
}.

Record EnvVar : Type := mkEnvVar {
  env_key : string;
  env_value : string
}.

Record Vm : Type := mkVm {
  vm_name : string;
  vm_flist : string;
  vm_version : Z;
  vm_ip : string;
  vm_cpu : Z;
  vm_memory : Z;
  vm_entrypoint : string;
  vm_mounts : list Mount;
  vm_env_vars : list EnvVar
}.

Global Instance Mount_eq_dec : EqDecision Mount.
Proof. solve_decision. Defined.
Global Instance EnvVar_eq_dec : EqDecision EnvVar.
Proof. solve_decision. Defined.

(** [reflect.DeepEqual] on two lists of mounts or of variables. *)
Definition DeepEqual {A : Type} `{EqDecision A} (x y : list A) : bool :=
  bool_decide (x = y).

(** ** The diff engine *)

Fixpoint diskHasChanged (disk : Disk) (oldDisks : list Disk) : bool * option Disk :=
  match oldDisks with
  | [] => (false, None)
  | diskData :: rest =>
      if String.eqb (disk_name diskData) (disk_name disk) then
        if negb (String.eqb (disk_description diskData) (disk_description disk))
           || negb (disk_size diskData =? disk_size disk)
        then (true, Some diskData)
        else (false, Some diskData)
      else diskHasChanged disk rest
  end.

Fixpoint zdbHasChanged (zdb : Zdb) (oldZdbs : list Zdb) : bool * option Zdb :=
  match oldZdbs with
  | [] => (false, None)
  | zdbData :: rest =>
      if String.eqb (zdb_name zdbData) (zdb_name zdb) then
        if negb (String.eqb (zdb_password zdbData) (zdb_password zdb))
           || negb (zdb_size zdbData =? zdb_size zdb)
           || negb (String.eqb (zdb_description zdbData) (zdb_description zdb))
           || negb (String.eqb (zdb_mode zdbData) (zdb_mode zdb))
        then (true, Some zdbData)
        else (false, Some zdbData)
      else zdbHasChanged zdb rest
  end.

(** The two [reflect.DeepEqual] disjuncts stand as in the source, without a
    negation. *)
Fixpoint vmHasChanged (vm : Vm) (oldVms : list Vm) : bool * option Vm :=
  match oldVms with
  | [] => (false, None)
  | vmData :: rest =>
      if String.eqb (vm_name vmData) (vm_name vm)
         && String.eqb (vm_flist vmData) (vm_flist vm) then
        if negb (vm_cpu vmData =? vm_cpu vm)
           || negb (vm_memory vmData =? vm_memory vm)
           || negb (String.eqb (vm_entrypoint vmData) (vm_entrypoint vm))
           || DeepEqual (vm_mounts vmData) (vm_mounts vm)
           || DeepEqual (vm_env_vars vmData) (vm_env_vars vm)
        then (true, Some vmData)
        else (false, Some vmData)
      else vmHasChanged vm rest
  end.

(** ** Collaborators outside the repository *)

(** [crypto.EncryptECDH] under the user's key pair, which is fixed for one
    run: the cipher text, or an error. *)
Class Crypto : Type := {
  EncryptECDH : string → Outcome (list Z)
}.

(** [substrate.IdentityFromPhrase] on the configured mnemonics, and
    [SecureKey] of the identity it gives: the secret key, or an error. *)
Class Identity : Type := {
  IdentityFromPhrase : Outcome ();
  SecureKey : Outcome (list Z)
}.

(** [hex.EncodeToString] *)
Definition hex_digit (n : Z) : ascii :=
  default "0"%char (String.list_ascii_of_string "0123456789abcdef" !! Z.to_nat n).
Fixpoint hex_EncodeToString (bs : list Z) : string :=
  match bs with
  | [] => ""
  | b :: bs' => String (hex_digit (b / 16)) (String (hex_digit (b mod 16)) (hex_EncodeToString bs'))
  end.

(** ** Building the workloads of a machine *)

Definition machineMounts (mount_points : list Mount) : list MachineMount :=
  map (λ point, {| mm_Name := mount_disk_name point; mm_Mountpoint := mount_point point |})
      mount_points.

(** [envVars[key] = value] for each pair in turn. *)
Definition machineEnv (env_vars : list EnvVar) : gmap string string :=
  foldl (λ envVars envVar, <[env_key envVar := env_value envVar]> envVars) ∅ env_vars.

(** ** The machine loop of [resourceDeploymentCreate] *)

Definition createVmWorkload (networkName freeIP : string) (data : Vm) : Workload :=
  {| wl_Version := Version;
     wl_Name := vm_name data;
     wl_Type := ZMachineType;
     wl_Description := "";
     wl_Data :=
       ZMachine (vm_flist data)
         [ {| mi_Network := networkName; mi_IP := ParseIP freeIP |} ]
         true
         (to_uint8 (vm_cpu data))
         (to_uint64 (to_uint64 (vm_memory data) * Megabyte))
         (vm_entrypoint data)
         (machineMounts (vm_mounts data))
         (machineEnv (vm_env_vars data));
     wl_Result := noResult |}.

Definition set_vm_version (v : Z) (data : Vm) : Vm :=
  {| vm_name := vm_name data; vm_flist := vm_flist data; vm_version := v;
     vm_ip := vm_ip data; vm_cpu := vm_cpu data; vm_memory := vm_memory data;
     vm_entrypoint := vm_entrypoint data; vm_mounts := vm_mounts data;
     vm_env_vars := vm_env_vars data |}.

Definition set_vm_ip (ip : string) (data : Vm) : Vm :=
  {| vm_name := vm_name data; vm_flist := vm_flist data; vm_version := vm_version data;
     vm_ip := ip; vm_cpu := vm_cpu data; vm_memory := vm_memory data;
     vm_entrypoint := vm_entrypoint data; vm_mounts := vm_mounts data;
     vm_env_vars := vm_env_vars data |}.

(** The state of the loop: the workloads so far, [updated_vms], [usedIPs]. *)
Fixpoint createVms (networkName : string) (ipRange : IPNet) (vms : list Vm)
    (workloads : list Workload) (updated_vms : list Vm) (usedIPs : list string)
    : Outcome (list Workload * list Vm * list string) :=
  match vms with
  | [] => Ret (workloads, updated_vms, usedIPs)
  | vm :: vms' =>
      let data := set_vm_version Version vm in
      freeIP ← getFreeIP ipRange usedIPs;
      let usedIPs := usedIPs ++ [freeIP] in
      let data := set_vm_ip freeIP data in
      let workload := createVmWorkload networkName freeIP data in
      createVms networkName ipRange vms' (workloads ++ [workload])
        (updated_vms ++ [data]) usedIPs
  end.

(** ** The resource loops of [resourceDeploymentUpdate] *)

Definition set_disk_version (v : Z) (data : Disk) : Disk :=
  {| disk_name := disk_name data; disk_size := disk_size data;
     disk_description := disk_description data; disk_version := v |}.

Definition set_zdb_version (v : Z) (data : Zdb) : Zdb :=
  {| zdb_name := zdb_name data; zdb_password := zdb_password data;
     zdb_size := zdb_size data; zdb_description := zdb_description data;
     zdb_version := v; zdb_mode := zdb_mode data |}.

(** One iteration of the disk loop: the workload and the record stored. *)
Definition updateDisk (oldDisks : list Disk) (data : Disk) : Workload * Disk :=
  let '(changed, oldDisk) := diskHasChanged data oldDisks in
  let version :=
    match changed, oldDisk with
    | true, Some old => int_add (disk_version old) 1
    | false, Some old => disk_version old
    | _, None => 0
    end in
  let data := set_disk_version version data in
  ({| wl_Version := version;
      wl_Name := disk_name data;
      wl_Type := ZMountType;
      wl_Description := disk_description data;
      wl_Data := ZMount (to_uint64 (to_uint64 (disk_size data) * Gigabyte));
      wl_Result := noResult |},
   data).

(** One iteration of the storage-node loop.  The workload's [Version] is
    the package constant, as in the source; the record gets [version]. *)
Definition updateZdb `{Crypto} (oldZdbs : list Zdb) (data : Zdb) : Outcome (Workload * Zdb) :=
  let '(changed, oldZdb) := zdbHasChanged data oldZdbs in
  let version :=
    match changed, oldZdb with
    | true, Some old => int_add (zdb_version old) 1
    | false, Some old => zdb_version old
    | _, None => 0
    end in
  let data := set_zdb_version version data in
  pwd ← EncryptECDH (zdb_password data);
  Ret ({| wl_Version := Version;
          wl_Name := zdb_name data;
          wl_Type := ZDBType;
          wl_Description := zdb_description data;
          wl_Data := ZDB (to_uint64 (zdb_size data)) (zdb_mode data) (hex_EncodeToString pwd);
          wl_Result := noResult |},
       data).

(** One iteration of the machine loop.  The interface is the literal one
    of the source. *)
Definition updateVm (oldVms : list Vm) (data : Vm) : Workload * Vm :=
  let '(changed, oldVmachine) := vmHasChanged data oldVms in
  let version :=
    match changed, oldVmachine with
    | true, Some old => int_add (vm_version old) 1
    | false, Some old => vm_version old
    | _, None => 0
    end in
  let data := set_vm_version version data in
  ({| wl_Version := version;
      wl_Name := vm_name data;
      wl_Type := ZMachineType;
      wl_Description := "";
      wl_Data :=
        ZMachine (vm_flist data)
          [ {| mi_Network := "network"; mi_IP := ParseIP "10.1.1.3" |} ]
          true
          (to_uint8 (vm_cpu data))
          (to_uint64 (to_uint64 (vm_memory data) * Megabyte))
          (vm_entrypoint data)
          (machineMounts (vm_mounts data))
          (machineEnv (vm_env_vars data));
      wl_Result := noResult |},
   data).

Fixpoint updateZdbs `{Crypto} (oldZdbs : list Zdb) (zdbs : list Zdb)
    : Outcome (list Workload * list Zdb) :=
  match zdbs with
  | [] => Ret ([], [])
  | zdb :: zdbs' =>
      '(workload, data) ← updateZdb oldZdbs zdb;
      '(workloads, updatedZdbs) ← updateZdbs oldZdbs zdbs';
      Ret (workload :: workloads, data :: updatedZdbs)
  end.

(** The part of the schema's [ResourceData] the update reads and writes. *)
Record ResourceData : Type := mkResourceData {
  rd_version : Z;
  rd_node : Z;
  rd_disks : list Disk;
  rd_zdbs : list Zdb;
  rd_vms : list Vm
}.

(** [resourceDeploymentUpdate] up to the deployment it validates, signs and
    submits: [old] is the prior state ([d.GetChange]), [new] the declared
    one ([d.Get]).  Returns the deployment and the resource lists written
    back with [d.Set]. *)
Definition resourceDeploymentUpdate `{Identity} `{Crypto} (twin_id : Z)
    (old new : ResourceData) : Outcome (DeploymentT * ResourceData) :=
  _ ← IdentityFromPhrase;
  userSK ← SecureKey;
  if negb (rd_node old =? rd_node new) then
    Err "changing node is not supported, you need to destroy the deployment and reapply it again"
  else
    let disks := map (updateDisk (rd_disks old)) (rd_disks new) in
    '(zdbWorkloads, updatedZdbs) ← updateZdbs (rd_zdbs old) (rd_zdbs new);
    let vms := map (updateVm (rd_vms old)) (rd_vms new) in
    let workloads := map fst disks ++ zdbWorkloads ++ map fst vms in
    let dlVersion := rd_version new in
    Ret ({| dl_Version := int_add dlVersion 1;
            dl_TwinID := to_uint32 twin_id;
            dl_ContractID := 0;
            dl_Workloads := workloads;
            dl_SignatureRequirement :=
              {| WeightRequired := 1;
                 Requests := [ {| sr_TwinID := twin_id; sr_Weight := 1 |} ];
                 Signatures := [] |} |},
         {| rd_version := rd_version new;
            rd_node := rd_node new;
            rd_disks := map snd disks;
            rd_zdbs := updatedZdbs;
            rd_vms := map snd vms |}).

(** ** The disk and storage-node loops of [resourceDeploymentCreate] *)

(** One iteration of the disk loop. *)
Definition createDisk (data : Disk) : Workload * Disk :=
  let data := set_disk_version Version data in
  ({| wl_Version := Version;
      wl_Name := disk_name data;
      wl_Type := ZMountType;
      wl_Description := disk_description data;
      wl_Data := ZMount (to_uint64 (to_uint64 (disk_size data) * Gigabyte));
      wl_Result := noResult |},
   data).

(** One iteration of the storage-node loop: the password is encrypted
    first, and an error ends the whole create. *)
Definition createZdb `{Crypto} (data : Zdb) : Outcome (Workload * Zdb) :=
  pwd ← EncryptECDH (zdb_password data);
  let data := set_zdb_version Version data in
  Ret ({| wl_Version := Version;
          wl_Name := zdb_name data;
          wl_Type := ZDBType;
          wl_Description := zdb_description data;
          wl_Data := ZDB (to_uint64 (zdb_size data)) (zdb_mode data) (hex_EncodeToString pwd);
          wl_Result := noResult |},
       data).

Fixpoint createZdbs `{Crypto} (zdbs : list Zdb) : Outcome (list Workload * list Zdb) :=
  match zdbs with
  | [] => Ret ([], [])
  | zdb :: zdbs' =>
      '(workload, data) ← createZdb zdb;
      '(workloads, updated_zdbs) ← createZdbs zdbs';
      Ret (workload :: workloads, data :: updated_zdbs)
  end.

(** What [resourceDeploymentCreate] has built when it turns to the ledger:
    the deployment and the local lists [updated_disks], [updated_zdbs],
    [updated_vms] and [usedIPs]. *)
Record Created : Type := mkCreated {
  created_dl : DeploymentT;
  updated_disks : list Disk;
  updated_zdbs : list Zdb;
  updated_vms : list Vm;
  created_usedIPs : list string
}.

(** [resourceDeploymentCreate] from [nodeID := ...] up to the deployment it
    validates, signs and submits: its inputs are the parsed [ip_range], the
    recorded [used_ips], the network name and the declared resources.  The
    parse of [ip_range] and the derivation of the identity, whose errors
    the function returns before it reaches this part, have succeeded. *)
Definition resourceDeploymentCreate `{Crypto} (twin_id : Z) (networkName : string)
    (ipRange : IPNet) (usedIPs : list string) (new : ResourceData) : Outcome Created :=
  let disks := map createDisk (rd_disks new) in
  '(zdbWorkloads, updated_zdbs) ← createZdbs (rd_zdbs new);
  '(workloads, updated_vms, usedIPs) ←
      createVms networkName ipRange (rd_vms new) (map fst disks ++ zdbWorkloads) [] usedIPs;
  Ret {| created_dl :=
           {| dl_Version := Version;
              dl_TwinID := to_uint32 twin_id;
              dl_ContractID := 0;
              dl_Workloads := workloads;
              dl_SignatureRequirement :=
                {| WeightRequired := 1;
                   Requests := [ {| sr_TwinID := twin_id; sr_Weight := 1 |} ];
                   Signatures := [] |} |};
         updated_disks := map snd disks;
         updated_zdbs := updated_zdbs;
         updated_vms := updated_vms;
         created_usedIPs := usedIPs |}.

(** ** [flattenDiskData], [flattenVMData] and the loop of
    [resourceDeploymentRead] *)

(** [workload.WorkloadData()] decodes the payload into the structure of the
    workload's type; a payload of another shape is reported as the decoding
    error here. *)
Definition WorkloadData_error : string := "failed to load data".

(** The map it returns has the keys [name], [size], [description] and
    [version], those of a disk record. *)
Definition flattenDiskData (workload : Workload) : Outcome Disk :=
  match wl_Type workload with
  | ZMountType =>
      match wl_Data workload with
      | ZMount Size =>
          Ret {| disk_name := wl_Name workload;
                 disk_size := Size / Gigabyte;
                 disk_description := wl_Description workload;
                 disk_version := wl_Version workload |}
      | _ => Err WorkloadData_error
      end
  | _ => Err "The wrokload is not of type zos.ZMountType"
  end.

(** The map [flattenVMData] returns.  Each of its mounts pairs the two
    variables of [for diskName, mountPoint := range data.Mounts], the
    position and the element of the slice. *)
Record FlatMount : Type := mkFlatMount {
  fm_disk_name : Z;
  fm_mount_point : MachineMount
}.

Record FlatVm : Type := mkFlatVm {
  fv_cpu : Z;
  fv_memory : Z;
  fv_mounts : list FlatMount;
  fv_name : string;
  fv_flist : string;
  fv_version : Z;
  fv_description : string
}.

Definition flattenVMData (workload : Workload) : Outcome FlatVm :=
  match wl_Type workload with
  | ZMachineType =>
      match wl_Data workload with
      | ZMachine FList _ _ CPU Memory _ Mounts _ =>
          Ret {| fv_cpu := CPU;
                 fv_memory := Memory;
                 fv_mounts :=
                   imap (λ diskName mountPoint,
                           {| fm_disk_name := Z.of_nat diskName;
                              fm_mount_point := mountPoint |}) Mounts;
                 fv_name := wl_Name workload;
                 fv_flist := FList;
                 fv_version := wl_Version workload;
                 fv_description := wl_Description workload |}
      | _ => Err WorkloadData_error
      end
  | _ => Err "The wrokload is not of type zos.ZMachineType"
  end.

(** The loop over the workloads of the fetched deployment. *)
Fixpoint readWorkloads (wls : list Workload) (disks : list Disk) (vms : list FlatVm)
    : Outcome (list Disk * list FlatVm) :=
  match wls with
  | [] => Ret (disks, vms)
  | workload :: wls' =>
      disks ←
        (match wl_Type workload with
         | ZMountType => flattened ← flattenDiskData workload; Ret (disks ++ [flattened])
         | _ => Ret disks
         end);
      vms ←
        (match wl_Type workload with
         | ZMachineType => flattened ← flattenVMData workload; Ret (vms ++ [flattened])
         | _ => Ret vms
         end);
      readWorkloads wls' disks vms
  end.

(** What [resourceDeploymentRead] sets from the deployment the node
    returned: [vms], [disks] and [version]. *)
Definition resourceDeploymentRead (deployment : DeploymentT)
    : Outcome (list FlatVm * list Disk * Z) :=
  '(disks, vms) ← readWorkloads (dl_Workloads deployment) [] [];
  Ret (vms, disks, dl_Version deployment).

(** ** The ledger and the nodes: collaborators outside the repository *)

(** The calls made to the ledger ([substrate]) and to a node's client, in
    the order made. *)
Inductive Call : Type :=
  | CNewSubstrate
  | CGetNode (node : Z)
  | CCancelContract (contract : Z)
  | CDeploymentDelete (twin contract : Z).

Global Instance Call_eq_dec : EqDecision Call.
Proof. solve_decision. Defined.

(** What each call answers, given the calls made before it.  [GetNode]
    answers the node's twin id. *)
Record Grid : Type := mkGrid {
  NewClient : Outcome ();
  NewSubstrate : list Call → Outcome ();
  GetNode : list Call → Z → Outcome Z;
  CancelContract : list Call → Z → Outcome ();
  DeploymentDelete : list Call → Z → Z → Outcome ()
}.

(** A computation that makes calls: from the calls made so far to its
    outcome and the calls made by its end. *)
Definition Eff (A : Type) : Type := list Call → Outcome A * list Call.

Definition retE {A : Type} (a : A) : Eff A := λ log, (Ret a, log).
Definition bindE {A B : Type} (m : Eff A) (k : A → Eff B) : Eff B :=
  λ log, match m log with
         | (Ret a, log') => k a log'
         | (Err e, log') => (Err e, log')
         | (Panic p, log') => (Panic p, log')
         end.
(** A step that makes no call. *)
Definition liftE {A : Type} (o : Outcome A) : Eff A := λ log, (o, log).
(** A call: answered from the calls before it, then recorded. *)
Definition callE {A : Type} (c : Call) (answer : list Call → Outcome A) : Eff A :=
  λ log, (answer log, log ++ [c]).
(** [if err != nil { panic(err) }] and [_ = f()] around a step. *)
Definition panicE {A : Type} (m : Eff A) : Eff A :=
  λ log, match m log with
         | (Err e, log') => (Panic e, log')
         | r => r
         end.
Definition ignoreE (m : Eff ()) : Eff () :=
  λ log, match m log with
         | (Err e, log') => (Ret (), log')
         | r => r
         end.

Global Instance Eff_ret : MRet Eff := @retE.
Global Instance Eff_bind : MBind Eff := λ A B k m, bindE m k.

(** ** [strconv.FormatUint(n, 10)] and [strconv.ParseUint(s, 10, 64)] *)

(** The two functions of the Go standard library that write and read the
    resource id: the decimal digits of an unsigned number, and the loop
    that reads them back, which refuses the empty text and any byte that
    is not a digit (a syntax error) and any value past 2^64 - 1 (a range
    error). *)

Definition FormatUint (n : Z) : string := pretty (Z.to_N n).

(** [strconv.Quote], used in the text of the errors. *)
Class Strconv : Type := {
  Quote : string → string
}.

Definition maxUint64 : Z := 2 ^ 64 - 1.

Inductive NumError : Type := ErrSyntax | ErrRange.

Fixpoint ParseUint_loop (s : string) (n : Z) : NumError + Z :=
  match s with
  | EmptyString => inr n
  | String c s' =>
      match digit_val c with
      | None => inl ErrSyntax
      | Some d =>
          if maxUint64 / 10 + 1 <=? n then inl ErrRange
          else
            let n := to_uint64 (n * 10) in
            let n1 := to_uint64 (n + d) in
            if (n1 <? n) || (maxUint64 <? n1) then inl ErrRange
            else ParseUint_loop s' n1
      end
  end.

Definition ParseUint `{Strconv} (s : string) : Outcome Z :=
  match s with
  | EmptyString => Err ("strconv.ParseUint: parsing " +:+ Quote s +:+ ": invalid syntax")
  | _ =>
      match ParseUint_loop s 0 with
      | inr n => Ret n
      | inl ErrSyntax => Err ("strconv.ParseUint: parsing " +:+ Quote s +:+ ": invalid syntax")
      | inl ErrRange => Err ("strconv.ParseUint: parsing " +:+ Quote s +:+ ": value out of range")
      end
  end.

(** ** [resourceDeploymentDelete] *)

(** From the recorded node and the resource id to the id the resource has
    when the delete returns without an error. *)
Definition resourceDeploymentDelete `{Identity} `{Strconv} (g : Grid) (node : Z)
    (id : string) : Eff string :=
  let nodeID := to_uint32 node in
  _ ← liftE IdentityFromPhrase;
  _ ← callE CNewSubstrate (NewSubstrate g);
  twin ← callE (CGetNode nodeID) (λ log, GetNode g log nodeID);
  contractID ← liftE (ParseUint id);
  _ ← callE (CCancelContract contractID) (λ log, CancelContract g log contractID);
  _ ← callE (CDeploymentDelete (to_uint32 twin) contractID)
        (λ log, DeploymentDelete g log (to_uint32 twin) contractID);
  mret "".

End Deployment.

Module Network.

Import Deployment.

(** ** Keys, validation and signing: collaborators outside the repository *)

(** [wgtypes.Key] is an array of 32 bytes. *)
Definition Key : Type := list Z.
Definition zeroKey : Key := replicate 32 0.

(** [Key.PublicKey] and [Key.String]. *)
Class WireGuard : Type := {
  PublicKey : Key → Key;
  KeyString : Key → string
}.

(** [Deployment.Valid] (the error text, if any) and the signature that
    [Deployment.Sign] computes and appends to the requirement. *)
Class GridTypes : Type := {
  Valid : DeploymentT → option string;
  Signature : Z → list Z → DeploymentT → Outcome string
}.

Definition Sign `{GridTypes} (twin : Z) (sk : list Z) (d : DeploymentT) : Outcome DeploymentT :=
  sg ← Signature twin sk d;
  Ret {| dl_Version := dl_Version d;
         dl_TwinID := dl_TwinID d;
         dl_ContractID := dl_ContractID d;
         dl_Workloads := dl_Workloads d;
         dl_SignatureRequirement :=
           {| WeightRequired := WeightRequired (dl_SignatureRequirement d);
              Requests := Requests (dl_SignatureRequirement d);
              Signatures := Signatures (dl_SignatureRequirement d) ++ [(twin, sg)] |} |}.

(** ** [getNodeEndpoint] *)

Definition nodeIps : gmap Z string :=
  <[4 := "2a02:1802:5e:16:225:90ff:fe87:d7b4"]>
  (<[3 := "2a02:1802:5e:16:225:90ff:fef5:6d02"]>
  (<[2 := "2a02:1802:5e:16:225:90ff:fef5:582e"]>
  (<[1 := "2a02:1802:5e:16:ec4:7aff:fe30:65b4"]> ∅))).

(** [fmt.Sprintf("[%s]:%d", nodeIps[nodeId], wgPort)]; a missing key reads
    as the empty string. *)
Definition getNodeEndpoint (nodeId wgPort : Z) : string :=
  "[" +:+ default "" (nodeIps !! nodeId) +:+ "]:" +:+ fmt_d wgPort.

Fixpoint isInInt (l : list Z) (i : Z) : bool :=
  match l with
  | [] => false
  | x :: l' => if i =? x then true else isInInt l' i
  end.

Definition getPublicNode : Z := 1.

(** ** [wgIP] *)

Definition wgIP (ip : IPNet) : Outcome IPNet :=
  a ← index (IP ip) (len (IP ip) - 3);
  b ← index (IP ip) (len (IP ip) - 2);
  Ret {| IP := IPv4 100 64 a b; Mask := CIDRMask32 32 |}.

(** ** The network configuration *)

Record NetworkConfiguration : Type := mkNetworkConfiguration {
  NodeIDs : list Z;
  Keys : gmap Z Key;
  Versions : gmap Z Z;
  DeplotmentIDs : gmap Z Z;
  IPs : gmap Z IPNet;
  WGPort : gmap Z Z;
  PublicNodeID : Z;
  ExternalNodeIP : IPNet;
  ExternalNodeKey : Key
}.

Record DeploymentInformation : Type := mkDeploymentInformation {
  WGAccessConfiguration : string;
  Deployments : list DeploymentT
}.

Record UserIdentityInfo : Type := mkUserIdentityInfo {
  TwinID : Z;
  UserSK : list Z
}.

(** Reading a map without the [ok] flag gives the zero value. *)
Definition zeroIPNet : IPNet := {| IP := []; Mask := [] |}.
Definition keyOf (nc : NetworkConfiguration) (n : Z) : Key := default zeroKey (Keys nc !! n).
Definition ipOf (nc : NetworkConfiguration) (n : Z) : IPNet := default zeroIPNet (IPs nc !! n).
Definition portOf (nc : NetworkConfiguration) (n : Z) : Z := default 0 (WGPort nc !! n).

(** ** [generateWGConfig] *)

Definition nl : string := String "010"%char "".
Definition tab : string := String "009"%char "".

Definition generateWGConfig
    (Address AccessPrivatekey NodePublicKey NodeEndpoint NetworkIPRange : string) : string :=
  nl +:+ "[Interface]" +:+ nl
  +:+ "Address = " +:+ Address +:+ nl
  +:+ "PrivateKey = " +:+ AccessPrivatekey +:+ nl
  +:+ "[Peer]" +:+ nl
  +:+ "PublicKey = " +:+ NodePublicKey +:+ nl
  +:+ "AllowedIPs = " +:+ NetworkIPRange +:+ ", 100.64.0.0/16" +:+ nl
  +:+ "PersistentKeepalive = 25" +:+ nl
  +:+ "Endpoint = " +:+ NodeEndpoint +:+ nl
  +:+ tab.

(** ** [generateDeployments] *)

(** One iteration of the inner loop, for a neighbour other than [node]. *)
Definition neighPeer `{WireGuard} (nc : NetworkConfiguration) (neigh : Z) : Outcome Peer :=
  let neigh_ip_range := ipOf nc neigh in
  let neigh_port := portOf nc neigh in
  let neigh_pubkey := KeyString (PublicKey (keyOf nc neigh)) in
  w ← wgIP neigh_ip_range;
  let allowed_ips := [neigh_ip_range; w] in
  allowed_ips ←
    (if neigh =? PublicNodeID nc then
       we ← wgIP (ExternalNodeIP nc);
       Ret (allowed_ips ++ [ExternalNodeIP nc] ++ [we])
     else Ret allowed_ips);
  Ret {| Subnet := neigh_ip_range;
         WGPublicKey := neigh_pubkey;
         Endpoint := getNodeEndpoint neigh neigh_port;
         AllowedIPs := allowed_ips |}.

(** The inner loop [for _, neigh := range nc.NodeIDs]. *)
Fixpoint peersLoop `{WireGuard} (nc : NetworkConfiguration) (node : Z)
    (neighs : list Z) (peers : list Peer) : Outcome (list Peer) :=
  match neighs with
  | [] => Ret peers
  | neigh :: neighs' =>
      if node =? neigh then peersLoop nc node neighs' peers
      else
        p ← neighPeer nc neigh;
        peersLoop nc node neighs' (peers ++ [p])
  end.

(** The access configuration written when the loop reaches the public node. *)
Definition accessConfig `{WireGuard} (nc : NetworkConfiguration) (node : Z) : string :=
  let nodePubky := KeyString (PublicKey (keyOf nc node)) in
  generateWGConfig "100.64.1.2" (KeyString (ExternalNodeKey nc)) nodePubky
    ("185.206.122.31" +:+ ":" +:+ fmt_d (portOf nc (PublicNodeID nc)))
    "10.1.0.0/16".

(** The peer appended for the external access point. *)
Definition accessPeer `{WireGuard} (nc : NetworkConfiguration) : Outcome Peer :=
  we ← wgIP (ExternalNodeIP nc);
  Ret {| Subnet := ExternalNodeIP nc;
         WGPublicKey := KeyString (PublicKey (ExternalNodeKey nc));
         Endpoint := "";
         AllowedIPs := [ExternalNodeIP nc; we] |}.

(** [gridtypes.MustParseIPNet("10.1.0.0/16")] *)
Definition networkIPRange : IPNet := ipNet 10 1 0 0 16.

Definition nodeDeployment (userInfo : UserIdentityInfo) (workload : Workload) : DeploymentT :=
  {| dl_Version := Version;
     dl_TwinID := TwinID userInfo;
     dl_ContractID := 0;
     dl_Workloads := [workload];
     dl_SignatureRequirement :=
       {| WeightRequired := 1;
          Requests := [ {| sr_TwinID := TwinID userInfo; sr_Weight := 1 |} ];
          Signatures := [] |} |}.

(** The one workload of a node's deployment. *)
Definition networkWorkload `{WireGuard} (nc : NetworkConfiguration) (node : Z)
    (node_ip_range : IPNet) (node_port : Z) (peers : list Peer) : Workload :=
  {| wl_Version := 0;
     wl_Name := "network1";
     wl_Type := NetworkType;
     wl_Description := "test network";
     wl_Data := Network networkIPRange node_ip_range
                  (KeyString (keyOf nc node)) (to_uint16 node_port) peers;
     wl_Result := noResult |}.

(** [deployment.Valid()] then [deployment.Sign(...)], each panicking on an
    error. *)
Definition validAndSigned `{GridTypes} (userInfo : UserIdentityInfo)
    (deployment : DeploymentT) : Outcome DeploymentT :=
  match Valid deployment with
  | Some err => Panic ("invalid: " +:+ err)
  | None =>
      match Sign (TwinID userInfo) (UserSK userInfo) deployment with
      | Ret deployment => Ret deployment
      | Err e => Panic e
      | Panic m => Panic m
      end
  end.

(** The body of the outer loop for one [node]: the access configuration
    after it and the signed deployment appended. *)
Definition nodeStep `{WireGuard} `{GridTypes} (nc : NetworkConfiguration)
    (userInfo : UserIdentityInfo) (node : Z) (wgConfig : string)
    : Outcome (string * DeploymentT) :=
  peers ← peersLoop nc node (NodeIDs nc) [];
  '(wgConfig, peers) ←
    (if node =? PublicNodeID nc then
       let WGConfig := accessConfig nc node in
       p ← accessPeer nc;
       Ret (WGConfig, peers ++ [p])
     else Ret (wgConfig, peers));
  match IPs nc !! node with
  | None => Panic "why node ip range not found"
  | Some node_ip_range =>
      match WGPort nc !! node with
      | None => Panic "free port of node not found"
      | Some node_port =>
          let workload := networkWorkload nc node node_ip_range node_port peers in
          let deployment := nodeDeployment userInfo workload in
          deployment ← validAndSigned userInfo deployment;
          Ret (wgConfig, deployment)
      end
  end.

(** The outer loop [for _, node := range nc.NodeIDs]. *)
Fixpoint nodesLoop `{WireGuard} `{GridTypes} (nc : NetworkConfiguration)
    (userInfo : UserIdentityInfo) (nodes : list Z) (wgConfig : string)
    (deployments : list DeploymentT) : Outcome DeploymentInformation :=
  match nodes with
  | [] => Ret {| WGAccessConfiguration := wgConfig; Deployments := deployments |}
  | node :: nodes' =>
      '(wgConfig, deployment) ← nodeStep nc userInfo node wgConfig;
      nodesLoop nc userInfo nodes' wgConfig (deployments ++ [deployment])
  end.

Definition generateDeployments `{WireGuard} `{GridTypes} (nc : NetworkConfiguration)
    (userInfo : UserIdentityInfo) : Outcome DeploymentInformation :=
  nodesLoop nc userInfo (NodeIDs nc) "" [].

(** ** [isIn], [isInByte] *)

Fixpoint isIn (l : list Z) (i : Z) : bool :=
  match l with
  | [] => false
  | x :: l' => if i =? x then true else isIn l' i
  end.

Fixpoint isInByte (l : list Z) (i : Z) : bool :=
  match l with
  | [] => false
  | x :: l' => if i =? x then true else isInByte l' i
  end.

(** ** [getNodeFreeWGPort] *)

(** [if err != nil { panic(err) }] *)
Definition orPanic {A : Type} (o : Outcome A) : Outcome A :=
  match o with
  | Ret a => Ret a
  | Err e => Panic e
  | Panic m => Panic m
  end.

(** What one call of [getNodeFreeWGPort] meets: the message-bus client, the
    ledger connection, the node's twin id, the node's answer to
    [NetworkListWGPorts] (the ports and the error, if any) and the
    successive values of [rand.Intn(6000)]. *)
Record PortWorld : Type := mkPortWorld {
  pw_NewClient : Outcome ();
  pw_NewSubstrate : Outcome ();
  pw_GetNode : Z → Outcome Z;
  pw_NetworkListWGPorts : Z → list Z * option string;
  pw_rand : list Z
}.

(** The sampling: a first draw, then a new draw for as long as the port is
    in the list.  [None]: the draws given were all in the list. *)
Fixpoint samplePort (freeports : list Z) (rands : list Z) : option Z :=
  match rands with
  | [] => None
  | r :: rands' =>
      let p := to_uint64 (r + 2000) in
      if isIn freeports (to_uint16 p) then samplePort freeports rands'
      else Some (wrap_int p)
  end.

(** The error of [NetworkListWGPorts] is not looked at. *)
Definition getNodeFreeWGPort (w : PortWorld) (nodeId : Z) : option (Outcome Z) :=
  match (_ ← orPanic (pw_NewClient w);
         _ ← orPanic (pw_NewSubstrate w);
         twin ← orPanic (pw_GetNode w nodeId);
         Ret (pw_NetworkListWGPorts w (to_uint32 twin)).1) with
  | Ret freeports =>
      match samplePort freeports (pw_rand w) with
      | Some p => Some (Ret p)
      | None => None
      end
  | Err e => Some (Err e)
  | Panic m => Some (Panic m)
  end.

(** ** [NodeDeploymentsInfo], [Dictify], [StoreState], [loadStaet] *)

(** The values of the [map[string]interface{}] of a node record. *)
Inductive Value : Type :=
  | VInt (n : Z)
  | VString (s : string).

Record NodeDeploymentsInfo : Type := mkNodeDeploymentsInfo {
  ndi_Version : Z;
  ndi_DeploymentID : Z;
  ndi_NodeID : Z;
  ndi_WGPrivateKey : string;
  ndi_WGPublicKey : string;
  ndi_WGPort : Z;
  ndi_IPRange : string
}.

Definition Dictify (ndi : NodeDeploymentsInfo) : gmap string Value :=
  <["ip_range" := VString (ndi_IPRange ndi)]>
  (<["wg_port" := VInt (ndi_WGPort ndi)]>
  (<["wg_public_key" := VString (ndi_WGPublicKey ndi)]>
  (<["wg_private_key" := VString (ndi_WGPrivateKey ndi)]>
  (<["deployment_id" := VInt (ndi_DeploymentID ndi)]>
  (<["node_id" := VInt (ndi_NodeID ndi)]>
  (<["version" := VInt (ndi_Version ndi)]> ∅)))))).

(** The list [StoreState] sets under [deployment_info]. *)
Definition StoreState (stateInfo : list NodeDeploymentsInfo) : list (gmap string Value) :=
  map Dictify stateInfo.

(** [info[key].(int)] and [info[key].(string)]: a panic on a missing key or
    on a value of the other type. *)
Definition asInt (info : gmap string Value) (key : string) : Outcome Z :=
  match info !! key with
  | Some (VInt n) => Ret n
  | Some (VString _) => Panic "interface conversion: interface {} is string, not int"
  | None => Panic "interface conversion: interface {} is nil, not int"
  end.

Definition asString (info : gmap string Value) (key : string) : Outcome string :=
  match info !! key with
  | Some (VString s) => Ret s
  | Some (VInt _) => Panic "interface conversion: interface {} is int, not string"
  | None => Panic "interface conversion: interface {} is nil, not string"
  end.

Definition loadOne (info : gmap string Value) : Outcome NodeDeploymentsInfo :=
  version ← asInt info "version";
  deployment_id ← asInt info "deployment_id";
  node_id ← asInt info "node_id";
  wg_private_key ← asString info "wg_private_key";
  wg_public_key ← asString info "wg_public_key";
  wg_port ← asInt info "wg_port";
  ip_range ← asString info "ip_range";
  Ret {| ndi_Version := version; ndi_DeploymentID := deployment_id; ndi_NodeID := node_id;
         ndi_WGPrivateKey := wg_private_key; ndi_WGPublicKey := wg_public_key;
         ndi_WGPort := wg_port; ndi_IPRange := ip_range |}.

(** From the list read under [deployment_info]. *)
Fixpoint loadStaet (encoded : list (gmap string Value)) : Outcome (list NodeDeploymentsInfo) :=
  match encoded with
  | [] => Ret []
  | info :: encoded' =>
      one ← loadOne info;
      stateInfo ← loadStaet encoded';
      Ret (one :: stateInfo)
  end.

(** ** Text forms: collaborators outside the repository *)

(** [gridtypes.IPNet.String], [gridtypes.MustParseIPNet] (a panic on a text
    it cannot parse) and [wgtypes.ParseKey]. *)
Class Codec : Type := {
  IPNetString : IPNet → string;
  MustParseIPNet : string → Outcome IPNet;
  ParseKey : string → Outcome Key
}.

(** ** The configuration [resourceNetworkCreate] builds *)

(** What the calls of [wgtypes.GeneratePrivateKey] and of
    [getNodeFreeWGPort] meet, in call order. *)
Record NetWorld : Type := mkNetWorld {
  nw_GeneratePrivateKey : nat → Outcome Key;
  nw_port : nat → PortWorld
}.

Definition external_node_ip : IPNet := ipNet 10 1 2 0 24.

(** The loop [for idx, node := range node_ids].  [stateInfo] holds the
    entries written so far, those below [idx].  Call [idx + 1] of the key
    generator is the loop's (call 0 made the external key), call [idx] of
    [getNodeFreeWGPort] likewise. *)
Fixpoint createLoop `{WireGuard} `{Codec} (w : NetWorld) (nodes : list Z) (idx : nat)
    (privateKeys : gmap Z Key) (freePort : gmap Z Z) (ip : gmap Z IPNet)
    (stateInfo : list NodeDeploymentsInfo)
    : option (Outcome (gmap Z Key * gmap Z Z * gmap Z IPNet * list NodeDeploymentsInfo)) :=
  match nodes with
  | [] => Some (Ret (privateKeys, freePort, ip, stateInfo))
  | node :: nodes' =>
      match orPanic (nw_GeneratePrivateKey w (S idx)) with
      | Ret key =>
          let privateKeys := <[node := key]> privateKeys in
          let ip := <[node := ipNet 10 1 (to_uint8 (Z.of_nat idx + 3)) 0 24]> ip in
          match getNodeFreeWGPort (nw_port w idx) (to_uint32 node) with
          | Some (Ret port) =>
              let freePort := <[node := port]> freePort in
              let info :=
                {| ndi_Version := 0;
                   ndi_DeploymentID := 0;
                   ndi_NodeID := node;
                   ndi_WGPrivateKey := KeyString (default zeroKey (privateKeys !! node));
                   ndi_WGPublicKey :=
                     KeyString (PublicKey (default zeroKey (privateKeys !! node)));
                   ndi_WGPort := default 0 (freePort !! node);
                   ndi_IPRange := IPNetString (default zeroIPNet (ip !! node)) |} in
              createLoop w nodes' (S idx) privateKeys freePort ip (stateInfo ++ [info])
          | Some (Err e) => Some (Err e)
          | Some (Panic m) => Some (Panic m)
          | None => None
          end
      | Err e => Some (Err e)
      | Panic m => Some (Panic m)
      end
  end.

(** From the external key to [networkConfig.NodeIDs = node_ids]. *)
Definition createConfig `{WireGuard} `{Codec} (w : NetWorld) (node_ids : list Z)
    : option (Outcome (NetworkConfiguration * list NodeDeploymentsInfo)) :=
  match orPanic (nw_GeneratePrivateKey w 0) with
  | Ret external_node_key =>
      match createLoop w node_ids 0 ∅ ∅ ∅ [] with
      | Some (Ret (privateKeys, freePort, ip, stateInfo)) =>
          Some (Ret ({| NodeIDs := node_ids;
                        Keys := privateKeys;
                        Versions := ∅;
                        DeplotmentIDs := ∅;
                        IPs := ip;
                        WGPort := freePort;
                        PublicNodeID := getPublicNode;
                        ExternalNodeIP := external_node_ip;
                        ExternalNodeKey := external_node_key |}, stateInfo))
      | Some (Err e) => Some (Err e)
      | Some (Panic m) => Some (Panic m)
      | None => None
      end
  | Err e => Some (Err e)
  | Panic m => Some (Panic m)
  end.

(** ** [resourceNetworkDelete] *)

(** The body of the loop for one recorded node: a failed [GetNode] or
    [CancelContract] is a panic, a failed [DeploymentDelete] is printed. *)
Definition deleteOne (g : Grid) (info : NodeDeploymentsInfo) : Eff () :=
  let cid := to_uint64 (ndi_DeploymentID info) in
  let nodeID := to_uint32 (ndi_NodeID info) in
  twin ← panicE (callE (CGetNode nodeID) (λ log, GetNode g log nodeID));
  _ ← panicE (callE (CCancelContract cid) (λ log, CancelContract g log cid));
  ignoreE (callE (CDeploymentDelete (to_uint32 twin) cid)
             (λ log, DeploymentDelete g log (to_uint32 twin) cid)).

Fixpoint deleteLoop (g : Grid) (stateInfo : list NodeDeploymentsInfo) : Eff () :=
  match stateInfo with
  | [] => mret ()
  | info :: stateInfo' =>
      _ ← deleteOne g info;
      deleteLoop g stateInfo'
  end.

(** From the list recorded under [deployment_info]. *)
Definition resourceNetworkDelete `{Identity} (g : Grid)
    (encoded : list (gmap string Value)) : Eff () :=
  stateInfo ← liftE (loadStaet encoded);
  _ ← panicE (liftE IdentityFromPhrase);
  _ ← panicE (liftE (NewClient g));
  _ ← panicE (callE CNewSubstrate (NewSubstrate g));
  deleteLoop g stateInfo.

(** ** The removal loop of [resourceNetworkUpdate] *)

(** For a recorded node that is no longer declared: the results of
    [CancelContract] and [DeploymentDelete] are dropped. *)
Definition removeOne (g : Grid) (info : NodeDeploymentsInfo) : Eff () :=
  let nodeID := to_uint32 (ndi_NodeID info) in
  let cid := to_uint64 (ndi_DeploymentID info) in
  _ ← panicE (callE CNewSubstrate (NewSubstrate g));
  twin ← panicE (callE (CGetNode nodeID) (λ log, GetNode g log nodeID));
  _ ← ignoreE (callE (CCancelContract cid) (λ log, CancelContract g log cid));
  ignoreE (callE (CDeploymentDelete (to_uint32 twin) cid)
             (λ log, DeploymentDelete g log (to_uint32 twin) cid)).

Fixpoint removeLoop (g : Grid) (node_ids : list Z) (stateInfo : list NodeDeploymentsInfo)
    : Eff () :=
  match stateInfo with
  | [] => mret ()
  | info :: stateInfo' =>
      if isInInt node_ids (ndi_NodeID info) then removeLoop g node_ids stateInfo'
      else
        _ ← removeOne g info;
        removeLoop g node_ids stateInfo'
  end.

(** ** [loadNetworkConfig] *)

(** The loop [for _, info := range stateInfo]. *)
Fixpoint loadLoop `{Codec} (stateInfo : list NodeDeploymentsInfo)
    (networkConfig : NetworkConfiguration) : Outcome NetworkConfiguration :=
  match stateInfo with
  | [] => Ret networkConfig
  | info :: stateInfo' =>
      key ← orPanic (ParseKey (ndi_WGPrivateKey info));
      ip ← orPanic (MustParseIPNet (ndi_IPRange info));
      loadLoop stateInfo'
        {| NodeIDs := NodeIDs networkConfig ++ [ndi_NodeID info];
           Keys := <[ndi_NodeID info := key]> (Keys networkConfig);
           Versions := <[ndi_NodeID info := ndi_Version info]> (Versions networkConfig);
           DeplotmentIDs :=
             <[ndi_NodeID info := ndi_DeploymentID info]> (DeplotmentIDs networkConfig);
           IPs := <[ndi_NodeID info := ip]> (IPs networkConfig);
           WGPort := <[ndi_NodeID info := ndi_WGPort info]> (WGPort networkConfig);
           PublicNodeID := PublicNodeID networkConfig;
           ExternalNodeIP := ExternalNodeIP networkConfig;
           ExternalNodeKey := ExternalNodeKey networkConfig |}
  end.

(** From the recorded [external_sk], [public_node_id] and [external_ip] and
    the loaded state. *)
Definition loadNetworkConfig `{Codec} (external_sk : string) (public_node_id : Z)
    (external_ip : string) (stateInfo : list NodeDeploymentsInfo)
    : Outcome NetworkConfiguration :=
  nodeKey ← orPanic (ParseKey external_sk);
  externalIP ← orPanic (MustParseIPNet external_ip);
  loadLoop stateInfo
    {| NodeIDs := [];
       Keys := ∅;
       Versions := ∅;
       DeplotmentIDs := ∅;
       IPs := ∅;
       WGPort := ∅;
       PublicNodeID := public_node_id;
       ExternalNodeIP := externalIP;
       ExternalNodeKey := nodeKey |}.

(** ** The subnets [resourceNetworkUpdate] gives to new nodes *)

(** [for isInByte(usedIps, cur) { cur += 1 }] on a byte: after 256 steps
    the scan is back where it started, and goes on for ever ([None]). *)
Fixpoint skipUsed (steps : nat) (usedIps : list Z) (cur : Z) : option Z :=
  match steps with
  | O => None
  | S steps' =>
      if isInByte usedIps cur then skipUsed steps' usedIps (to_uint8 (cur + 1))
      else Some cur
  end.

(** The loop [for _, node := range node_ids] that follows [var cur byte = 3]:
    [l] is [len(network_ip.IP)], [k] counts the nodes added so far, which is
    also the number of the next call of the key generator and of
    [getNodeFreeWGPort]. *)
Fixpoint allocLoop (w : NetWorld) (network_ip : IPNet) (usedIps : list Z)
    (nodes : list Z) (k : nat) (cur : Z) (networkConfig : NetworkConfiguration)
    : option (Outcome NetworkConfiguration) :=
  match nodes with
  | [] => Some (Ret networkConfig)
  | node :: nodes' =>
      match WGPort networkConfig !! node with
      | Some _ => allocLoop w network_ip usedIps nodes' k cur networkConfig
      | None =>
          match skipUsed 256 usedIps cur with
          | None => None
          | Some cur =>
              let l := len (IP network_ip) in
              match (a ← index (IP network_ip) (l - 4);
                     b ← index (IP network_ip) (l - 3);
                     d ← index (IP network_ip) (l - 2);
                     key ← orPanic (nw_GeneratePrivateKey w k);
                     Ret (ipNet a b cur d 24, key)) with
              | Ret (ip, key) =>
                  match getNodeFreeWGPort (nw_port w k) (to_uint32 node) with
                  | Some (Ret port) =>
                      allocLoop w network_ip usedIps nodes' (S k) (to_uint8 (cur + 1))
                        {| NodeIDs := NodeIDs networkConfig ++ [node];
                           Keys := <[node := key]> (Keys networkConfig);
                           Versions := <[node := -1]> (Versions networkConfig);
                           DeplotmentIDs := <[node := -1]> (DeplotmentIDs networkConfig);
                           IPs := <[node := ip]> (IPs networkConfig);
                           WGPort := <[node := port]> (WGPort networkConfig);
                           PublicNodeID := PublicNodeID networkConfig;
                           ExternalNodeIP := ExternalNodeIP networkConfig;
                           ExternalNodeKey := ExternalNodeKey networkConfig |}
                  | Some (Err e) => Some (Err e)
                  | Some (Panic m) => Some (Panic m)
                  | None => None
                  end
              | Err e => Some (Err e)
              | Panic m => Some (Panic m)
              end
          end
      end
  end.

End Network.

(** ** Vocabulary of the properties *)

Module Spec.

Import Deployment.

(** The three conditions of a workload's result. *)
Definition isPending (wl : Workload) : Prop := State (wl_Result wl) = "".
Definition isOk (wl : Workload) : Prop :=
  State (wl_Result wl) ≠ "" ∧ State (wl_Result wl) = StateOk.
Definition isFailed (wl : Workload) : Prop :=
  State (wl_Result wl) ≠ "" ∧ State (wl_Result wl) ≠ StateOk.

(** An answer of the node that leaves the loop waiting: a deployment with
    no failed workload and at least one pending. *)
Definition stillPending (r : Outcome DeploymentT) : Prop :=
  ∃ dl, r = Ret dl ∧ Forall (λ wl, ¬ isFailed wl) (dl_Workloads dl)
        ∧ Exists isPending (dl_Workloads dl).

(** The events of the rounds that read the clock values [ts] and fetched. *)
Definition roundEvents (deploymentID : Z) (ts : list Z) : list Event :=
  flat_map (λ t, [EvSince t; EvDeploymentGet deploymentID]) ts.

(** A polling delay separates any two fetches of a log. *)
Definition delayBetweenFetches (log : list Event) : Prop :=
  ∀ l1 l2 l3 id1 id2,
    log = l1 ++ [EvDeploymentGet id1] ++ l2 ++ [EvDeploymentGet id2] ++ l3 →
    ∃ d, EvSleep d ∈ l2.

(** The allocator's result as the text with a mask suffix. *)
Definition withMask32 (addr : string) : string := addr +:+ "/32".

(** A workload as the node returns it, its result filled in. *)
Definition setResult (r : WorkloadResult) (wl : Workload) : Workload :=
  {| wl_Version := wl_Version wl; wl_Name := wl_Name wl; wl_Type := wl_Type wl;
     wl_Description := wl_Description wl; wl_Data := wl_Data wl; wl_Result := r |}.

(** The deployment [got] is [sent] with results filled in by the node. *)
Definition asDeployed (got sent : DeploymentT) : Prop :=
  dl_Version got = dl_Version sent
  ∧ Forall2 (λ g w, ∃ r, g = setResult r w) (dl_Workloads got) (dl_Workloads sent).

(** The interfaces of a machine workload. *)
Definition interfacesOf (wl : Workload) : list MachineInterface :=
  match wl_Data wl with
  | ZMachine _ ifs _ _ _ _ _ _ => ifs
  | _ => []
  end.

Import Network.

(** The peer list of a generated deployment: that of its one network
    workload. *)
Definition networkPeers (d : DeploymentT) : option (list Peer) :=
  match dl_Workloads d with
  | [wl] => match wl_Data wl with
            | Network _ _ _ _ peers => Some peers
            | _ => None
            end
  | _ => None
  end.

(** Whom the successive peer entries of node [A] stand for: the other
    entries of the node list in order, then the external access point
    ([None]) when [A] is the public node. *)
Definition peerOwners (nc : NetworkConfiguration) (A : Z) : list (option Z) :=
  (Some <$> filter (λ n, n ≠ A) (NodeIDs nc))
  ++ (if decide (A = PublicNodeID nc) then [None] else []).

(** A peer entry carries the subnet, public key and endpoint of its owner. *)
Definition entryFor `{WireGuard} (nc : NetworkConfiguration) (o : option Z) (p : Peer) : Prop :=
  match o with
  | Some B =>
      Subnet p = ipOf nc B
      ∧ WGPublicKey p = KeyString (PublicKey (keyOf nc B))
      ∧ Endpoint p = getNodeEndpoint B (portOf nc B)
  | None =>
      Subnet p = ExternalNodeIP nc
      ∧ WGPublicKey p = KeyString (PublicKey (ExternalNodeKey nc))
      ∧ Endpoint p = ""
  end.

(** Conditions under which no step of the generation panics. *)
Definition runsClean `{WireGuard} `{GridTypes} (nc : NetworkConfiguration) : Prop :=
  (∀ n, n ∈ NodeIDs nc →
        (∃ ip, IPs nc !! n = Some ip ∧ 3 ≤ len (IP ip)) ∧ is_Some (WGPort nc !! n))
  ∧ 3 ≤ len (IP (ExternalNodeIP nc))
  ∧ (∀ d, Valid d = None)
  ∧ (∀ twin sk d, ∃ sg, Signature twin sk d = Ret sg).

(** Replacing the external access subnet. *)
Definition withExternal (nc : NetworkConfiguration) (external : IPNet) : NetworkConfiguration :=
  {| NodeIDs := NodeIDs nc; Keys := Keys nc; Versions := Versions nc;
     DeplotmentIDs := DeplotmentIDs nc; IPs := IPs nc; WGPort := WGPort nc;
     PublicNodeID := PublicNodeID nc; ExternalNodeIP := external;
     ExternalNodeKey := ExternalNodeKey nc |}.

(** Replacing the subnets of the nodes. *)
Definition withIPs (nc : NetworkConfiguration) (ips : gmap Z IPNet) : NetworkConfiguration :=
  {| NodeIDs := NodeIDs nc; Keys := Keys nc; Versions := Versions nc;
     DeplotmentIDs := DeplotmentIDs nc; IPs := ips; WGPort := WGPort nc;
     PublicNodeID := PublicNodeID nc; ExternalNodeIP := ExternalNodeIP nc;
     ExternalNodeKey := ExternalNodeKey nc |}.

(** The value [parse_field] has accumulated after a run of digits. *)
Fixpoint digits_val (str : string) (acc : option Z) : option Z :=
  match str with
  | EmptyString => acc
  | String c str' =>
      if Ascii.eqb c "."%char then None
      else match digit_val c with
           | Some d =>
               let v := match acc with Some a => 10 * a + d | None => d end in
               if v <=? 255 then digits_val str' (Some v) else None
           | None => None
           end
  end.

(** [sub] occurs in [s]. *)
Fixpoint contains (sub s : string) : bool :=
  if String.prefix sub s then true
  else match s with
       | EmptyString => false
       | String _ s' => contains sub s'
       end.

(** [IPNet.String] of an IPv4 range with a canonical mask (the only ranges
    this program builds); [None] for any other. *)
Definition To4 (ip : list Z) : option (list Z) :=
  if decide (length ip = 4%nat) then Some ip
  else if decide (length ip = 16%nat ∧ take 12 ip = v4InV6Prefix) then Some (drop 12 ip)
  else None.
Definition maskOnes (m : list Z) : option Z :=
  head (filter (λ k, CIDRMask32 k = m) (seqZ 0 33)).
Definition IPNet_String (n : IPNet) : option string :=
  match To4 (IP n), maskOnes (Mask n) with
  | Some [a; b; c; d], Some ones => Some (dotted a b c d +:+ "/" +:+ fmt_d ones)
  | _, _ => None
  end.

(** The entry the generation builds for an owner: [neighPeer] for a node,
    [accessPeer] for the external access point. *)
Definition peerOf `{WireGuard} (nc : NetworkConfiguration) (o : option Z) : Outcome Peer :=
  match o with
  | Some B => neighPeer nc B
  | None => accessPeer nc
  end.

(** [d] is the deployment the generation builds for [node], before it is
    validated and signed: the node's recorded subnet and port, and the
    peers built for the owners of its entries. *)
Definition builtFor `{WireGuard} (nc : NetworkConfiguration) (userInfo : UserIdentityInfo)
    (node : Z) (d : DeploymentT) : Prop :=
  ∃ ip port peers,
    IPs nc !! node = Some ip ∧ WGPort nc !! node = Some port
    ∧ Forall2 (λ o p, peerOf nc o = Ret p) (peerOwners nc node) peers
    ∧ d = nodeDeployment userInfo (networkWorkload nc node ip port peers).

(** The declared nodes that the configuration does not know yet. *)
Definition newNodes (nc : NetworkConfiguration) (node_ids : list Z) : list Z :=
  filter (λ n, WGPort nc !! n = None) node_ids.

(** A state entry with the contract id filled in, as the submission loop
    of [resourceNetworkCreate] does once the contract exists. *)
Definition withDeploymentID (id : Z) (info : NodeDeploymentsInfo) : NodeDeploymentsInfo :=
  {| ndi_Version := ndi_Version info;
     ndi_DeploymentID := id;
     ndi_NodeID := ndi_NodeID info;
     ndi_WGPrivateKey := ndi_WGPrivateKey info;
     ndi_WGPublicKey := ndi_WGPublicKey info;
     ndi_WGPort := ndi_WGPort info;
     ndi_IPRange := ndi_IPRange info |}.

End Spec.

(** ** Sample inputs *)

Module Samples.

Import Deployment.

Definition pendingWl : Workload :=
  {| wl_Version := 0; wl_Name := "disk1"; wl_Type := ZMountType; wl_Description := "";
     wl_Data := ZMount Gigabyte; wl_Result := {| State := ""; Error := "" |} |}.

Definition okWl : Workload :=
  {| wl_Version := 0; wl_Name := "disk1"; wl_Type := ZMountType; wl_Description := "";
     wl_Data := ZMount Gigabyte; wl_Result := {| State := "ok"; Error := "" |} |}.

Definition failedWl : Workload :=
  {| wl_Version := 0; wl_Name := "disk2"; wl_Type := ZMountType; wl_Description := "";
     wl_Data := ZMount Gigabyte; wl_Result := {| State := "error"; Error := "no space" |} |}.

Definition dlOf (wls : list Workload) : DeploymentT :=
  {| dl_Version := 0; dl_TwinID := 14; dl_ContractID := 7; dl_Workloads := wls;
     dl_SignatureRequirement := {| WeightRequired := 1; Requests := []; Signatures := [] |} |}.

Definition twoFetches : World :=
  {| clock := [1000; 2000]; answers := [Ret (dlOf [pendingWl]); Ret (dlOf [okWl])] |}.

(** A declared machine, its record after a first apply, and the same
    declaration with two CPUs. *)
Definition web1 : Vm :=
  {| vm_name := "web1"; vm_flist := "https://hub.grid.tf/tf-official-apps/base:latest.flist";
     vm_version := 0; vm_ip := ""; vm_cpu := 1; vm_memory := 1024;
     vm_entrypoint := "/sbin/zinit init"; vm_mounts := []; vm_env_vars := [] |}.
Definition web1_recorded : Vm :=
  {| vm_name := "web1"; vm_flist := "https://hub.grid.tf/tf-official-apps/base:latest.flist";
     vm_version := 0; vm_ip := "10.1.1.2"; vm_cpu := 1; vm_memory := 1024;
     vm_entrypoint := "/sbin/zinit init"; vm_mounts := []; vm_env_vars := [] |}.
Definition web1_cpu2 : Vm :=
  {| vm_name := "web1"; vm_flist := "https://hub.grid.tf/tf-official-apps/base:latest.flist";
     vm_version := 0; vm_ip := "10.1.1.2"; vm_cpu := 2; vm_memory := 1024;
     vm_entrypoint := "/sbin/zinit init"; vm_mounts := []; vm_env_vars := [] |}.

Definition disk1 : Disk :=
  {| disk_name := "data"; disk_size := 10; disk_description := "data disk"; disk_version := 0 |}.

(** A storage node as recorded, and declared again with a new password. *)
Definition db_recorded : Zdb :=
  {| zdb_name := "db"; zdb_password := "first"; zdb_size := 5; zdb_description := "store";
     zdb_version := 0; zdb_mode := "user" |}.
Definition db_declared : Zdb :=
  {| zdb_name := "db"; zdb_password := "second"; zdb_size := 5; zdb_description := "store";
     zdb_version := 0; zdb_mode := "user" |}.

(** The state after a first apply on node 2, and a second declaration
    that changes the password of [db] and the CPU count of [web1]. *)
Definition applied : ResourceData :=
  {| rd_version := 0; rd_node := 2; rd_disks := [disk1]; rd_zdbs := [db_recorded];
     rd_vms := [web1_recorded] |}.
Definition declared : ResourceData :=
  {| rd_version := 0; rd_node := 2; rd_disks := [disk1]; rd_zdbs := [db_declared];
     rd_vms := [web1_cpu2] |}.

(** Stand-ins for the collaborators, to run the definitions on inputs. *)
Definition sampleCrypto : Crypto :=
  {| EncryptECDH := λ s, Ret (map (λ c, Z.of_nat (nat_of_ascii c)) (String.list_ascii_of_string s)) |}.

(** Mnemonics that derive an identity, and mnemonics that do not. *)
Definition sampleIdentity : Identity :=
  {| IdentityFromPhrase := Ret (); SecureKey := Ret [1; 2; 3] |}.
Definition badMnemonics : Identity :=
  {| IdentityFromPhrase := Err "invalid mnemonic"; SecureKey := Ret [] |}.

Import Network.

Definition sampleWireGuard : WireGuard :=
  {| PublicKey := map (λ b, (b + 1) mod 256);
     KeyString := λ k, hex_EncodeToString (take 4 k) |}.
Definition sampleGridTypes : GridTypes :=
  {| Valid := λ _, None; Signature := λ _ _ _, Ret "signed" |}.

(** A validator that refuses a deployment without workloads, and a signer
    that signs for the twin 14 only. *)
Definition strictGridTypes : GridTypes :=
  {| Valid := λ d, match dl_Workloads d with
                   | [] => Some "no workloads"
                   | _ => None
                   end;
     Signature := λ twin _ _, if twin =? 14 then Ret "signed" else Err "unknown twin" |}.

Definition sampleUser : UserIdentityInfo := {| TwinID := 14; UserSK := [1; 2; 3] |}.

(** A configuration in the shape [resourceNetworkCreate] builds for the
    node list [nodes]: a subnet 10.1.x.0/24, a port and a key per node, here
    chosen by hand. *)
Definition sampleConfig (nodes : list Z) (public : Z) (external : IPNet) : NetworkConfiguration :=
  {| NodeIDs := nodes;
     Keys := list_to_map (map (λ n, (n, replicate 32 n)) nodes);
     Versions := ∅;
     DeplotmentIDs := ∅;
     IPs := list_to_map (map (λ n, (n, ipNet 10 1 (n + 2) 0 24)) nodes);
     WGPort := list_to_map (map (λ n, (n, 3000 + n)) nodes);
     PublicNodeID := public;
     ExternalNodeIP := external;
     ExternalNodeKey := replicate 32 9 |}.

(** Node lists [1, 2], [1, 2, 2] and [1, 5] with public node 1 and the
    external subnet 10.1.2.0/24 of [resourceNetworkCreate]. *)
Definition twoNodes : NetworkConfiguration := sampleConfig [1; 2] 1 (ipNet 10 1 2 0 24).
Definition repeatedNode : NetworkConfiguration := sampleConfig [1; 2; 2] 1 (ipNet 10 1 2 0 24).
Definition unknownNode : NetworkConfiguration := sampleConfig [1; 5] 1 (ipNet 10 1 2 0 24).

(** Text forms for the samples: the dotted form of [Spec.IPNet_String], and
    its inverse on the ranges 10.1.0.0/16 and 10.1.x.0/24; keys are read
    back from the text [sampleWireGuard] writes, among the keys of bytes all
    equal. *)
Definition sampleRanges : list IPNet :=
  ipNet 10 1 0 0 16 :: map (λ c, ipNet 10 1 c 0 24) (seqZ 0 256).
Definition sampleKeys : list Key := map (replicate 32) (seqZ 0 256).
Definition sampleCodec : Codec :=
  {| IPNetString := λ n, default "" (Spec.IPNet_String n);
     MustParseIPNet := λ s,
       match filter (λ n, default "" (Spec.IPNet_String n) = s) sampleRanges with
       | n :: _ => Ret n
       | [] => Panic "invalid cidr"
       end;
     ParseKey := λ s,
       match filter (λ k, @KeyString sampleWireGuard k = s) sampleKeys with
       | k :: _ => Ret k
       | [] => Err "invalid key"
       end |}.

(** A world in which every key is generated and every node lists port 2005
    and is met with the draws 5 and then 6 more than the number of the call. *)
Definition samplePortWorld (k : nat) : PortWorld :=
  {| pw_NewClient := Ret ();
     pw_NewSubstrate := Ret ();
     pw_GetNode := λ n, Ret (n + 100);
     pw_NetworkListWGPorts := λ _, ([2005], None);
     pw_rand := [5; Z.of_nat k + 6] |}.
Definition sampleNetWorld : NetWorld :=
  {| nw_GeneratePrivateKey := λ k, Ret (replicate 32 (Z.of_nat k + 40));
     nw_port := samplePortWorld |}.

(** A ledger and nodes that answer every call; the twin of node [n] is
    [n + 100].  Then the same with every node refusing to delete, and with
    the ledger refusing to cancel contract 12. *)
Definition sampleStrconv : Strconv :=
  {| Quote := λ s, String "034"%char (s +:+ String "034"%char "") |}.
Definition sampleGrid : Grid :=
  {| NewClient := Ret ();
     NewSubstrate := λ _, Ret ();
     GetNode := λ _ n, Ret (n + 100);
     CancelContract := λ _ _, Ret ();
     DeploymentDelete := λ _ _ _, Ret () |}.
Definition deafNodes : Grid :=
  {| NewClient := Ret ();
     NewSubstrate := λ _, Ret ();
     GetNode := λ _ n, Ret (n + 100);
     CancelContract := λ _ _, Ret ();
     DeploymentDelete := λ _ _ _, Err "node unreachable" |}.
Definition stubbornLedger : Grid :=
  {| NewClient := Ret ();
     NewSubstrate := λ _, Ret ();
     GetNode := λ _ n, Ret (n + 100);
     CancelContract := λ _ c, if c =? 12 then Err "no such contract" else Ret ();
     DeploymentDelete := λ _ _ _, Ret () |}.

(** The recorded state of a network on the nodes 7, 4 and 9 with the
    contracts 11, 12 and 13. *)
Definition threeRecorded : list NodeDeploymentsInfo :=
  [ mkNodeDeploymentsInfo 0 11 7 "sk7" "pk7" 3007 "10.1.3.0/24";
    mkNodeDeploymentsInfo 0 12 4 "sk4" "pk4" 3004 "10.1.4.0/24";
    mkNodeDeploymentsInfo 0 13 9 "sk9" "pk9" 3009 "10.1.5.0/24" ].

End Samples.

(** * Properties *)

Import Deployment Spec Samples.

(** ** The IP allocator *)

Section Allocator.

Lemma isInStr_elem_of (l : list string) (s : string) :
  isInStr l s = true ↔ s ∈ l.
Proof.
  induction l as [|x l IH]; simpl.
  - split; [discriminate | intros H; inversion H].
  - destruct (String.eqb_spec s x) as [->|Hne].
    + split; [intros _; left | reflexivity].
    + rewrite IH. split.
      * intros H. by right.
      * intros H. inversion H; subst; [congruence | assumption].
Qed.

Lemma isInStr_false (l : list string) (s : string) :
  isInStr l s = false ↔ s ∉ l.
Proof.
  rewrite <- isInStr_elem_of. destruct (isInStr l s); split; congruence.
Qed.

(** What the loop returns, in terms of the candidates it formats. *)
Lemma getFreeIP_loop_spec (f : Z → string) (ipRange : IPNet) (usedIPs : list string) :
  (∀ i, 2 ≤ i < 255 → candidate ipRange i = Ret (f i)) →
  ∀ (fuel : nat) (i : Z),
    2 ≤ i → 255 - i ≤ Z.of_nat fuel →
    (∃ h, (i ≤ h < 255) ∧ getFreeIP_loop (S fuel) ipRange usedIPs i = Ret (f h)
          ∧ (f h ∉ usedIPs) ∧ ∀ h', i ≤ h' < h → f h' ∈ usedIPs)
    ∨ (getFreeIP_loop (S fuel) ipRange usedIPs i = Err "all ips are used"
       ∧ ∀ h, i ≤ h < 255 → f h ∈ usedIPs).
Proof.
  intros Hc fuel. induction fuel as [|fuel IH]; intros i Hi Hfuel.
  - right. simpl. destruct (Z.ltb_spec i 255) as [Hlt|Hge]; [lia|].
    split; [done|]. intros h Hh. lia.
  - remember (S fuel) as n eqn:Hn. simpl.
    destruct (Z.ltb_spec i 255) as [Hlt|Hge].
    + rewrite Hc by lia. simpl.
      destruct (isInStr usedIPs (f i)) eqn:Hin; simpl.
      * apply isInStr_elem_of in Hin. subst n.
        assert (H1 : 2 ≤ i + 1) by lia.
        assert (H2 : 255 - (i + 1) ≤ Z.of_nat fuel) by lia.
        destruct (IH (i + 1) H1 H2) as [(h & Hh & Hr & Hfree & Hbelow)|[Hr Hall]].
        -- left. exists h. repeat split; [lia|lia|done|done|].
           intros h' Hh'. destruct (decide (h' = i)) as [->|]; [done|]. apply Hbelow. lia.
        -- right. split; [done|]. intros h Hh.
           destruct (decide (h = i)) as [->|]; [done|]. apply Hall. lia.
      * apply isInStr_false in Hin. left. exists i.
        repeat split; [lia|lia|done|]. intros h' Hh'. lia.
    + right. split; [done|]. intros h Hh. lia.
Qed.

(** Whatever the range, a returned address was not in the used list. *)
Lemma getFreeIP_loop_fresh (ipRange : IPNet) (usedIPs : list string) (fuel : nat) :
  ∀ (i : Z) (s : string),
    getFreeIP_loop fuel ipRange usedIPs i = Ret s → s ∉ usedIPs.
Proof.
  induction fuel as [|fuel IH]; intros i s; simpl; [discriminate|].
  destruct (i <? 255); [|discriminate].
  destruct (candidate ipRange i) as [ipStr| |]; simpl; try discriminate.
  destruct (isInStr usedIPs ipStr) eqn:Hin; simpl.
  - apply IH.
  - intros [= <-]. by apply isInStr_false.
Qed.

Lemma getFreeIP_fresh (ipRange : IPNet) (usedIPs : list string) (s : string) :
  getFreeIP ipRange usedIPs = Ret s → s ∉ usedIPs.
Proof. apply getFreeIP_loop_fresh. Qed.

(** On a range held in the 16-byte form, the candidate for host id [i] is
    the dotted address on the range's first three octets. *)
Lemma candidate_16 (ipRange : IPNet) (a b c i : Z) :
  length (IP ipRange) = 16%nat →
  IP ipRange !! 12%nat = Some a →
  IP ipRange !! 13%nat = Some b →
  IP ipRange !! 14%nat = Some c →
  0 ≤ i < 256 →
  candidate ipRange i = Ret (dotted a b c i).
Proof.
  intros Hlen Ha Hb Hc Hi. unfold candidate, len, index. rewrite Hlen. simpl.
  change (Z.to_nat (Z.of_nat 16 - 4)) with 12%nat.
  change (Z.to_nat (Z.of_nat 16 - 3)) with 13%nat.
  change (Z.to_nat (Z.of_nat 16 - 2)) with 14%nat.
  rewrite Ha, Hb, Hc. simpl.
  unfold to_uint8. rewrite Z.mod_small by lia. reflexivity.
Qed.

(** The machine loop of the create path hands out pairwise different
    addresses, none of which was in use before. *)
Lemma createVms_addresses (networkName : string) (ipRange : IPNet) (vms : list Vm) :
  ∀ (workloads workloads' : list Workload) (updated updated' : list Vm)
    (usedIPs usedIPs' : list string),
    createVms networkName ipRange vms workloads updated usedIPs
      = Ret (workloads', updated', usedIPs') →
    ∃ ips, usedIPs' = usedIPs ++ ips ∧ length ips = length vms
           ∧ NoDup ips ∧ ∀ x, x ∈ ips → x ∉ usedIPs.
Proof.
  induction vms as [|vm vms IH]; intros wls wls' upd upd' used used' Hrun; simpl in Hrun.
  - injection Hrun as <- <- <-. exists []. rewrite app_nil_r.
    repeat split; [constructor | intros x Hx; inversion Hx].
  - destruct (getFreeIP ipRange used) as [freeIP| |] eqn:Hfree; simpl in Hrun; try discriminate.
    apply getFreeIP_fresh in Hfree.
    apply IH in Hrun as (ips & -> & Hlen & Hnd & Hdisj).
    exists (freeIP :: ips). rewrite <- app_assoc. simpl.
    repeat split; [by rewrite Hlen | | ].
    + constructor; [|done]. intros Hin. apply (Hdisj _ Hin).
      apply elem_of_app. right. by left.
    + intros x Hx Hused. apply elem_of_cons in Hx as [->|Hx]; [done|].
      apply (Hdisj _ Hx). apply elem_of_app. by left.
Qed.

(** C4, as amended.  For a range held in the 16-byte form, with first
    three octets [a.b.c]: the allocator returns the dotted-quad text
    [a.b.c.h] (without a mask suffix) of the least host id [h] in
    [2 .. 254] whose address is not in the used list; it returns the error
    [all ips are used] exactly when every host id in [2 .. 254] is used; it
    never panics; an address it returns was not in use and is not returned
    again once appended to the used list; and the addresses handed out by
    the create loop, which appends each one, are pairwise different. *)
Theorem getFreeIP_first_free_dotted (ipRange : IPNet) (usedIPs : list string) (a b c : Z) :
  length (IP ipRange) = 16%nat →
  IP ipRange !! 12%nat = Some a →
  IP ipRange !! 13%nat = Some b →
  IP ipRange !! 14%nat = Some c →
  (∀ s, getFreeIP ipRange usedIPs = Ret s ↔
        ∃ h, (2 ≤ h ≤ 254) ∧ s = dotted a b c h ∧ (dotted a b c h ∉ usedIPs)
             ∧ ∀ h', 2 ≤ h' < h → dotted a b c h' ∈ usedIPs)
  ∧ (getFreeIP ipRange usedIPs = Err "all ips are used" ↔
     ∀ h, 2 ≤ h ≤ 254 → dotted a b c h ∈ usedIPs)
  ∧ (∀ e, getFreeIP ipRange usedIPs = Err e → e = "all ips are used")
  ∧ (∀ m, getFreeIP ipRange usedIPs ≠ Panic m)
  ∧ (∀ s, getFreeIP ipRange usedIPs = Ret s →
          (s ∉ usedIPs) ∧ getFreeIP ipRange (usedIPs ++ [s]) ≠ Ret s)
  ∧ (∀ networkName vms workloads updated usedIPs',
        createVms networkName ipRange vms [] [] usedIPs = Ret (workloads, updated, usedIPs') →
        ∃ ips, usedIPs' = usedIPs ++ ips ∧ length ips = length vms
               ∧ NoDup ips ∧ ∀ x, x ∈ ips → x ∉ usedIPs).
Proof.
  intros Hlen Ha Hb Hc.
  assert (Hcand : ∀ i, 2 ≤ i < 255 → candidate ipRange i = Ret (dotted a b c i)).
  { intros i Hi. apply candidate_16; auto; lia. }
  assert (Hspec := getFreeIP_loop_spec (dotted a b c) ipRange usedIPs Hcand 253 2).
  fold (getFreeIP ipRange usedIPs) in Hspec.
  specialize (Hspec ltac:(lia) ltac:(lia)).
  assert (Hfresh : ∀ s, getFreeIP ipRange usedIPs = Ret s →
            (s ∉ usedIPs) ∧ getFreeIP ipRange (usedIPs ++ [s]) ≠ Ret s).
  { intros s Hs. split; [by eapply getFreeIP_fresh|].
    intros Hagain. apply getFreeIP_fresh in Hagain. apply Hagain.
    apply elem_of_app. right. by left. }
  destruct Hspec as [(h & Hh & Hr & Hfree & Hbelow)|[Hr Hall]]; split_and!.
  - intros s. rewrite Hr. split.
    + intros [= <-]. exists h. split_and!; [lia|lia|done|done|done].
    + intros (h0 & Hh0 & -> & Hfree0 & Hbelow0). f_equal.
      destruct (Z.lt_trichotomy h h0) as [Hlt|[->|Hgt]]; [|done|].
      * exfalso. apply Hfree. apply Hbelow0. lia.
      * exfalso. apply Hfree0. apply Hbelow. lia.
  - rewrite Hr. split; [discriminate|].
    intros Hall. exfalso. apply Hfree. apply Hall. lia.
  - rewrite Hr. discriminate.
  - rewrite Hr. discriminate.
  - exact Hfresh.
  - intros nn vms wls upd used'. apply createVms_addresses.
  - intros s. rewrite Hr. split; [discriminate|].
    intros (h0 & Hh0 & -> & Hfree0 & _). exfalso. apply Hfree0. apply Hall. lia.
  - split; [|done]. intros _ h Hh. apply Hall. lia.
  - rewrite Hr. by intros e [= <-].
  - rewrite Hr. discriminate.
  - exact Hfresh.
  - intros nn vms wls upd used'. apply createVms_addresses.
Qed.

End Allocator.

(** ** The completion-wait loop *)

Section Wait.

Import Spec.

Lemma StateOk_nonempty : StateOk ≠ "".
Proof. discriminate. Qed.

Lemma scanWorkloads_no_failure (id : Z) (wls : list Workload) :
  Forall (λ wl, ¬ isFailed wl) wls →
  ∀ (i : Z) (done : bool),
    scanWorkloads id wls i done
    = Ret (done && forallb (λ wl, negb (String.eqb (State (wl_Result wl)) "")) wls).
Proof.
  induction 1 as [|wl wls Hwl _ IH]; intros i done; simpl.
  - by rewrite andb_true_r.
  - destruct (String.eqb_spec (State (wl_Result wl)) "") as [He|Hne]; simpl.
    + rewrite IH. by rewrite andb_false_r.
    + destruct (String.eqb_spec (State (wl_Result wl)) StateOk) as [Hok|Hnok]; simpl.
      * apply IH.
      * exfalso. apply Hwl. by split.
Qed.

Lemma scanWorkloads_pending (id : Z) (wls : list Workload) (i : Z) (done : bool) :
  Forall (λ wl, ¬ isFailed wl) wls → Exists isPending wls →
  scanWorkloads id wls i done = Ret false.
Proof.
  intros Hnf Hp. rewrite scanWorkloads_no_failure by done. f_equal.
  apply andb_false_iff. right.
  induction Hp as [wl wls Hwl|wl wls _ IH]; simpl.
  - unfold isPending in Hwl. rewrite Hwl. reflexivity.
  - inversion Hnf; subst. rewrite IH by done. apply andb_false_r.
Qed.

Lemma scanWorkloads_first_failure (id : Z) (pre : list Workload) (wl : Workload)
    (post : list Workload) :
  Forall (λ wl, ¬ isFailed wl) pre → isFailed wl →
  ∀ (i : Z) (done : bool),
    scanWorkloads id (pre ++ wl :: post) i done
    = Err (workloadFailedMsg (i + len pre) id (Error (wl_Result wl))).
Proof.
  intros Hpre [Hne Hnok]. induction Hpre as [|w pre Hw _ IH]; intros i done; simpl.
  - destruct (String.eqb_spec (State (wl_Result wl)) ""); [done|].
    destruct (String.eqb_spec (State (wl_Result wl)) StateOk); [done|]. simpl.
    unfold len. simpl. by rewrite Z.add_0_r.
  - replace (i + len (w :: pre)) with (i + 1 + len pre) by (unfold len; simpl; lia).
    destruct (String.eqb_spec (State (wl_Result w)) "") as [He|Hn]; [apply IH|].
    destruct (String.eqb_spec (State (wl_Result w)) StateOk) as [Hok|Hnk]; simpl; [apply IH|].
    exfalso. apply Hw. by split.
Qed.

Lemma scanWorkloads_done (id : Z) (wls : list Workload) :
  ∀ (i : Z) (done : bool),
    scanWorkloads id wls i done = Ret true → done = true ∧ Forall isOk wls.
Proof.
  induction wls as [|wl wls IH]; intros i done; simpl.
  - intros [= ->]. by split.
  - destruct (String.eqb_spec (State (wl_Result wl)) "") as [He|Hne].
    + intros H. apply IH in H as [? _]. discriminate.
    + destruct (String.eqb_spec (State (wl_Result wl)) StateOk) as [Hok|Hnok]; simpl;
        [|discriminate].
      intros H. apply IH in H as [-> Hall]. split; [done|].
      constructor; [by split | done].
Qed.

(** Rounds that find the deployment still pending leave only their events. *)
Lemma waitLoop_pending_rounds (id : Z) (ts : list Z) :
  ∀ (rs : list (Outcome DeploymentT)) (clk : list Z) (ans : list (Outcome DeploymentT))
    (log : list Event),
    length ts = length rs →
    Forall (λ t, t < 4 * Minute) ts →
    Forall stillPending rs →
    waitLoop id (ts ++ clk) (rs ++ ans) log = waitLoop id clk ans (log ++ roundEvents id ts).
Proof.
  induction ts as [|t ts IH]; intros [|r rs] clk ans log Hlen Hts Hrs; simpl in Hlen; try lia.
  - simpl. by rewrite app_nil_r.
  - inversion Hts as [|? ? Ht Hts']; subst. inversion Hrs as [|? ? Hr Hrs']; subst.
    destruct Hr as (dl & -> & Hnf & Hp). simpl.
    destruct (Z.ltb_spec t (4 * Minute)) as [_|?]; [|lia].
    rewrite (scanWorkloads_pending id _ 0 true Hnf Hp).
    rewrite IH by (done || lia). by rewrite <- app_assoc.
Qed.

(** A successful return came from a fetch with every workload ok. *)
Lemma waitLoop_success (id : Z) (clk : list Z) :
  ∀ (ans : list (Outcome DeploymentT)) (log log' : list Event),
    waitLoop id clk ans log = Some (Ret (), log') →
    ∃ (k : nat) (dl : DeploymentT),
      ans !! k = Some (Ret dl) ∧ Forall isOk (dl_Workloads dl)
      ∧ log' = log ++ roundEvents id (take (S k) clk).
Proof.
  induction clk as [|t clk IH]; intros ans log log'; simpl; [discriminate|].
  destruct (t <? 4 * Minute); [|discriminate].
  destruct ans as [|[dl|e|m] ans]; try discriminate.
  destruct (scanWorkloads id (dl_Workloads dl) 0 true) as [[|]| |] eqn:Hscan; try discriminate.
  - intros [= <-]. exists 0%nat, dl. apply scanWorkloads_done in Hscan as [_ Hall].
    split_and!; [done|done|]. simpl. by rewrite ?app_nil_r.
  - intros H. apply IH in H as (k & dl' & Hk & Hall & ->).
    exists (S k), dl'. split_and!; [done|done|].
    rewrite <- app_assoc. reflexivity.
Qed.

(** The log of any run: the start, then rounds of one clock reading and
    one fetch, then at most the clock reading that ended the loop. *)
Lemma waitLoop_log (id : Z) (clk : list Z) :
  ∀ (ans : list (Outcome DeploymentT)) (log log' : list Event) (r : Outcome ()),
    waitLoop id clk ans log = Some (r, log') →
    ∃ (n : nat), log' = log ++ roundEvents id (take n clk)
                 ∨ ∃ t, log' = log ++ roundEvents id (take n clk) ++ [EvSince t].
Proof.
  induction clk as [|t clk IH]; intros ans log log' r; simpl; [discriminate|].
  destruct (t <? 4 * Minute).
  - assert (Hone : ∀ r0, Some (r0, log ++ [EvSince t; EvDeploymentGet id]) = Some (r, log') →
              ∃ n : nat, log' = log ++ roundEvents id (take n (t :: clk))
                ∨ ∃ t0, log' = log ++ roundEvents id (take n (t :: clk)) ++ [EvSince t0]).
    { intros r0 [= _ <-]. exists 1%nat. left. simpl. by rewrite ?app_nil_r. }
    destruct ans as [|[dl|e|m] ans]; [discriminate| |apply Hone|apply Hone].
    destruct (scanWorkloads id (dl_Workloads dl) 0 true) as [[|]| |]; try apply Hone.
    intros H. apply IH in H as (n & [->|(t0 & ->)]); exists (S n); [left|right; exists t0];
      simpl; rewrite <- ?app_assoc; reflexivity.
  - intros [= _ <-]. exists 0%nat. right. exists t. reflexivity.
Qed.

End Wait.

Section WaitClaims.

Import Spec.

Lemma roundEvents_app (id : Z) (ts1 ts2 : list Z) :
  roundEvents id (ts1 ++ ts2) = roundEvents id ts1 ++ roundEvents id ts2.
Proof. unfold roundEvents. apply flat_map_app. Qed.

Lemma roundEvents_no_sleep (id : Z) (ts : list Z) (d : Z) :
  EvSleep d ∉ roundEvents id ts.
Proof.
  induction ts as [|t ts IH]; simpl.
  - intros H. inversion H.
  - intros H. apply elem_of_cons in H as [H|H]; [discriminate|].
    apply elem_of_cons in H as [H|H]; [discriminate|]. by apply IH.
Qed.

Lemma timedoutMsg_distinct (id idx id' : Z) (e : string) :
  timedoutMsg id ≠ workloadFailedMsg idx id' e.
Proof. unfold timedoutMsg, workloadFailedMsg. simpl. discriminate. Qed.

(** C1.  The completion-wait loop returns success only from a fetch in
    which every workload has a non-empty state equal to the success state,
    and does return it on such a fetch; on the first fetch that shows a
    workload with a non-empty, non-success state it returns at once (the
    log ends with that fetch) the error whose text is [workload <index>
    failed within deployment <id> with error <remote error text>], with the
    index of that workload and the deployment id in decimal; when the clock
    reaches four minutes with no such failure it returns the error
    [waiting for deployment <id> timedout], a text that differs from that of
    every workload failure. *)
Theorem waitDeployment_outcomes (id : Z) :
  (∀ (w : World) (log : list Event),
      waitDeployment w id = Some (Ret (), log) →
      ∃ (k : nat) (dl : DeploymentT),
        answers w !! k = Some (Ret dl) ∧ Forall isOk (dl_Workloads dl)
        ∧ log = EvNow :: roundEvents id (take (S k) (clock w)))
  ∧ (∀ (ts : list Z) (rs : list (Outcome DeploymentT)) (t : Z) (clk : list Z)
       (ans : list (Outcome DeploymentT)) (dl : DeploymentT),
      length ts = length rs → Forall (λ t, t < 4 * Minute) ts → Forall stillPending rs →
      t < 4 * Minute → Forall isOk (dl_Workloads dl) →
      waitDeployment {| clock := ts ++ t :: clk; answers := rs ++ Ret dl :: ans |} id
      = Some (Ret (), EvNow :: roundEvents id (ts ++ [t])))
  ∧ (∀ (ts : list Z) (rs : list (Outcome DeploymentT)) (t : Z) (clk : list Z)
       (ans : list (Outcome DeploymentT)) (dl : DeploymentT)
       (pre : list Workload) (wl : Workload) (post : list Workload),
      length ts = length rs → Forall (λ t, t < 4 * Minute) ts → Forall stillPending rs →
      t < 4 * Minute →
      dl_Workloads dl = pre ++ wl :: post →
      Forall (λ wl, ¬ isFailed wl) pre → isFailed wl →
      waitDeployment {| clock := ts ++ t :: clk; answers := rs ++ Ret dl :: ans |} id
      = Some (Err ("workload " +:+ fmt_d (len pre) +:+ " failed within deployment "
                     +:+ fmt_d id +:+ " with error " +:+ Error (wl_Result wl)),
              EvNow :: roundEvents id (ts ++ [t])))
  ∧ (∀ (ts : list Z) (rs : list (Outcome DeploymentT)) (t : Z) (clk : list Z)
       (ans : list (Outcome DeploymentT)),
      length ts = length rs → Forall (λ t, t < 4 * Minute) ts → Forall stillPending rs →
      4 * Minute ≤ t →
      waitDeployment {| clock := ts ++ t :: clk; answers := rs ++ ans |} id
      = Some (Err ("waiting for deployment " +:+ fmt_d id +:+ " timedout"),
              EvNow :: roundEvents id ts ++ [EvSince t]))
  ∧ (∀ (idx id' : Z) (e : string),
       "waiting for deployment " +:+ fmt_d id +:+ " timedout"
       ≠ "workload " +:+ fmt_d idx +:+ " failed within deployment "
         +:+ fmt_d id' +:+ " with error " +:+ e).
Proof.
  split_and!.
  - intros w log H. unfold waitDeployment in H.
    apply waitLoop_success in H as (k & dl & Hk & Hall & ->). by exists k, dl.
  - intros ts rs t clk ans dl Hlen Hts Hrs Ht Hall. unfold waitDeployment. simpl.
    rewrite waitLoop_pending_rounds by done. simpl.
    destruct (Z.ltb_spec t (4 * Minute)) as [_|?]; [|lia].
    rewrite scanWorkloads_no_failure.
    2:{ eapply Forall_impl; [exact Hall|]. intros wl [_ Hok] [_ Hn]. done. }
    replace (forallb _ (dl_Workloads dl)) with true.
    + simpl. rewrite roundEvents_app. simpl. by rewrite <- ?app_assoc.
    + symmetry. apply forallb_forall. intros wl Hin.
      rewrite Forall_forall in Hall. apply list_elem_of_In in Hin.
      destruct (Hall wl Hin) as [Hne _].
      by destruct (String.eqb_spec (State (wl_Result wl)) "").
  - intros ts rs t clk ans dl pre wl post Hlen Hts Hrs Ht Hwls Hpre Hwl.
    unfold waitDeployment. simpl.
    rewrite waitLoop_pending_rounds by done. simpl.
    destruct (Z.ltb_spec t (4 * Minute)) as [_|?]; [|lia].
    rewrite Hwls, (scanWorkloads_first_failure id pre wl post Hpre Hwl 0 true).
    rewrite Z.add_0_l, roundEvents_app. simpl. by rewrite <- ?app_assoc.
  - intros ts rs t clk ans Hlen Hts Hrs Ht. unfold waitDeployment. simpl.
    rewrite waitLoop_pending_rounds by done. simpl.
    destruct (Z.ltb_spec t (4 * Minute)) as [?|_]; [lia|].
    by rewrite <- ?app_assoc.
  - intros idx id' e. apply timedoutMsg_distinct.
Qed.


(** The second fetch shows workload 1 failed while workload 0 is pending. *)
Lemma waitDeployment_outcomes_witness :
  waitDeployment {| clock := [1000; 2000; 3000];
                    answers := [Ret (dlOf [pendingWl; pendingWl]);
                                Ret (dlOf [pendingWl; failedWl]);
                                Ret (dlOf [okWl; okWl])] |} 7
  = Some (Err "workload 1 failed within deployment 7 with error no space",
          [EvNow; EvSince 1000; EvDeploymentGet 7; EvSince 2000; EvDeploymentGet 7]).
Proof.
  refine (proj1 (proj2 (proj2 (waitDeployment_outcomes 7)))
            [1000] [Ret (dlOf [pendingWl; pendingWl])] 2000 [3000]
            [Ret (dlOf [okWl; okWl])] (dlOf [pendingWl; failedWl])
            [pendingWl] failedWl [] eq_refl _ _ _ eq_refl _ _).
  - repeat constructor.
  - constructor; [|constructor]. exists (dlOf [pendingWl; pendingWl]).
    split_and!; [done| |by left].
    repeat constructor; intros [H _]; by apply H.
  - reflexivity.
  - repeat constructor; intros [H _]; by apply H.
  - split; discriminate.
Defined.

(** C8, as amended.  The loop has no polling delay: the log of a run never
    holds a sleep, and is the start followed by rounds of exactly one clock
    reading and one fetch each, then at most the clock reading that ended
    the loop; so a fetch that leaves workloads pending under the budget is
    followed by the next fetch with nothing but a clock reading between. *)
Theorem waitDeployment_polls_without_delay (w : World) (id : Z) (r : Outcome ())
    (log : list Event) :
  waitDeployment w id = Some (r, log) →
  (∀ d, EvSleep d ∉ log)
  ∧ ∃ (n : nat),
      log = EvNow :: roundEvents id (take n (clock w))
      ∨ ∃ t, log = EvNow :: roundEvents id (take n (clock w)) ++ [EvSince t].
Proof.
  intros H. unfold waitDeployment in H. apply waitLoop_log in H as (n & Hlog).
  split; [|by exists n].
  intros d Hin. destruct Hlog as [->|(t & ->)]; simpl in Hin.
  - apply elem_of_cons in Hin as [?|Hin]; [discriminate|].
    by apply roundEvents_no_sleep in Hin.
  - apply elem_of_cons in Hin as [?|Hin]; [discriminate|].
    apply elem_of_app in Hin as [Hin|Hin]; [by apply roundEvents_no_sleep in Hin|].
    apply elem_of_cons in Hin as [?|Hin]; [discriminate|]. inversion Hin.
Qed.


Lemma waitDeployment_polls_without_delay_witness :
  (∀ d, EvSleep d ∉ [EvNow; EvSince 1000; EvDeploymentGet 7; EvSince 2000; EvDeploymentGet 7])
  ∧ ∃ (n : nat),
      [EvNow; EvSince 1000; EvDeploymentGet 7; EvSince 2000; EvDeploymentGet 7]
        = EvNow :: roundEvents 7 (take n (clock twoFetches))
      ∨ ∃ t, [EvNow; EvSince 1000; EvDeploymentGet 7; EvSince 2000; EvDeploymentGet 7]
        = EvNow :: roundEvents 7 (take n (clock twoFetches)) ++ [EvSince t].
Proof.
  apply (waitDeployment_polls_without_delay twoFetches 7 (Ret ())). reflexivity.
Defined.

(** C8 as stated fails: two fetches one clock reading apart, no delay. *)
Lemma waitDeployment_fetches_back_to_back :
  ∃ log, waitDeployment twoFetches 7 = Some (Ret (), log) ∧ ¬ delayBetweenFetches log.
Proof.
  eexists. split; [reflexivity|].
  intros H.
  destruct (H [EvNow; EvSince 1000] [EvSince 2000] [] 7 7 eq_refl) as [d Hd].
  apply elem_of_cons in Hd as [?|Hd]; [discriminate|]. inversion Hd.
Qed.

End WaitClaims.

(** ** The diff engine and the update path *)

Section Diff.

(** The first record bearing the declared name decides, for disks ... *)
Lemma diskHasChanged_first_match (disk prior : Disk) (pre post : list Disk) :
  Forall (λ d, disk_name d ≠ disk_name disk) pre →
  disk_name prior = disk_name disk →
  diskHasChanged disk (pre ++ prior :: post)
  = (bool_decide (disk_description prior ≠ disk_description disk
                  ∨ disk_size prior ≠ disk_size disk), Some prior).
Proof.
  intros Hpre Hname. induction Hpre as [|d pre Hd _ IH]; simpl.
  - rewrite Hname, String.eqb_refl.
    destruct (String.eqb_spec (disk_description prior) (disk_description disk));
      destruct (Z.eqb_spec (disk_size prior) (disk_size disk)); simpl;
      f_equal; symmetry; (apply bool_decide_eq_true_2 || apply bool_decide_eq_false_2); tauto.
  - destruct (String.eqb_spec (disk_name d) (disk_name disk)); [done|apply IH].
Qed.

(** ... and for storage nodes. *)
Lemma zdbHasChanged_first_match (zdb prior : Zdb) (pre post : list Zdb) :
  Forall (λ d, zdb_name d ≠ zdb_name zdb) pre →
  zdb_name prior = zdb_name zdb →
  zdbHasChanged zdb (pre ++ prior :: post)
  = (bool_decide (zdb_password prior ≠ zdb_password zdb ∨ zdb_size prior ≠ zdb_size zdb
                  ∨ zdb_description prior ≠ zdb_description zdb
                  ∨ zdb_mode prior ≠ zdb_mode zdb), Some prior).
Proof.
  intros Hpre Hname. induction Hpre as [|d pre Hd _ IH]; simpl.
  - rewrite Hname, String.eqb_refl.
    destruct (String.eqb_spec (zdb_password prior) (zdb_password zdb));
      destruct (Z.eqb_spec (zdb_size prior) (zdb_size zdb));
      destruct (String.eqb_spec (zdb_description prior) (zdb_description zdb));
      destruct (String.eqb_spec (zdb_mode prior) (zdb_mode zdb)); simpl;
      f_equal; symmetry; (apply bool_decide_eq_true_2 || apply bool_decide_eq_false_2); tauto.
  - destruct (String.eqb_spec (zdb_name d) (zdb_name zdb)); [done|apply IH].
Qed.

(** The version the disk loop submits is the version it records: the
    prior one, plus one exactly when the diff reports a change. *)
Lemma updateDisk_versions (oldDisks : list Disk) (data : Disk) :
  wl_Version (updateDisk oldDisks data).1 = disk_version (updateDisk oldDisks data).2
  ∧ disk_version (updateDisk oldDisks data).2
    = match diskHasChanged data oldDisks with
      | (true, Some old) => int_add (disk_version old) 1
      | (false, Some old) => disk_version old
      | (_, None) => 0
      end.
Proof.
  unfold updateDisk. destruct (diskHasChanged data oldDisks) as [[|] [old|]]; by simpl.
Qed.

(** The same for the machine loop. *)
Lemma updateVm_versions (oldVms : list Vm) (data : Vm) :
  wl_Version (updateVm oldVms data).1 = vm_version (updateVm oldVms data).2
  ∧ vm_version (updateVm oldVms data).2
    = match vmHasChanged data oldVms with
      | (true, Some old) => int_add (vm_version old) 1
      | (false, Some old) => vm_version old
      | (_, None) => 0
      end.
Proof.
  unfold updateVm. destruct (vmHasChanged data oldVms) as [[|] [old|]]; by simpl.
Qed.

(** C2 on the code.  A recorded machine with the declared name and flist
    and with CPU, memory, entrypoint, mounts and variables all identical to
    the declared ones is reported as changed: the two deep comparisons
    enter the disjunction un-negated. *)
Theorem vmHasChanged_identical_is_changed (vm prior : Vm) (rest : list Vm) :
  vm_name prior = vm_name vm → vm_flist prior = vm_flist vm →
  vm_cpu prior = vm_cpu vm → vm_memory prior = vm_memory vm →
  vm_entrypoint prior = vm_entrypoint vm →
  vm_mounts prior = vm_mounts vm → vm_env_vars prior = vm_env_vars vm →
  vmHasChanged vm (prior :: rest) = (true, Some prior).
Proof.
  intros Hn Hf Hc Hm He Hmo Hen. simpl.
  rewrite Hn, Hf, Hc, Hm, He, Hmo, Hen, !String.eqb_refl, !Z.eqb_refl. simpl.
  unfold DeepEqual. rewrite bool_decide_eq_true_2 by done. reflexivity.
Qed.

Lemma vmHasChanged_identical_is_changed_witness :
  vmHasChanged web1 [web1_recorded] = (true, Some web1_recorded).
Proof.
  apply (vmHasChanged_identical_is_changed web1 web1_recorded []); reflexivity.
Defined.

(** A machine whose mounts and variables both changed, and nothing else,
    is reported as unchanged. *)
Lemma vmHasChanged_mounts_and_env_changed (vm prior : Vm) (rest : list Vm) :
  vm_name prior = vm_name vm → vm_flist prior = vm_flist vm →
  vm_cpu prior = vm_cpu vm → vm_memory prior = vm_memory vm →
  vm_entrypoint prior = vm_entrypoint vm →
  vm_mounts prior ≠ vm_mounts vm → vm_env_vars prior ≠ vm_env_vars vm →
  vmHasChanged vm (prior :: rest) = (false, Some prior).
Proof.
  intros Hn Hf Hc Hm He Hmo Hen. simpl.
  rewrite Hn, Hf, Hc, Hm, He, !String.eqb_refl, !Z.eqb_refl. simpl.
  unfold DeepEqual. rewrite !bool_decide_eq_false_2 by done. reflexivity.
Qed.

(** C3 on the code.  For a storage node the diff reports as changed, the
    update path records the prior version plus one but submits a workload
    whose version is the constant 0. *)
Theorem updateZdb_submits_version_zero `{Crypto} (oldZdbs : list Zdb) (data old : Zdb)
    (pwd : list Z) :
  zdbHasChanged data oldZdbs = (true, Some old) →
  EncryptECDH (zdb_password data) = Ret pwd →
  ∃ wl data', updateZdb oldZdbs data = Ret (wl, data')
    ∧ wl_Version wl = 0
    ∧ zdb_version data' = int_add (zdb_version old) 1.
Proof.
  intros Hdiff Hpwd. unfold updateZdb. rewrite Hdiff. simpl. rewrite Hpwd. simpl.
  eexists _, _. split_and!; reflexivity.
Qed.

Lemma updateZdb_submits_version_zero_witness :
  ∃ wl data', @updateZdb sampleCrypto [db_recorded] db_declared = Ret (wl, data')
    ∧ wl_Version wl = 0
    ∧ zdb_version data' = int_add (zdb_version db_recorded) 1.
Proof.
  apply (@updateZdb_submits_version_zero sampleCrypto [db_recorded] db_declared db_recorded
           [115; 101; 99; 111; 110; 100]); reflexivity.
Defined.

(** C6 on the code.  Whatever was assigned on create, the machine workload
    of the update path carries the network name [network] and the address
    10.1.1.3.  For the machine [web1] created on network [net1] in
    10.1.1.0/24 (address 10.1.1.2) and declared again with two CPUs, the
    update gives version 1 and keeps the name, but not the interface. *)
Theorem updateVm_interface_is_fixed :
  (∀ oldVms data,
      interfacesOf (updateVm oldVms data).1
      = [ {| mi_Network := "network"; mi_IP := Some (IPv4 10 1 1 3) |} ])
  ∧ (∃ created,
        createVms "net1" (ipNet 10 1 1 0 24) [web1] [] [] []
        = Ret ([created], [web1_recorded], ["10.1.1.2"])
        ∧ interfacesOf created
          = [ {| mi_Network := "net1"; mi_IP := Some (IPv4 10 1 1 2) |} ])
  ∧ wl_Version (updateVm [web1_recorded] web1_cpu2).1 = 1
  ∧ wl_Name (updateVm [web1_recorded] web1_cpu2).1 = "web1"
  ∧ vm_ip (updateVm [web1_recorded] web1_cpu2).2 = "10.1.1.2"
  ∧ interfacesOf (updateVm [web1_recorded] web1_cpu2).1
    = [ {| mi_Network := "network"; mi_IP := Some (IPv4 10 1 1 3) |} ].
Proof.
  split_and!.
  - intros oldVms data. unfold updateVm.
    destruct (vmHasChanged data oldVms) as [[|] [old|]]; reflexivity.
  - eexists. split; vm_compute; reflexivity.
  - vm_compute. reflexivity.
  - vm_compute. reflexivity.
  - vm_compute. reflexivity.
  - vm_compute. reflexivity.
Qed.

(** The whole update on the sample state: the unchanged disk keeps version
    0, the storage node is recorded at version 1 and submitted at version 0,
    the machine is recorded and submitted at version 1 with the literal
    interface. *)
Lemma resourceDeploymentUpdate_on_samples :
  ∃ dl rd,
    @resourceDeploymentUpdate sampleIdentity sampleCrypto 14 applied declared = Ret (dl, rd)
    ∧ dl_Version dl = 1
    ∧ map wl_Name (dl_Workloads dl) = ["data"; "db"; "web1"]
    ∧ map wl_Version (dl_Workloads dl) = [0; 0; 1]
    ∧ map disk_version (rd_disks rd) = [0]
    ∧ map zdb_version (rd_zdbs rd) = [1]
    ∧ map vm_version (rd_vms rd) = [1]
    ∧ map interfacesOf (dl_Workloads dl)
      = [ []; []; [ {| mi_Network := "network"; mi_IP := Some (IPv4 10 1 1 3) |} ] ].
Proof. eexists _, _. split_and!; by vm_compute. Qed.

End Diff.

(** ** The topology generator *)

Section Topology.

Import Network.

Context `{WG : WireGuard} `{GT : GridTypes}.

Lemma wgIP_returns (ip : IPNet) :
  3 ≤ len (IP ip) → ∃ w, wgIP ip = Ret w.
Proof.
  intros Hlen. unfold wgIP, index, len in *.
  destruct (lookup_lt_is_Some_2 (IP ip) (Z.to_nat (Z.of_nat (length (IP ip)) - 3)))
    as [a Ha]; [lia|].
  destruct (lookup_lt_is_Some_2 (IP ip) (Z.to_nat (Z.of_nat (length (IP ip)) - 2)))
    as [b Hb]; [lia|].
  rewrite Ha, Hb.
  replace (0 <=? _ - 3) with true by (symmetry; apply Z.leb_le; lia).
  replace (_ - 3 <? _) with true by (symmetry; apply Z.ltb_lt; lia).
  replace (0 <=? _ - 2) with true by (symmetry; apply Z.leb_le; lia).
  replace (_ - 2 <? _) with true by (symmetry; apply Z.ltb_lt; lia).
  simpl. eauto.
Qed.

Lemma neighPeer_entry (nc : NetworkConfiguration) (neigh : Z) (p : Peer) :
  neighPeer nc neigh = Ret p → entryFor nc (Some neigh) p.
Proof.
  unfold neighPeer. destruct (wgIP (ipOf nc neigh)) as [w| |]; simpl; try discriminate.
  destruct (neigh =? PublicNodeID nc); simpl.
  - destruct (wgIP (ExternalNodeIP nc)) as [we| |]; simpl; try discriminate.
    intros [= <-]. by split_and!.
  - intros [= <-]. by split_and!.
Qed.

Lemma accessPeer_entry (nc : NetworkConfiguration) (p : Peer) :
  accessPeer nc = Ret p → entryFor nc None p.
Proof.
  unfold accessPeer. destruct (wgIP (ExternalNodeIP nc)) as [we| |]; simpl; try discriminate.
  intros [= <-]. by split_and!.
Qed.

(** The inner loop appends one entry per list element other than [node]. *)
Lemma peersLoop_entries (nc : NetworkConfiguration) (node : Z) (neighs : list Z) :
  ∀ (peers peers' : list Peer),
    peersLoop nc node neighs peers = Ret peers' →
    ∃ ps, peers' = peers ++ ps
          ∧ Forall2 (entryFor nc) (Some <$> filter (λ n, n ≠ node) neighs) ps.
Proof.
  induction neighs as [|neigh neighs IH]; intros peers peers'; simpl.
  - intros [= <-]. exists []. rewrite app_nil_r. split; [done|constructor].
  - destruct (Z.eqb_spec node neigh) as [->|Hne].
    + intros Hrun. apply IH in Hrun as (ps & -> & Hps). exists ps. split; [done|].
      rewrite filter_cons_False by (intros Hn; by apply Hn). done.
    + destruct (neighPeer nc neigh) as [p| |] eqn:Hp; simpl; try discriminate.
      intros Hrun. apply IH in Hrun as (ps & -> & Hps). exists (p :: ps).
      split; [by rewrite <- app_assoc|].
      rewrite filter_cons_True by congruence. simpl.
      constructor; [by apply neighPeer_entry | done].
Qed.

(** One step of the outer loop. *)
Lemma validAndSigned_workloads (userInfo : UserIdentityInfo) (d d' : DeploymentT) :
  validAndSigned userInfo d = Ret d' → dl_Workloads d' = dl_Workloads d.
Proof.
  unfold validAndSigned, Sign. destruct (Valid d); [discriminate|].
  destruct (Signature _ _ _) as [sg| |]; simpl; try discriminate.
  by intros [= <-].
Qed.

Lemma nodeStep_result (nc : NetworkConfiguration) (userInfo : UserIdentityInfo)
    (node : Z) (wgConfig wgConfig' : string) (d : DeploymentT) :
  nodeStep nc userInfo node wgConfig = Ret (wgConfig', d) →
  wgConfig' = (if decide (node = PublicNodeID nc) then accessConfig nc node else wgConfig)
  ∧ ∃ peers, networkPeers d = Some peers
             ∧ Forall2 (entryFor nc) (peerOwners nc node) peers.
Proof.
  unfold nodeStep.
  destruct (peersLoop nc node (NodeIDs nc) []) as [peers| |] eqn:Hpeers; simpl; try discriminate.
  apply peersLoop_entries in Hpeers as (ps & -> & Hps). simpl.
  assert (Hrest : ∀ cfg (peers : list Peer),
    Forall2 (entryFor nc) (peerOwners nc node) peers →
    match IPs nc !! node with
    | Some node_ip_range =>
        match WGPort nc !! node with
        | Some node_port =>
            deployment ← validAndSigned userInfo
              (nodeDeployment userInfo (networkWorkload nc node node_ip_range node_port peers));
            Ret (cfg, deployment)
        | None => Panic "free port of node not found"
        end
    | None => Panic "why node ip range not found"
    end = Ret (wgConfig', d) →
    wgConfig' = cfg ∧ ∃ peers, networkPeers d = Some peers
             ∧ Forall2 (entryFor nc) (peerOwners nc node) peers).
  { intros cfg peers Hentries.
    destruct (IPs nc !! node) as [ip|]; [|discriminate].
    destruct (WGPort nc !! node) as [port|]; [|discriminate].
    destruct (validAndSigned _ _) as [d'| |] eqn:Hsigned; simpl; try discriminate.
    intros [= <- <-]. split; [done|]. exists peers. split; [|done].
    unfold networkPeers. by rewrite (validAndSigned_workloads _ _ _ Hsigned). }
  destruct (decide (node = PublicNodeID nc)) as [Heq|Hne].
  - rewrite (proj2 (Z.eqb_eq _ _) Heq).
    destruct (accessPeer nc) as [p| |] eqn:Hp; simpl; try discriminate.
    apply Hrest. unfold peerOwners. destruct (decide (node = PublicNodeID nc)); [|done].
    apply Forall2_app; [done|]. constructor; [by apply accessPeer_entry|constructor].
  - rewrite (proj2 (Z.eqb_neq _ _) Hne). simpl.
    apply Hrest. unfold peerOwners. destruct (decide (node = PublicNodeID nc)); [done|].
    by rewrite app_nil_r.
Qed.

(** The outer loop: one deployment per list element, in order, and the
    access configuration of the public node if the list holds it. *)
Lemma nodesLoop_result (nc : NetworkConfiguration) (userInfo : UserIdentityInfo)
    (nodes : list Z) :
  ∀ (wgConfig : string) (deployments : list DeploymentT) (info : DeploymentInformation),
    nodesLoop nc userInfo nodes wgConfig deployments = Ret info →
    WGAccessConfiguration info
    = (if decide (PublicNodeID nc ∈ nodes) then accessConfig nc (PublicNodeID nc) else wgConfig)
    ∧ ∃ ds, Deployments info = deployments ++ ds
            ∧ Forall2 (λ node d, ∃ peers, networkPeers d = Some peers
                          ∧ Forall2 (entryFor nc) (peerOwners nc node) peers) nodes ds.
Proof.
  induction nodes as [|node nodes IH]; intros wgConfig deployments info; simpl.
  - intros [= <-]. simpl. split.
    + destruct (decide (PublicNodeID nc ∈ [])) as [Hin|_]; [inversion Hin|done].
    + exists []. rewrite app_nil_r. split; [done|constructor].
  - destruct (nodeStep nc userInfo node wgConfig) as [[cfg' d]| |] eqn:Hstep; simpl;
      try discriminate.
    apply nodeStep_result in Hstep as (-> & Hd).
    intros Hrun. apply IH in Hrun as (Hcfg & ds & Hds & Hall). split.
    + rewrite Hcfg.
      destruct (decide (PublicNodeID nc ∈ nodes)) as [Hin|Hnin];
        destruct (decide (PublicNodeID nc ∈ node :: nodes)) as [Hin'|Hnin'];
        destruct (decide (node = PublicNodeID nc)) as [Heq|Hne]; try done.
      * exfalso. apply Hnin'. by right.
      * exfalso. apply Hnin'. by right.
      * by rewrite Heq.
      * exfalso. apply elem_of_cons in Hin' as [?|?]; congruence.
      * exfalso. apply Hnin'. rewrite Heq. by left.
    + exists (d :: ds). split; [by rewrite Hds, <- app_assoc|]. by constructor.
Qed.

(** *** When the generation returns *)

Lemma neighPeer_returns (nc : NetworkConfiguration) (neigh : Z) :
  3 ≤ len (IP (ipOf nc neigh)) → 3 ≤ len (IP (ExternalNodeIP nc)) →
  ∃ p, neighPeer nc neigh = Ret p.
Proof.
  intros Hn He. unfold neighPeer.
  destruct (wgIP_returns _ Hn) as [w ->]. destruct (wgIP_returns _ He) as [we ->]. simpl.
  destruct (neigh =? PublicNodeID nc); simpl; eauto.
Qed.

Lemma peersLoop_returns (nc : NetworkConfiguration) (node : Z) (neighs : list Z) :
  (∀ n, n ∈ neighs → 3 ≤ len (IP (ipOf nc n))) → 3 ≤ len (IP (ExternalNodeIP nc)) →
  ∀ peers, ∃ peers', peersLoop nc node neighs peers = Ret peers'.
Proof.
  intros Hn He. induction neighs as [|neigh neighs IH]; intros peers; simpl; [eauto|].
  assert (Hrest : ∀ n, n ∈ neighs → 3 ≤ len (IP (ipOf nc n))).
  { intros n Hin. apply Hn. by right. }
  destruct (node =? neigh); [by apply IH|].
  destruct (neighPeer_returns nc neigh) as [p ->]; [apply Hn; by left|done|]. simpl.
  by apply IH.
Qed.

Lemma validAndSigned_returns (userInfo : UserIdentityInfo) (d : DeploymentT) :
  (∀ d, Valid d = None) → (∀ twin sk d, ∃ sg, Signature twin sk d = Ret sg) →
  ∃ d', validAndSigned userInfo d = Ret d'.
Proof.
  intros Hvalid Hsign. unfold validAndSigned, Sign. rewrite Hvalid.
  destruct (Hsign (TwinID userInfo) (UserSK userInfo) d) as [sg ->]. simpl. eauto.
Qed.

Lemma nodeStep_returns (nc : NetworkConfiguration) (userInfo : UserIdentityInfo)
    (node : Z) (wgConfig : string) :
  runsClean nc → node ∈ NodeIDs nc →
  ∃ r, nodeStep nc userInfo node wgConfig = Ret r.
Proof.
  intros (Hnodes & Hext & Hvalid & Hsign) Hin. unfold nodeStep.
  destruct (peersLoop_returns nc node (NodeIDs nc)) with (peers := @nil Peer)
    as [peers ->]; [|done|].
  { intros n Hn. destruct (Hnodes n Hn) as [(ip & Hip & Hlen) _].
    unfold ipOf. by rewrite Hip. }
  simpl. destruct (Hnodes node Hin) as [(ip & Hip & Hlen) [port Hport]].
  rewrite Hip, Hport.
  destruct (node =? PublicNodeID nc).
  - unfold accessPeer. destruct (wgIP_returns _ Hext) as [we ->]. simpl.
    destruct (validAndSigned_returns userInfo
      (nodeDeployment userInfo (networkWorkload nc node ip port
         (peers ++ [ {| Subnet := ExternalNodeIP nc;
                        WGPublicKey := KeyString (PublicKey (ExternalNodeKey nc));
                        Endpoint := "";
                        AllowedIPs := [ExternalNodeIP nc; we] |} ])))
      Hvalid Hsign) as [d' ->].
    simpl. eauto.
  - simpl.
    destruct (validAndSigned_returns userInfo
      (nodeDeployment userInfo (networkWorkload nc node ip port peers)) Hvalid Hsign)
      as [d' ->].
    simpl. eauto.
Qed.

Lemma nodesLoop_returns (nc : NetworkConfiguration) (userInfo : UserIdentityInfo)
    (nodes : list Z) :
  runsClean nc → (∀ n, n ∈ nodes → n ∈ NodeIDs nc) →
  ∀ wgConfig deployments, ∃ info, nodesLoop nc userInfo nodes wgConfig deployments = Ret info.
Proof.
  intros Hclean. induction nodes as [|node nodes IH]; intros Hsub cfg ds; simpl; [eauto|].
  destruct (nodeStep_returns nc userInfo node cfg Hclean) as [[cfg' d] ->];
    [apply Hsub; by left|].
  simpl. apply IH. intros n Hn. apply Hsub. by right.
Qed.

Lemma generateDeployments_returns (nc : NetworkConfiguration) (userInfo : UserIdentityInfo) :
  runsClean nc → ∃ info, generateDeployments nc userInfo = Ret info.
Proof. intros Hclean. by apply nodesLoop_returns. Qed.

(** *** What the generation returns *)

Lemma generateDeployments_result (nc : NetworkConfiguration) (userInfo : UserIdentityInfo)
    (info : DeploymentInformation) :
  generateDeployments nc userInfo = Ret info →
  WGAccessConfiguration info
  = (if decide (PublicNodeID nc ∈ NodeIDs nc) then accessConfig nc (PublicNodeID nc) else "")
  ∧ Forall2 (λ node d, ∃ peers, networkPeers d = Some peers
                ∧ Forall2 (entryFor nc) (peerOwners nc node) peers)
            (NodeIDs nc) (Deployments info).
Proof.
  intros Hrun. apply nodesLoop_result in Hrun as (Hcfg & ds & Hds & Hall).
  split; [done|]. by rewrite Hds.
Qed.

Lemma peerOwners_no_self (nc : NetworkConfiguration) (A : Z) :
  Some A ∉ peerOwners nc A.
Proof.
  unfold peerOwners. intros Hin. apply elem_of_app in Hin as [Hin|Hin].
  - apply list_elem_of_fmap in Hin as (n & [= <-] & Hn).
    apply list_elem_of_filter in Hn as [Hne _]. done.
  - destruct (decide (A = PublicNodeID nc)).
    + apply elem_of_cons in Hin as [?|Hin]; [discriminate|inversion Hin].
    + inversion Hin.
Qed.

Lemma peerOwners_other (nc : NetworkConfiguration) (A B : Z) :
  B ∈ NodeIDs nc → B ≠ A → Some B ∈ peerOwners nc A.
Proof.
  intros Hin Hne. unfold peerOwners. apply elem_of_app. left.
  apply list_elem_of_fmap. exists B. split; [done|]. by apply list_elem_of_filter.
Qed.

Lemma peerOwners_NoDup (nc : NetworkConfiguration) (A : Z) :
  NoDup (NodeIDs nc) → NoDup (peerOwners nc A).
Proof.
  intros Hnd. unfold peerOwners. apply NoDup_app. split_and!.
  - apply NoDup_fmap_2; [apply _|]. by apply NoDup_filter.
  - intros o Ho Hin. apply list_elem_of_fmap in Ho as (n & -> & _).
    destruct (decide (A = PublicNodeID nc)).
    + apply elem_of_cons in Hin as [?|Hin]; [discriminate|inversion Hin].
    + inversion Hin.
  - destruct (decide (A = PublicNodeID nc)); [|constructor].
    apply NoDup_singleton.
Qed.

Lemma peerOwners_node (nc : NetworkConfiguration) (A n : Z) :
  Some n ∈ peerOwners nc A → n ∈ NodeIDs nc.
Proof.
  unfold peerOwners. intros Hin. apply elem_of_app in Hin as [Hin|Hin].
  - apply list_elem_of_fmap in Hin as (m & [= <-] & Hm).
    by apply list_elem_of_filter in Hm as [_ Hm].
  - destruct (decide (A = PublicNodeID nc)).
    + apply elem_of_cons in Hin as [?|Hin]; [discriminate|inversion Hin].
    + inversion Hin.
Qed.

End Topology.

(** Counting through a pointwise relation. *)
Lemma Forall2_filter_length {A B : Type} (R : A → B → Prop) (P : A → Prop) (Q : B → Prop)
    `{∀ x, Decision (P x)} `{∀ y, Decision (Q y)} (xs : list A) (ys : list B) :
  Forall2 R xs ys →
  (∀ x y, x ∈ xs → R x y → (P x ↔ Q y)) →
  length (filter P xs) = length (filter Q ys).
Proof.
  induction 1 as [|x y xs ys HR _ IH]; intros Hiff; [done|].
  assert (Hxy : P x ↔ Q y) by (apply Hiff; [by left|done]).
  assert (Htl : length (filter P xs) = length (filter Q ys)).
  { apply IH. intros x' y' Hx'. apply Hiff. by right. }
  destruct (decide (P x)) as [HP|HP].
  - rewrite filter_cons_True by done. rewrite filter_cons_True by tauto. simpl. by rewrite Htl.
  - rewrite filter_cons_False by done. rewrite filter_cons_False by tauto. done.
Qed.

Lemma filter_eq_not_elem_of {A : Type} `{EqDecision A} (l : list A) (x : A) :
  x ∉ l → filter (λ y, y = x) l = [].
Proof.
  induction l as [|y l IH]; intros Hnin; [done|].
  rewrite filter_cons_False.
  - apply IH. intros Hin. apply Hnin. by right.
  - intros ->. apply Hnin. by left.
Qed.

Lemma NoDup_filter_eq_length {A : Type} `{EqDecision A} (l : list A) (x : A) :
  NoDup l → x ∈ l → length (filter (λ y, y = x) l) = 1%nat.
Proof.
  induction 1 as [|y l Hy Hnd IH]; intros Hin; [inversion Hin|].
  destruct (decide (y = x)) as [->|Hne].
  - rewrite filter_cons_True by done. by rewrite filter_eq_not_elem_of.
  - rewrite filter_cons_False by done. apply IH.
    apply elem_of_cons in Hin as [?|?]; [congruence|done].
Qed.


Section TopologyClaims.

Import Network.

Context `{WG : WireGuard} `{GT : GridTypes}.

(** C5, as amended.  For a configuration whose node list holds no id
    twice: the generation returns (when no step panics) one deployment per
    node, in list order; the peer list of node [A] has, for every other
    node [B], exactly one entry standing for [B], which carries [B]'s
    subnet, public key and endpoint (and is the only entry with [B]'s
    subnet when the subnets are pairwise different); and no entry stands
    for [A] itself. *)
Theorem generateDeployments_full_mesh (nc : NetworkConfiguration)
    (userInfo : UserIdentityInfo) :
  NoDup (NodeIDs nc) →
  (runsClean nc → ∃ info, generateDeployments nc userInfo = Ret info)
  ∧ ∀ info, generateDeployments nc userInfo = Ret info →
      ∀ (i : nat) (A : Z), NodeIDs nc !! i = Some A →
        ∃ dA peersA,
          Deployments info !! i = Some dA
          ∧ networkPeers dA = Some peersA
          ∧ Forall2 (entryFor nc) (peerOwners nc A) peersA
          ∧ (Some A ∉ peerOwners nc A)
          ∧ ∀ B, B ∈ NodeIDs nc → B ≠ A →
              ∃ (j : nat) (p : Peer),
                peerOwners nc A !! j = Some (Some B)
                ∧ peersA !! j = Some p
                ∧ Subnet p = ipOf nc B
                ∧ WGPublicKey p = KeyString (PublicKey (keyOf nc B))
                ∧ Endpoint p = getNodeEndpoint B (portOf nc B)
                ∧ (∀ j', peerOwners nc A !! j' = Some (Some B) → j' = j)
                ∧ ((∀ n, n ∈ NodeIDs nc → ipOf nc n = ipOf nc B → n = B) →
                   ExternalNodeIP nc ≠ ipOf nc B →
                   length (filter (λ q, Subnet q = ipOf nc B) peersA) = 1%nat).
Proof.
  intros Hnd. split; [apply generateDeployments_returns|].
  intros info Hrun i A Hi.
  apply generateDeployments_result in Hrun as [_ Hall].
  destruct (Forall2_lookup_l _ _ _ i A Hall Hi) as (dA & HdA & peersA & Hpeers & Hentries).
  exists dA, peersA. split_and!; [done|done|done|apply peerOwners_no_self|].
  intros B HB Hne.
  destruct (proj1 (list_elem_of_lookup _ _) (peerOwners_other nc A B HB Hne)) as [j Hj].
  destruct (Forall2_lookup_l _ _ _ j (Some B) Hentries Hj) as (p & Hp & Hs & Hk & He).
  exists j, p. split_and!; try done.
  - intros j' Hj'. eapply NoDup_lookup; [by apply peerOwners_NoDup| |]; done.
  - intros Hinj Hext.
    rewrite <- (Forall2_filter_length (entryFor nc) (λ o, o = Some B)
                  (λ q, Subnet q = ipOf nc B) (peerOwners nc A) peersA Hentries).
    + apply NoDup_filter_eq_length; [by apply peerOwners_NoDup|].
      by apply peerOwners_other.
    + intros [n|] q Ho Hq; simpl in Hq; destruct Hq as (Hsub & _); rewrite Hsub.
      * split; [by intros [= ->]|]. intros Heq. f_equal. apply Hinj; [|done].
        by eapply peerOwners_node.
      * split; [discriminate|done].
Qed.

(** The access configuration of a run that returns. *)
Lemma generateDeployments_access (nc : NetworkConfiguration) (userInfo : UserIdentityInfo)
    (info : DeploymentInformation) :
  PublicNodeID nc ∈ NodeIDs nc →
  generateDeployments nc userInfo = Ret info →
  WGAccessConfiguration info = accessConfig nc (PublicNodeID nc).
Proof.
  intros Hin Hrun. apply generateDeployments_result in Hrun as [-> _].
  by destruct (decide (PublicNodeID nc ∈ NodeIDs nc)).
Qed.

Lemma prefix_app (s t : string) : String.prefix s (s +:+ t) = true.
Proof.
  induction s as [|c s IH]; simpl; [by destruct t|].
  destruct (ascii_dec c c); [apply IH|done].
Qed.

Lemma contains_of_prefix (sub s : string) :
  String.prefix sub s = true → contains sub s = true.
Proof. destruct s; simpl; intros ->; reflexivity. Qed.

Lemma contains_prefix (s t : string) : contains s (s +:+ t) = true.
Proof. apply contains_of_prefix, prefix_app. Qed.

Lemma contains_app_r (sub a b : string) :
  contains sub b = true → contains sub (a +:+ b) = true.
Proof.
  intros Hb. induction a as [|c a IH]; [done|].
  change (String c a +:+ b) with (String c (a +:+ b)).
  cbn [contains]. rewrite IH. by destruct (String.prefix sub (String c (a +:+ b))).
Qed.

(** C7, as amended.  When the public node is in the node list, a run that
    returns gives the one access configuration built from the external
    key, the public key derived from the key of the public node, its port
    and the literal range 10.1.0.0/16: the text holds that public key and
    the allowed-IP line [10.1.0.0/16, 100.64.0.0/16], and is the same
    whatever the external access subnet is. *)
Theorem generateDeployments_access_public_key (nc : NetworkConfiguration)
    (userInfo : UserIdentityInfo) :
  PublicNodeID nc ∈ NodeIDs nc →
  (runsClean nc → ∃ info, generateDeployments nc userInfo = Ret info)
  ∧ ∀ info, generateDeployments nc userInfo = Ret info →
      WGAccessConfiguration info
      = generateWGConfig "100.64.1.2" (KeyString (ExternalNodeKey nc))
          (KeyString (PublicKey (keyOf nc (PublicNodeID nc))))
          ("185.206.122.31:" +:+ fmt_d (portOf nc (PublicNodeID nc)))
          "10.1.0.0/16"
      ∧ contains (KeyString (PublicKey (keyOf nc (PublicNodeID nc))))
          (WGAccessConfiguration info) = true
      ∧ contains "AllowedIPs = 10.1.0.0/16, 100.64.0.0/16"
          (WGAccessConfiguration info) = true
      ∧ ∀ external info',
          generateDeployments (withExternal nc external) userInfo = Ret info' →
          WGAccessConfiguration info' = WGAccessConfiguration info.
Proof.
  intros Hin. split; [apply generateDeployments_returns|].
  intros info Hrun. rewrite (generateDeployments_access nc userInfo info Hin Hrun).
  split_and!.
  - reflexivity.
  - unfold accessConfig, generateWGConfig.
    do 12 apply contains_app_r. apply contains_prefix.
  - unfold accessConfig, generateWGConfig.
    do 14 apply contains_app_r. reflexivity.
  - intros external info' Hrun'.
    by rewrite (generateDeployments_access (withExternal nc external) userInfo info' Hin Hrun').
Qed.

(** C10.  For every network configuration, the access configuration of a
    run that returns is empty when the public node is not in the node list,
    and otherwise is a text fixed but for the external private key, the
    public node's public key and the public node's port: interface address
    100.64.1.2, allowed IPs 10.1.0.0/16 and 100.64.0.0/16, keepalive 25,
    endpoint address 185.206.122.31; it is the same whatever the subnets of
    the nodes and of the external access point are, and whichever node is
    public. *)
Theorem generateDeployments_access_constants (nc : NetworkConfiguration)
    (userInfo : UserIdentityInfo) :
  (runsClean nc → ∃ info, generateDeployments nc userInfo = Ret info)
  ∧ ∀ info, generateDeployments nc userInfo = Ret info →
      (PublicNodeID nc ∉ NodeIDs nc → WGAccessConfiguration info = "")
      ∧ (PublicNodeID nc ∈ NodeIDs nc →
         WGAccessConfiguration info
         = nl +:+ "[Interface]" +:+ nl
           +:+ "Address = 100.64.1.2" +:+ nl
           +:+ "PrivateKey = " +:+ KeyString (ExternalNodeKey nc) +:+ nl
           +:+ "[Peer]" +:+ nl
           +:+ "PublicKey = " +:+ KeyString (PublicKey (keyOf nc (PublicNodeID nc))) +:+ nl
           +:+ "AllowedIPs = 10.1.0.0/16, 100.64.0.0/16" +:+ nl
           +:+ "PersistentKeepalive = 25" +:+ nl
           +:+ "Endpoint = 185.206.122.31:" +:+ fmt_d (portOf nc (PublicNodeID nc)) +:+ nl
           +:+ tab)
      ∧ ∀ ips external info',
          generateDeployments (withIPs (withExternal nc external) ips) userInfo = Ret info' →
          WGAccessConfiguration info' = WGAccessConfiguration info.
Proof.
  split; [apply generateDeployments_returns|].
  intros info Hrun. pose proof (generateDeployments_result nc userInfo info Hrun) as [Hcfg _].
  split_and!.
  - intros Hout. rewrite Hcfg. by destruct (decide (PublicNodeID nc ∈ NodeIDs nc)).
  - intros Hin. rewrite (generateDeployments_access nc userInfo info Hin Hrun).
    unfold accessConfig, generateWGConfig. reflexivity.
  - intros ips external info' Hrun'.
    apply generateDeployments_result in Hrun' as [Hcfg' _].
    rewrite Hcfg, Hcfg'. simpl.
    destruct (decide (PublicNodeID nc ∈ NodeIDs nc)); reflexivity.
Qed.

Lemma nodeIps_outside (nodeId : Z) : ¬ (1 ≤ nodeId ≤ 4) → nodeIps !! nodeId = None.
Proof.
  intros Hout. unfold nodeIps.
  rewrite !lookup_insert_ne by lia. apply lookup_empty.
Qed.

(** C9.  The endpoint lookup knows the node ids 1 to 4 only.  For any other
    id the endpoint is the text [[]:<port>], returned like any other; and a
    run that returns has, in the peer list of every other node, the entry
    of such a node with that endpoint. *)
Theorem getNodeEndpoint_unknown_node :
  (∀ nodeId, is_Some (nodeIps !! nodeId) ↔ 1 ≤ nodeId ≤ 4)
  ∧ (∀ nodeId wgPort, 1 ≤ nodeId ≤ 4 →
       ∃ addr, nodeIps !! nodeId = Some addr ∧ addr ≠ ""
               ∧ getNodeEndpoint nodeId wgPort = "[" +:+ addr +:+ "]:" +:+ fmt_d wgPort)
  ∧ (∀ nodeId wgPort, ¬ (1 ≤ nodeId ≤ 4) →
       getNodeEndpoint nodeId wgPort = "[]:" +:+ fmt_d wgPort)
  ∧ (∀ nc userInfo info, generateDeployments nc userInfo = Ret info →
       ∀ (i : nat) (A B : Z),
         NodeIDs nc !! i = Some A → B ∈ NodeIDs nc → B ≠ A → ¬ (1 ≤ B ≤ 4) →
         ∃ dA peersA p,
           Deployments info !! i = Some dA ∧ networkPeers dA = Some peersA
           ∧ p ∈ peersA ∧ Subnet p = ipOf nc B
           ∧ Endpoint p = "[]:" +:+ fmt_d (portOf nc B)).
Proof.
  assert (Hknown : ∀ nodeId wgPort, 1 ≤ nodeId ≤ 4 →
       ∃ addr, nodeIps !! nodeId = Some addr ∧ addr ≠ ""
               ∧ getNodeEndpoint nodeId wgPort = "[" +:+ addr +:+ "]:" +:+ fmt_d wgPort).
  { intros nodeId wgPort Hin. unfold getNodeEndpoint.
    assert (nodeId = 1 ∨ nodeId = 2 ∨ nodeId = 3 ∨ nodeId = 4) as [-> | [-> | [-> | ->]]] by lia;
      eexists; (split_and!; [reflexivity|discriminate|reflexivity]). }
  assert (Hunknown : ∀ nodeId wgPort, ¬ (1 ≤ nodeId ≤ 4) →
       getNodeEndpoint nodeId wgPort = "[]:" +:+ fmt_d wgPort).
  { intros nodeId wgPort Hout. unfold getNodeEndpoint.
    by rewrite nodeIps_outside. }
  split_and!; [|exact Hknown|exact Hunknown|].
  - intros nodeId. split.
    + intros [addr Haddr]. destruct (decide (1 ≤ nodeId ≤ 4)) as [|Hout]; [done|].
      rewrite nodeIps_outside in Haddr by done. discriminate.
    + intros Hin. destruct (Hknown nodeId 0 Hin) as (addr & -> & _). eauto.
  - intros nc userInfo info Hrun i A B Hi HB Hne Hout.
    apply generateDeployments_result in Hrun as [_ Hall].
    destruct (Forall2_lookup_l _ _ _ i A Hall Hi) as (dA & HdA & peersA & Hpeers & Hentries).
    destruct (proj1 (list_elem_of_lookup _ _) (peerOwners_other nc A B HB Hne)) as [j Hj].
    destruct (Forall2_lookup_l _ _ _ j (Some B) Hentries Hj) as (p & Hp & Hs & Hk & He).
    exists dA, peersA, p. split_and!; [done|done| |done|].
    + apply list_elem_of_lookup. eauto.
    + rewrite He. by apply Hunknown.
Qed.

End TopologyClaims.

(** ** The claims on sample inputs *)

Section OnSamples.

Import Network.

Lemma getFreeIP_first_free_dotted_witness :
  getFreeIP (ipNet 10 1 1 0 24) ["10.1.1.2"; "10.1.1.4"] = Ret "10.1.1.3".
Proof.
  apply (proj1 (getFreeIP_first_free_dotted (ipNet 10 1 1 0 24) ["10.1.1.2"; "10.1.1.4"]
                  10 1 1 eq_refl eq_refl eq_refl eq_refl) "10.1.1.3").
  exists 3. split_and!; [lia | lia | reflexivity | |].
  - intros Hin. apply isInStr_elem_of in Hin. discriminate Hin.
  - intros h' Hh'. assert (h' = 2) as -> by lia. by left.
Defined.

(** C4 as stated fails on the form of the result: for 10.1.1.0/24 and no
    address in use the allocator returns the bare dotted quad, not the text
    with a mask; and for a range held in the 4-byte form the octets read
    back through the range's length are those of the 16-byte prefix. *)
Lemma getFreeIP_result_has_no_mask :
  getFreeIP (ipNet 10 1 1 0 24) [] = Ret "10.1.1.2"
  ∧ getFreeIP (ipNet 10 1 1 0 24) [] ≠ Ret (withMask32 "10.1.1.2")
  ∧ contains "/" "10.1.1.2" = false
  ∧ getFreeIP {| IP := [10; 1; 1; 0]; Mask := [255; 255; 255; 0] |} [] = Ret "0.0.0.0".
Proof. split_and!; [reflexivity | discriminate | reflexivity | reflexivity]. Qed.

Lemma twoNodes_runsClean : @runsClean sampleWireGuard sampleGridTypes twoNodes.
Proof.
  split_and!.
  - intros n Hn. apply elem_of_cons in Hn as [->|Hn];
      [|apply elem_of_cons in Hn as [->|Hn]; [|inversion Hn]].
    + split; [eexists; split; [reflexivity|by vm_compute] | eexists; reflexivity].
    + split; [eexists; split; [reflexivity|by vm_compute] | eexists; reflexivity].
  - by vm_compute.
  - reflexivity.
  - intros twin sk d. eexists. reflexivity.
Defined.

Lemma generateDeployments_full_mesh_witness :
  ∃ info dA peersA j p,
    @generateDeployments sampleWireGuard sampleGridTypes twoNodes sampleUser = Ret info
    ∧ Deployments info !! 0%nat = Some dA
    ∧ networkPeers dA = Some peersA
    ∧ peersA !! j = Some p
    ∧ Subnet p = ipNet 10 1 4 0 24
    ∧ Endpoint p = "[2a02:1802:5e:16:225:90ff:fef5:582e]:3002".
Proof.
  assert (Hnd : NoDup (NodeIDs twoNodes)).
  { apply NoDup_cons. split; [|apply NoDup_singleton].
    intros Hin. apply elem_of_cons in Hin as [?|Hin]; [discriminate|inversion Hin]. }
  destruct (@generateDeployments_full_mesh sampleWireGuard sampleGridTypes twoNodes sampleUser Hnd)
    as [Hret Hmesh].
  destruct (Hret twoNodes_runsClean) as [info Hinfo].
  destruct (Hmesh info Hinfo 0%nat 1 eq_refl) as (dA & peersA & HdA & HpA & _ & _ & Hothers).
  destruct (Hothers 2) as (j & p & _ & Hp & Hs & _ & He & _ & _).
  - right. left.
  - discriminate.
  - exists info, dA, peersA, j, p. split_and!; try done.
Defined.

(** C5 as stated fails when the node list repeats an id: with nodes
    [1, 2, 2] the deployment of node 1 has two entries for node 2. *)
Lemma generateDeployments_repeated_node :
  ∃ info dA peersA,
    @generateDeployments sampleWireGuard sampleGridTypes repeatedNode sampleUser = Ret info
    ∧ Deployments info !! 0%nat = Some dA
    ∧ networkPeers dA = Some peersA
    ∧ length (filter (λ p, Subnet p = ipOf repeatedNode 2) peersA) = 2%nat
    ∧ length (filter (λ p, Endpoint p = getNodeEndpoint 2 (portOf repeatedNode 2)) peersA)
      = 2%nat.
Proof. eexists _, _, _. split_and!; by vm_compute. Qed.

Lemma generateDeployments_access_public_key_witness :
  ∃ info,
    @generateDeployments sampleWireGuard sampleGridTypes twoNodes sampleUser = Ret info
    ∧ contains "02020202" (WGAccessConfiguration info) = true
    ∧ contains "AllowedIPs = 10.1.0.0/16, 100.64.0.0/16" (WGAccessConfiguration info) = true.
Proof.
  destruct (@generateDeployments_access_public_key sampleWireGuard sampleGridTypes
              twoNodes sampleUser) as [Hret Hcfg]; [by left|].
  destruct (Hret twoNodes_runsClean) as [info Hinfo].
  destruct (Hcfg info Hinfo) as (_ & Hkey & Hallowed & _).
  exists info. split_and!; done.
Defined.

(** C7 as stated fails on the allowed IPs: the access configuration for the
    external subnet 10.1.2.0/24 does not hold that subnet. *)
Lemma accessConfig_lacks_external_subnet :
  ∃ info,
    @generateDeployments sampleWireGuard sampleGridTypes twoNodes sampleUser = Ret info
    ∧ PublicNodeID twoNodes ∈ NodeIDs twoNodes
    ∧ IPNet_String (ExternalNodeIP twoNodes) = Some "10.1.2.0/24"
    ∧ contains "10.1.2.0/24" (WGAccessConfiguration info) = false.
Proof. eexists. split_and!; [by vm_compute | by left | by vm_compute | by vm_compute]. Qed.

Lemma generateDeployments_access_constants_witness :
  ∃ info,
    @generateDeployments sampleWireGuard sampleGridTypes twoNodes sampleUser = Ret info
    ∧ WGAccessConfiguration info
      = nl +:+ "[Interface]" +:+ nl
        +:+ "Address = 100.64.1.2" +:+ nl
        +:+ "PrivateKey = 09090909" +:+ nl
        +:+ "[Peer]" +:+ nl
        +:+ "PublicKey = 02020202" +:+ nl
        +:+ "AllowedIPs = 10.1.0.0/16, 100.64.0.0/16" +:+ nl
        +:+ "PersistentKeepalive = 25" +:+ nl
        +:+ "Endpoint = 185.206.122.31:3001" +:+ nl
        +:+ tab.
Proof.
  destruct (@generateDeployments_access_constants sampleWireGuard sampleGridTypes
              twoNodes sampleUser) as [Hret Hcfg].
  destruct (Hret twoNodes_runsClean) as [info Hinfo].
  destruct (Hcfg info Hinfo) as (_ & Htext & _).
  exists info. split; [done|]. rewrite Htext; [reflexivity|by left].
Defined.

Lemma getNodeEndpoint_unknown_node_witness :
  getNodeEndpoint 5 3005 = "[]:3005"
  ∧ ∃ info dA peersA p,
      @generateDeployments sampleWireGuard sampleGridTypes unknownNode sampleUser = Ret info
      ∧ Deployments info !! 0%nat = Some dA ∧ networkPeers dA = Some peersA
      ∧ p ∈ peersA ∧ Endpoint p = "[]:3005".
Proof.
  destruct (@getNodeEndpoint_unknown_node sampleWireGuard sampleGridTypes)
    as (_ & _ & Hunknown & Hrun).
  split; [apply (Hunknown 5 3005); lia|].
  assert (Hinfo : ∃ info,
    @generateDeployments sampleWireGuard sampleGridTypes unknownNode sampleUser = Ret info).
  { eexists. by vm_compute. }
  destruct Hinfo as [info Hinfo].
  destruct (Hrun unknownNode sampleUser info Hinfo 0%nat 1 5 eq_refl)
    as (dA & peersA & p & HdA & HpA & Hp & _ & He); [right; left|discriminate|lia|].
  exists info, dA, peersA, p. split_and!; done.
Defined.

End OnSamples.

(** * Further properties of the deployment resource *)

Section Addresses.

Lemma append_inj_r (s t1 t2 : string) : s +:+ t1 = s +:+ t2 → t1 = t2.
Proof. induction s as [|c s IH]; simpl; [done|]. intros [= H]. by apply IH. Qed.

Lemma dotted_inj_host (a b c h h' : Z) : dotted a b c h = dotted a b c h' → h = h'.
Proof.
  unfold dotted. intros H. do 6 apply append_inj_r in H.
  unfold fmt_d in H. by apply (inj pretty) in H.
Qed.

Lemma parse_field_digits (str : string) :
  ∀ (acc : option Z) (v : Z),
    digits_val str acc = Some v →
    ∀ (s : string) (fields : list Z),
      parse_field (str +:+ s) acc fields = parse_field s (Some v) fields.
Proof.
  induction str as [|c str IH]; intros acc v Hval s fields.
  - simpl in Hval. by subst acc.
  - simpl in Hval. change (String c str +:+ s) with (String c (str +:+ s)).
    cbn [parse_field]. destruct (Ascii.eqb c "."%char); [discriminate|].
    destruct (digit_val c) as [d|]; [|discriminate].
    cbv zeta in Hval. cbv zeta.
    destruct (_ <=? 255); [|discriminate]. by apply IH.
Qed.

Lemma digits_val_fmt_d_bytes :
  forallb (λ v, bool_decide (digits_val (fmt_d v) None = Some v)) (seqZ 0 256) = true.
Proof. vm_compute. reflexivity. Qed.

(** Reading back the decimal text of a byte. *)
Lemma parse_field_fmt_d (v : Z) :
  0 ≤ v ≤ 255 →
  ∀ (s : string) (fields : list Z),
    parse_field (fmt_d v +:+ s) None fields = parse_field s (Some v) fields.
Proof.
  intros Hv. apply parse_field_digits.
  pose proof digits_val_fmt_d_bytes as Hall.
  rewrite forallb_forall in Hall.
  assert (Hin : In v (seqZ 0 256)) by (apply list_elem_of_In, elem_of_seqZ; lia).
  specialize (Hall v Hin). by apply bool_decide_eq_true in Hall.
Qed.

Lemma append_empty_r (s : string) : s +:+ "" = s.
Proof.
  induction s as [|c s IH]; [done|].
  change (String c (s +:+ "") = String c s). by rewrite IH.
Qed.

Lemma parse_field_dot (s : string) (v : Z) (fields : list Z) :
  parse_field ("." +:+ s) (Some v) fields = parse_field s None (fields ++ [v]).
Proof. reflexivity. Qed.

Lemma ParseIP_dotted (a b c d : Z) :
  0 ≤ a ≤ 255 → 0 ≤ b ≤ 255 → 0 ≤ c ≤ 255 → 0 ≤ d ≤ 255 →
  ParseIP (dotted a b c d) = Some (IPv4 a b c d).
Proof.
  intros Ha Hb Hc Hd. unfold ParseIP, dotted.
  rewrite (parse_field_fmt_d a Ha), parse_field_dot.
  rewrite (parse_field_fmt_d b Hb), parse_field_dot.
  rewrite (parse_field_fmt_d c Hc), parse_field_dot.
  rewrite <- (append_empty_r (fmt_d d)).
  rewrite (parse_field_fmt_d d Hd). reflexivity.
Qed.

End Addresses.

Section CreateMachines.

(** The two ways the allocator ends on a range in the 16-byte form. *)
Lemma getFreeIP_16 (ipRange : IPNet) (usedIPs : list string) (a b c : Z) :
  length (IP ipRange) = 16%nat →
  IP ipRange !! 12%nat = Some a →
  IP ipRange !! 13%nat = Some b →
  IP ipRange !! 14%nat = Some c →
  (∃ h, (2 ≤ h ≤ 254) ∧ getFreeIP ipRange usedIPs = Ret (dotted a b c h)
        ∧ (dotted a b c h ∉ usedIPs))
  ∨ (getFreeIP ipRange usedIPs = Err "all ips are used"
     ∧ ∀ h, 2 ≤ h ≤ 254 → dotted a b c h ∈ usedIPs).
Proof.
  intros Hlen Ha Hb Hc.
  assert (Hcand : ∀ i, 2 ≤ i < 255 → candidate ipRange i = Ret (dotted a b c i)).
  { intros i Hi. apply candidate_16; auto; lia. }
  destruct (getFreeIP_loop_spec (dotted a b c) ipRange usedIPs Hcand 253 2)
    as [(h & Hh & Hr & Hfree & _)|[Hr Hall]]; [lia|lia| |].
  - left. exists h. split_and!; [lia|lia|done|done].
  - right. split; [done|]. intros h Hh. apply Hall. lia.
Qed.

(** A used list that holds every host address has at least 253 entries. *)
Lemma all_hosts_used_length (usedIPs : list string) (a b c : Z) :
  (∀ h, 2 ≤ h ≤ 254 → dotted a b c h ∈ usedIPs) → (253 ≤ length usedIPs)%nat.
Proof.
  intros Hall.
  assert (Hsub : (dotted a b c <$> seqZ 2 253) ⊆+ usedIPs).
  { apply NoDup_submseteq.
    - apply NoDup_fmap_2; [|apply NoDup_seqZ]. intros h h'. apply dotted_inj_host.
    - intros s Hs. apply list_elem_of_fmap in Hs as (h & -> & Hh).
      apply elem_of_seqZ in Hh. apply Hall. lia. }
  apply submseteq_length in Hsub. rewrite length_fmap, length_seqZ in Hsub. lia.
Qed.

(** X1: the machine loop of the create path has room for every declared
    machine as long as the used list and the machines together number at
    most 253; it then gives each machine, in order, the dotted address of a
    host id in [2 .. 254] that was free, records it in the machine's [ip],
    appends it to the used list and puts it, parsed, with the configured
    network name on the one interface of the machine's workload. *)
Theorem createVms_capacity (networkName : string) (ipRange : IPNet) (a b c : Z)
    (vms : list Vm) :
  length (IP ipRange) = 16%nat →
  IP ipRange !! 12%nat = Some a → IP ipRange !! 13%nat = Some b →
  IP ipRange !! 14%nat = Some c →
  0 ≤ a ≤ 255 → 0 ≤ b ≤ 255 → 0 ≤ c ≤ 255 →
  ∀ (workloads : list Workload) (updated : list Vm) (usedIPs : list string),
    (length usedIPs + length vms ≤ 253)%nat →
    ∃ (wls : list Workload) (hs : list Z),
      createVms networkName ipRange vms workloads updated usedIPs
      = Ret (workloads ++ wls,
             updated ++ zip_with (λ vm h, set_vm_ip (dotted a b c h) (set_vm_version 0 vm)) vms hs,
             usedIPs ++ (dotted a b c <$> hs))
      ∧ length hs = length vms
      ∧ Forall (λ h, 2 ≤ h ≤ 254 ∧ dotted a b c h ∉ usedIPs) hs
      ∧ NoDup hs
      ∧ map wl_Name wls = map vm_name vms
      ∧ map interfacesOf wls
        = map (λ h, [ {| mi_Network := networkName; mi_IP := Some (IPv4 a b c h) |} ]) hs.
Proof.
  intros Hlen Ha Hb Hc Hba Hbb Hbc.
  induction vms as [|vm vms IH]; intros workloads updated usedIPs Hroom.
  - exists [], []. simpl. rewrite !app_nil_r. split_and!; try done; constructor.
  - simpl in Hroom. simpl.
    destruct (getFreeIP_16 ipRange usedIPs a b c Hlen Ha Hb Hc)
      as [(h & Hh & -> & Hfree)|[_ Hall]].
    2:{ apply all_hosts_used_length in Hall. lia. }
    simpl.
    destruct (IH (workloads ++ [createVmWorkload networkName (dotted a b c h)
                    (set_vm_ip (dotted a b c h) (set_vm_version Version vm))])
                 (updated ++ [set_vm_ip (dotted a b c h) (set_vm_version Version vm)])
                 (usedIPs ++ [dotted a b c h]))
      as (wls & hs & -> & Hlenhs & Hall & Hnd & Hnames & Hifs).
    { rewrite length_app. simpl. lia. }
    exists (createVmWorkload networkName (dotted a b c h)
              (set_vm_ip (dotted a b c h) (set_vm_version Version vm)) :: wls), (h :: hs).
    split_and!.
    + simpl. by rewrite <- !app_assoc.
    + simpl. by rewrite Hlenhs.
    + constructor; [done|]. eapply Forall_impl; [exact Hall|].
      intros h' [Hh' Hnin]. split; [done|]. intros Hin. apply Hnin.
      apply elem_of_app. by left.
    + constructor; [|done]. intros Hin. rewrite Forall_forall in Hall.
      destruct (Hall h Hin) as [_ Hnin]. apply Hnin. apply elem_of_app. right. by left.
    + simpl. by rewrite Hnames.
    + simpl. rewrite Hifs. f_equal. unfold interfacesOf. simpl.
      rewrite ParseIP_dotted by lia. reflexivity.
Qed.

Lemma createVms_capacity_witness :
  ∃ (wls : list Workload) (hs : list Z),
    createVms "net1" (ipNet 10 1 1 0 24) [web1; web1_cpu2] [] [] ["10.1.1.2"]
    = Ret ([] ++ wls,
           [] ++ zip_with (λ vm h, set_vm_ip (dotted 10 1 1 h) (set_vm_version 0 vm))
                   [web1; web1_cpu2] hs,
           ["10.1.1.2"] ++ (dotted 10 1 1 <$> hs))
    ∧ length hs = 2%nat.
Proof.
  destruct (createVms_capacity "net1" (ipNet 10 1 1 0 24) 10 1 1 [web1; web1_cpu2]
              eq_refl eq_refl eq_refl eq_refl ltac:(lia) ltac:(lia) ltac:(lia)
              [] [] ["10.1.1.2"] ltac:(simpl; lia))
    as (wls & hs & Hrun & Hlen & _).
  exists wls, hs. split; [exact Hrun | exact Hlen].
Defined.

End CreateMachines.

Section DiffMore.

Lemma vmHasChanged_cases (vm : Vm) (oldVms : list Vm) :
  match vmHasChanged vm oldVms with
  | (changed, Some prior) =>
      ∃ pre post, oldVms = pre ++ prior :: post
        ∧ vm_name prior = vm_name vm ∧ vm_flist prior = vm_flist vm
        ∧ Forall (λ old, ¬ (vm_name old = vm_name vm ∧ vm_flist old = vm_flist vm)) pre
  | (changed, None) =>
      changed = false
      ∧ Forall (λ old, ¬ (vm_name old = vm_name vm ∧ vm_flist old = vm_flist vm)) oldVms
  end.
Proof.
  induction oldVms as [|old oldVms IH]; simpl; [by split|].
  destruct (String.eqb_spec (vm_name old) (vm_name vm)) as [Hn|Hn];
    [destruct (String.eqb_spec (vm_flist old) (vm_flist vm)) as [Hf|Hf]|]; simpl.
  - assert (Hhere : ∃ pre post, old :: oldVms = pre ++ old :: post
        ∧ vm_name old = vm_name vm ∧ vm_flist old = vm_flist vm
        ∧ Forall (λ o, ¬ (vm_name o = vm_name vm ∧ vm_flist o = vm_flist vm)) pre).
    { exists [], oldVms. by split_and!. }
    by destruct (_ || _).
  - destruct (vmHasChanged vm oldVms) as [changed [prior|]].
    + destruct IH as (pre & post & -> & Hpn & Hpf & Hpre).
      exists (old :: pre), post. split_and!; try done. constructor; [tauto|done].
    + destruct IH as [-> Hall]. split; [done|]. constructor; [tauto|done].
  - destruct (vmHasChanged vm oldVms) as [changed [prior|]].
    + destruct IH as (pre & post & -> & Hpn & Hpf & Hpre).
      exists (old :: pre), post. split_and!; try done. constructor; [tauto|done].
    + destruct IH as [-> Hall]. split; [done|]. constructor; [tauto|done].
Qed.

(** X2: the record [vmHasChanged] returns is the first recorded machine with
    the declared name and flist; it returns no record, and [false], exactly
    when no recorded machine has both. *)
Theorem vmHasChanged_prior_is_first_match (vm : Vm) (oldVms : list Vm) :
  match vmHasChanged vm oldVms with
  | (changed, Some prior) =>
      ∃ pre post, oldVms = pre ++ prior :: post
        ∧ vm_name prior = vm_name vm ∧ vm_flist prior = vm_flist vm
        ∧ Forall (λ old, ¬ (vm_name old = vm_name vm ∧ vm_flist old = vm_flist vm)) pre
  | (changed, None) =>
      changed = false
      ∧ Forall (λ old, ¬ (vm_name old = vm_name vm ∧ vm_flist old = vm_flist vm)) oldVms
  end.
Proof. apply vmHasChanged_cases. Qed.

(** X3: a machine declared under a recorded name but with another flist is
    treated as new: the update path records and submits it at version 0,
    whatever version the record of that name had. *)
Theorem updateVm_new_flist_restarts_version (oldVms : list Vm) (data : Vm) :
  Forall (λ old, vm_name old = vm_name data → vm_flist old ≠ vm_flist data) oldVms →
  vm_version (updateVm oldVms data).2 = 0 ∧ wl_Version (updateVm oldVms data).1 = 0.
Proof.
  intros Hold. pose proof (vmHasChanged_cases data oldVms) as Hfirst.
  unfold updateVm. destruct (vmHasChanged data oldVms) as [changed [prior|]].
  - destruct Hfirst as (pre & post & -> & Hn & Hf & _).
    apply Forall_app in Hold as [_ Hold]. inversion Hold as [|? ? Hp _]; subst.
    by destruct (Hp Hn).
  - by destruct changed.
Qed.

Lemma updateVm_new_flist_restarts_version_witness :
  vm_version (updateVm [set_vm_version 7 web1_recorded]
                {| vm_name := "web1"; vm_flist := "https://hub.grid.tf/other.flist";
                   vm_version := 0; vm_ip := "10.1.1.2"; vm_cpu := 1; vm_memory := 1024;
                   vm_entrypoint := "/sbin/zinit init"; vm_mounts := [];
                   vm_env_vars := [] |}).2 = 0
  ∧ wl_Version (updateVm [set_vm_version 7 web1_recorded]
                {| vm_name := "web1"; vm_flist := "https://hub.grid.tf/other.flist";
                   vm_version := 0; vm_ip := "10.1.1.2"; vm_cpu := 1; vm_memory := 1024;
                   vm_entrypoint := "/sbin/zinit init"; vm_mounts := [];
                   vm_env_vars := [] |}).1 = 0.
Proof.
  apply updateVm_new_flist_restarts_version.
  constructor; [|constructor]. intros _. discriminate.
Defined.

Lemma int_add_1 (v : Z) : - 2 ^ 63 ≤ v < 2 ^ 63 - 1 → int_add v 1 = v + 1.
Proof.
  intros Hv. unfold int_add, wrap_int.
  rewrite Z.mod_small by lia. lia.
Qed.

(** X4: the version rule of the disk loop.  With no recorded disk of the
    declared name the disk gets version 0; otherwise the first recorded
    disk of that name decides: its version is kept when description and
    size are the same, and is increased by exactly one when either
    differs.  The workload submitted carries the version recorded. *)
Theorem updateDisk_version_rule (oldDisks : list Disk) (data : Disk) :
  wl_Version (updateDisk oldDisks data).1 = disk_version (updateDisk oldDisks data).2
  ∧ (Forall (λ old, disk_name old ≠ disk_name data) oldDisks →
     disk_version (updateDisk oldDisks data).2 = 0)
  ∧ (∀ pre prior post,
       oldDisks = pre ++ prior :: post →
       Forall (λ old, disk_name old ≠ disk_name data) pre →
       disk_name prior = disk_name data →
       - 2 ^ 63 ≤ disk_version prior < 2 ^ 63 - 1 →
       disk_version (updateDisk oldDisks data).2
       = if bool_decide (disk_description prior = disk_description data
                         ∧ disk_size prior = disk_size data)
         then disk_version prior else disk_version prior + 1).
Proof.
  split_and!.
  - apply updateDisk_versions.
  - intros Hnone. unfold updateDisk.
    replace (diskHasChanged data oldDisks) with (false, @None Disk); [done|].
    induction Hnone as [|old olds Hne _ IH]; simpl; [done|].
    by destruct (String.eqb_spec (disk_name old) (disk_name data)).
  - intros pre prior post -> Hpre Hname Hver. unfold updateDisk.
    rewrite (diskHasChanged_first_match data prior pre post Hpre Hname).
    destruct (decide (disk_description prior = disk_description data
                      ∧ disk_size prior = disk_size data)) as [[Hd Hs]|Hdiff].
    + rewrite bool_decide_eq_false_2 by tauto.
      rewrite bool_decide_eq_true_2 by tauto. reflexivity.
    + rewrite bool_decide_eq_true_2.
      * rewrite bool_decide_eq_false_2 by done. simpl. by apply int_add_1.
      * destruct (decide (disk_description prior = disk_description data)); [|tauto].
        destruct (decide (disk_size prior = disk_size data)); tauto.
Qed.

Lemma updateDisk_version_rule_witness :
  disk_version (updateDisk [disk1]
     {| disk_name := "data"; disk_size := 20; disk_description := "data disk";
        disk_version := 0 |}).2 = 1.
Proof.
  rewrite (proj2 (proj2 (updateDisk_version_rule [disk1]
     {| disk_name := "data"; disk_size := 20; disk_description := "data disk";
        disk_version := 0 |})) [] disk1 [] eq_refl (Forall_nil_2 _) eq_refl).
  - reflexivity.
  - vm_compute. split; [discriminate|reflexivity].
Defined.

End DiffMore.

Section UpdateMore.

Context `{I : Identity} `{C : Crypto}.

Lemma diskHasChanged_recorded (oldDisks : list Disk) (d : Disk) :
  NoDup (disk_name <$> oldDisks) → d ∈ oldDisks →
  diskHasChanged d oldDisks = (false, Some d).
Proof.
  intros Hnd Hin. apply list_elem_of_split in Hin as (pre & post & ->).
  rewrite fmap_app, fmap_cons in Hnd. apply NoDup_app in Hnd as (_ & Hpre & _).
  assert (Hfirst : Forall (λ old, disk_name old ≠ disk_name d) pre).
  { apply Forall_forall. intros old Hold Heq. apply (Hpre (disk_name old)).
    - by apply list_elem_of_fmap_2.
    - rewrite Heq. by left. }
  rewrite (diskHasChanged_first_match d d pre post Hfirst eq_refl).
  by rewrite bool_decide_eq_false_2 by tauto.
Qed.

Lemma zdbHasChanged_recorded (oldZdbs : list Zdb) (z : Zdb) :
  NoDup (zdb_name <$> oldZdbs) → z ∈ oldZdbs →
  zdbHasChanged z oldZdbs = (false, Some z).
Proof.
  intros Hnd Hin. apply list_elem_of_split in Hin as (pre & post & ->).
  rewrite fmap_app, fmap_cons in Hnd. apply NoDup_app in Hnd as (_ & Hpre & _).
  assert (Hfirst : Forall (λ old, zdb_name old ≠ zdb_name z) pre).
  { apply Forall_forall. intros old Hold Heq. apply (Hpre (zdb_name old)).
    - by apply list_elem_of_fmap_2.
    - rewrite Heq. by left. }
  rewrite (zdbHasChanged_first_match z z pre post Hfirst eq_refl).
  by rewrite bool_decide_eq_false_2 by tauto.
Qed.

Lemma updateZdbs_recorded (oldZdbs zdbs : list Zdb) :
  NoDup (zdb_name <$> oldZdbs) →
  Forall (λ z, z ∈ oldZdbs) zdbs →
  Forall (λ z, ∃ pwd, EncryptECDH (zdb_password z) = Ret pwd) zdbs →
  ∃ wls, updateZdbs oldZdbs zdbs = Ret (wls, zdbs) ∧ length wls = length zdbs.
Proof.
  intros Hnd Hin Henc. induction zdbs as [|z zdbs IH]; simpl; [by exists []|].
  inversion Hin as [|? ? Hz Hin']; subst. inversion Henc as [|? ? [pwd Hpwd] Henc']; subst.
  destruct (IH Hin' Henc') as (wls & -> & Hlen).
  unfold updateZdb. rewrite (zdbHasChanged_recorded oldZdbs z Hnd Hz). simpl.
  rewrite Hpwd. simpl. eexists. split.
  - by destruct z.
  - simpl. by rewrite Hlen.
Qed.

(** X5: declaring again exactly what is recorded changes no disk and no
    storage node: provided the mnemonics derive an identity and its secret
    key, the recorded names are unique within each kind and the passwords
    encrypt, the update returns, writes back the recorded disks and storage
    nodes as they were (versions included), and raises the deployment
    version by one. *)
Theorem resourceDeploymentUpdate_unchanged (twin_id : Z) (old : ResourceData) :
  IdentityFromPhrase = Ret () →
  (∃ sk, SecureKey = Ret sk) →
  NoDup (disk_name <$> rd_disks old) →
  NoDup (zdb_name <$> rd_zdbs old) →
  Forall (λ z, ∃ pwd, EncryptECDH (zdb_password z) = Ret pwd) (rd_zdbs old) →
  ∃ dl rd, resourceDeploymentUpdate twin_id old old = Ret (dl, rd)
    ∧ rd_disks rd = rd_disks old
    ∧ rd_zdbs rd = rd_zdbs old
    ∧ dl_Version dl = int_add (rd_version old) 1.
Proof.
  intros Hid [sk Hsk] Hdisks Hzdbs Henc. unfold resourceDeploymentUpdate.
  rewrite Hid, Hsk. simpl. rewrite Z.eqb_refl. simpl.
  destruct (updateZdbs_recorded (rd_zdbs old) (rd_zdbs old) Hzdbs) as (wls & -> & _);
    [by apply Forall_forall|done|].
  simpl. eexists _, _. split; [reflexivity|]. simpl. split_and!; [|done|done].
  rewrite map_map. transitivity (map id (rd_disks old)); [|apply map_id].
  apply map_ext_in. intros d Hd. apply list_elem_of_In in Hd.
  unfold updateDisk. rewrite (diskHasChanged_recorded _ d Hdisks Hd). simpl.
  by destruct d.
Qed.

Lemma updateZdbs_shape (oldZdbs zdbs : list Zdb) (wls : list Workload) (ups : list Zdb) :
  updateZdbs oldZdbs zdbs = Ret (wls, ups) →
  map wl_Name wls = map zdb_name zdbs
  ∧ map wl_Type wls = map (λ _, ZDBType) zdbs
  ∧ map (set_zdb_version 0) ups = map (set_zdb_version 0) zdbs.
Proof.
  revert wls ups. induction zdbs as [|z zdbs IH]; intros wls ups; simpl.
  - by intros [= <- <-].
  - unfold updateZdb at 1. destruct (zdbHasChanged z oldZdbs) as [changed oldZdb].
    destruct (EncryptECDH _) as [pwd| |]; simpl; try discriminate.
    destruct (updateZdbs oldZdbs zdbs) as [[wls' ups']| |]; simpl; try discriminate.
    intros [= <- <-]. destruct (IH wls' ups' eq_refl) as (Hn & Ht & Hu).
    simpl. rewrite Hn, Ht, Hu. done.
Qed.

(** X6: what an update that returns has built.  The node is the recorded
    one; the deployment version is the declared version plus one; the
    workloads are those of the declared disks, then storage nodes, then
    machines, one each and under the declared names; and every resource is
    written back as declared, only its version being set. *)
Theorem resourceDeploymentUpdate_shape (twin_id : Z) (old new : ResourceData)
    (dl : DeploymentT) (rd : ResourceData) :
  resourceDeploymentUpdate twin_id old new = Ret (dl, rd) →
  rd_node old = rd_node new
  ∧ dl_Version dl = int_add (rd_version new) 1
  ∧ map wl_Name (dl_Workloads dl)
    = map disk_name (rd_disks new) ++ map zdb_name (rd_zdbs new) ++ map vm_name (rd_vms new)
  ∧ map wl_Type (dl_Workloads dl)
    = map (λ _, ZMountType) (rd_disks new) ++ map (λ _, ZDBType) (rd_zdbs new)
      ++ map (λ _, ZMachineType) (rd_vms new)
  ∧ map (set_disk_version 0) (rd_disks rd) = map (set_disk_version 0) (rd_disks new)
  ∧ map (set_zdb_version 0) (rd_zdbs rd) = map (set_zdb_version 0) (rd_zdbs new)
  ∧ map (set_vm_version 0) (rd_vms rd) = map (set_vm_version 0) (rd_vms new).
Proof.
  unfold resourceDeploymentUpdate.
  destruct IdentityFromPhrase as [[]| |]; simpl; try discriminate.
  destruct SecureKey as [sk| |]; simpl; try discriminate.
  destruct (Z.eqb_spec (rd_node old) (rd_node new)) as [Hnode|]; simpl; [|discriminate].
  destruct (updateZdbs (rd_zdbs old) (rd_zdbs new)) as [[wls ups]| |] eqn:Hz; simpl;
    try discriminate.
  apply updateZdbs_shape in Hz as (Hzn & Hzt & Hzu).
  intros [= <- <-]. simpl. rewrite !map_app, !map_map, Hzn, Hzt.
  split_and!; try done.
  - f_equal; [|f_equal]; apply map_ext; intros x; unfold updateDisk, updateVm.
    + by destruct (diskHasChanged x (rd_disks old)) as [[|] [o|]].
    + by destruct (vmHasChanged x (rd_vms old)) as [[|] [o|]].
  - f_equal; [|f_equal]; apply map_ext; intros x; unfold updateDisk, updateVm.
    + by destruct (diskHasChanged x (rd_disks old)) as [[|] [o|]].
    + by destruct (vmHasChanged x (rd_vms old)) as [[|] [o|]].
  - apply map_ext. intros x. unfold updateDisk.
    by destruct (diskHasChanged x (rd_disks old)) as [[|] [o|]].
  - apply map_ext. intros x. unfold updateVm.
    by destruct (vmHasChanged x (rd_vms old)) as [[|] [o|]].
Qed.

Lemma updateZdbs_first_error (oldZdbs pre : list Zdb) (z : Zdb) (post : list Zdb) (e : string) :
  Forall (λ z, ∃ pwd, EncryptECDH (zdb_password z) = Ret pwd) pre →
  EncryptECDH (zdb_password z) = Err e →
  updateZdbs oldZdbs (pre ++ z :: post) = Err e.
Proof.
  intros Hpre Hz. induction Hpre as [|p pre [pwd Hp] _ IH]; simpl.
  - unfold updateZdb. destruct (zdbHasChanged z oldZdbs). simpl. by rewrite Hz.
  - unfold updateZdb at 1. destruct (zdbHasChanged p oldZdbs). simpl. rewrite Hp. simpl.
    by rewrite IH.
Qed.

(** X7: how an update fails before anything is submitted, in the order of
    the checks.  An error of the identity derivation is returned first, then
    an error of its secret key; with both derived, a declared node other
    than the recorded one is refused; otherwise the first storage node whose
    password does not encrypt ends the update with the encryption error.  In
    each case no deployment is built. *)
Theorem resourceDeploymentUpdate_errors (twin_id : Z) (old new : ResourceData) :
  (∀ e, IdentityFromPhrase = Err e → resourceDeploymentUpdate twin_id old new = Err e)
  ∧ (∀ e, IdentityFromPhrase = Ret () → SecureKey = Err e →
          resourceDeploymentUpdate twin_id old new = Err e)
  ∧ (IdentityFromPhrase = Ret () → (∃ sk, SecureKey = Ret sk) →
     rd_node old ≠ rd_node new →
     resourceDeploymentUpdate twin_id old new
     = Err "changing node is not supported, you need to destroy the deployment and reapply it again")
  ∧ (∀ pre z post e,
       IdentityFromPhrase = Ret () → (∃ sk, SecureKey = Ret sk) →
       rd_node old = rd_node new →
       rd_zdbs new = pre ++ z :: post →
       Forall (λ z, ∃ pwd, EncryptECDH (zdb_password z) = Ret pwd) pre →
       EncryptECDH (zdb_password z) = Err e →
       resourceDeploymentUpdate twin_id old new = Err e).
Proof.
  split_and!.
  - intros e Hid. unfold resourceDeploymentUpdate. by rewrite Hid.
  - intros e Hid Hsk. unfold resourceDeploymentUpdate. by rewrite Hid, Hsk.
  - intros Hid [sk Hsk] Hne. unfold resourceDeploymentUpdate. rewrite Hid, Hsk. simpl.
    by rewrite (proj2 (Z.eqb_neq _ _) Hne).
  - intros pre z post e Hid [sk Hsk] Hnode Hzdbs Hpre Hz. unfold resourceDeploymentUpdate.
    rewrite Hid, Hsk. simpl. rewrite Hnode, Z.eqb_refl, Hzdbs. simpl.
    by rewrite (updateZdbs_first_error _ pre z post e Hpre Hz).
Qed.

End UpdateMore.

Lemma resourceDeploymentUpdate_unchanged_witness :
  ∃ dl rd, @resourceDeploymentUpdate sampleIdentity sampleCrypto 14 applied applied = Ret (dl, rd)
    ∧ rd_disks rd = rd_disks applied
    ∧ rd_zdbs rd = rd_zdbs applied
    ∧ dl_Version dl = int_add (rd_version applied) 1.
Proof.
  apply (@resourceDeploymentUpdate_unchanged sampleIdentity sampleCrypto 14 applied).
  - reflexivity.
  - by eexists.
  - apply NoDup_singleton.
  - apply NoDup_singleton.
  - constructor; [|constructor]. eexists. reflexivity.
Defined.

Lemma resourceDeploymentUpdate_shape_witness :
  ∃ dl rd, @resourceDeploymentUpdate sampleIdentity sampleCrypto 14 applied declared = Ret (dl, rd)
    ∧ map wl_Name (dl_Workloads dl) = ["data"; "db"; "web1"].
Proof.
  eexists _, _. split; [reflexivity|].
  refine (proj1 (proj2 (proj2
    (@resourceDeploymentUpdate_shape sampleIdentity sampleCrypto 14 applied declared _ _ eq_refl)))).
Defined.


Lemma resourceDeploymentUpdate_errors_witness :
  @resourceDeploymentUpdate sampleIdentity sampleCrypto 14 applied
     {| rd_version := 0; rd_node := 3; rd_disks := [disk1]; rd_zdbs := [db_declared];
        rd_vms := [web1_cpu2] |}
  = Err "changing node is not supported, you need to destroy the deployment and reapply it again"
  ∧ @resourceDeploymentUpdate badMnemonics sampleCrypto 14 applied applied
    = Err "invalid mnemonic".
Proof.
  split.
  - apply (proj1 (proj2 (proj2
      (@resourceDeploymentUpdate_errors sampleIdentity sampleCrypto 14 applied _)))).
    + reflexivity.
    + by eexists.
    + discriminate.
  - apply (proj1 (@resourceDeploymentUpdate_errors badMnemonics sampleCrypto 14
                    applied applied)).
    reflexivity.
Defined.

Section CreateAndRead.

Context `{C : Crypto}.

Lemma createVms_shape (networkName : string) (ipRange : IPNet) (vms : list Vm) :
  ∀ (workloads workloads' : list Workload) (updated updated' : list Vm)
    (usedIPs usedIPs' : list string),
    createVms networkName ipRange vms workloads updated usedIPs
      = Ret (workloads', updated', usedIPs') →
    ∃ wls ups, workloads' = workloads ++ wls ∧ updated' = updated ++ ups
      ∧ usedIPs' = usedIPs ++ map vm_ip ups
      ∧ map wl_Name wls = map vm_name vms
      ∧ Forall (λ wl, wl_Version wl = 0 ∧ wl_Type wl = ZMachineType) wls
      ∧ map (set_vm_ip "") ups = map (λ vm, set_vm_ip "" (set_vm_version 0 vm)) vms.
Proof.
  induction vms as [|vm vms IH]; intros wls wls' upd upd' used used' Hrun; simpl in Hrun.
  - injection Hrun as <- <- <-. exists [], []. rewrite !app_nil_r. by split_and!.
  - destruct (getFreeIP ipRange used) as [freeIP| |]; simpl in Hrun; try discriminate.
    apply IH in Hrun as (ws & ups & -> & -> & -> & Hn & Hv & Hu).
    eexists (_ :: ws), (_ :: ups). rewrite <- !app_assoc. simpl.
    split_and!; try done.
    + by rewrite Hn.
    + constructor; [by split|done].
    + by rewrite Hu.
Qed.

Lemma createZdbs_shape (zdbs : list Zdb) (wls : list Workload) (ups : list Zdb) :
  createZdbs zdbs = Ret (wls, ups) →
  map wl_Name wls = map zdb_name zdbs
  ∧ Forall (λ wl, wl_Version wl = 0 ∧ wl_Type wl = ZDBType) wls
  ∧ ups = map (set_zdb_version 0) zdbs.
Proof.
  revert wls ups. induction zdbs as [|z zdbs IH]; intros wls ups; simpl.
  - by intros [= <- <-].
  - unfold createZdb at 1.
    destruct (EncryptECDH _) as [pwd| |]; simpl; try discriminate.
    destruct (createZdbs zdbs) as [[wls' ups']| |]; simpl; try discriminate.
    intros [= <- <-]. destruct (IH wls' ups' eq_refl) as (Hn & Hv & ->).
    simpl. rewrite Hn. split_and!; try done. constructor; [by split|done].
Qed.

(** X8: what a create that returns has built.  The deployment and every
    workload in it have version 0; the workloads are those of the declared
    disks, then storage nodes, then machines, under the declared names;
    every resource is listed back as declared with version 0, each machine
    also with its address; and the used-address list is the recorded one
    followed by the addresses of the machines, in order. *)
Theorem resourceDeploymentCreate_shape (twin_id : Z) (networkName : string)
    (ipRange : IPNet) (usedIPs : list string) (new : ResourceData) (cr : Created) :
  resourceDeploymentCreate twin_id networkName ipRange usedIPs new = Ret cr →
  dl_Version (created_dl cr) = 0
  ∧ Forall (λ wl, wl_Version wl = 0) (dl_Workloads (created_dl cr))
  ∧ map wl_Name (dl_Workloads (created_dl cr))
    = map disk_name (rd_disks new) ++ map zdb_name (rd_zdbs new) ++ map vm_name (rd_vms new)
  ∧ updated_disks cr = map (set_disk_version 0) (rd_disks new)
  ∧ updated_zdbs cr = map (set_zdb_version 0) (rd_zdbs new)
  ∧ map (set_vm_ip "") (updated_vms cr)
    = map (λ vm, set_vm_ip "" (set_vm_version 0 vm)) (rd_vms new)
  ∧ created_usedIPs cr = usedIPs ++ map vm_ip (updated_vms cr).
Proof.
  unfold resourceDeploymentCreate.
  destruct (createZdbs (rd_zdbs new)) as [[zwls zups]| |] eqn:Hz; simpl; try discriminate.
  apply createZdbs_shape in Hz as (Hzn & Hzv & ->).
  destruct (createVms _ _ _ _ _ _) as [[[wls ups] used']| |] eqn:Hv; simpl; try discriminate.
  apply createVms_shape in Hv as (vwls & vups & -> & -> & -> & Hvn & Hvv & Hvu).
  intros [= <-]. simpl. split_and!; try done.
  - rewrite !Forall_app. split_and!.
    + apply Forall_forall. intros wl Hwl. apply list_elem_of_fmap in Hwl as ([w d] & -> & Hin).
      apply list_elem_of_fmap in Hin as (d0 & [= -> ->] & _). reflexivity.
    + eapply Forall_impl; [exact Hzv|]. by intros wl [? _].
    + eapply Forall_impl; [exact Hvv|]. by intros wl [? _].
  - rewrite !map_app, !map_map, Hzn, Hvn, <- app_assoc. done.
  - by rewrite map_map.
Qed.

End CreateAndRead.

Lemma resourceDeploymentCreate_shape_witness :
  ∃ cr, @resourceDeploymentCreate sampleCrypto 14 "net1" (ipNet 10 1 1 0 24) [] declared = Ret cr
    ∧ map wl_Name (dl_Workloads (created_dl cr)) = ["data"; "db"; "web1"]
    ∧ created_usedIPs cr = [] ++ map vm_ip (updated_vms cr).
Proof.
  eexists. split; [reflexivity|].
  pose proof (@resourceDeploymentCreate_shape sampleCrypto 14 "net1" (ipNet 10 1 1 0 24) []
                declared _ eq_refl) as (_ & _ & Hn & _ & _ & _ & Hu).
  split; [exact Hn | exact Hu].
Defined.

Section Flatten.

Lemma disk_size_round_trip (size : Z) :
  to_uint64 (to_uint64 size * Gigabyte) / Gigabyte = size mod 2 ^ 34.
Proof.
  unfold to_uint64, Gigabyte.
  rewrite Z.mul_mod_idemp_l by lia.
  change (2 ^ 64) with (2 ^ 34 * (1024 * 1024 * 1024)).
  rewrite Z.mul_mod_distr_r by lia.
  apply Z.div_mul. lia.
Qed.

(** X9: reading a disk back.  [flattenDiskData] applied to the workload that
    the create or the update path builds for a disk gives the record that
    path lists back, its size taken modulo 2^34; so a disk comes back as
    recorded exactly when its size is in [0, 2^34) gigabytes. *)
Theorem flattenDiskData_of_built_disk (data : Disk) (oldDisks : list Disk) :
  flattenDiskData (createDisk data).1
  = Ret {| disk_name := disk_name data; disk_size := disk_size data mod 2 ^ 34;
           disk_description := disk_description data; disk_version := 0 |}
  ∧ flattenDiskData (updateDisk oldDisks data).1
    = Ret {| disk_name := disk_name data; disk_size := disk_size data mod 2 ^ 34;
             disk_description := disk_description data;
             disk_version := disk_version (updateDisk oldDisks data).2 |}
  ∧ (0 ≤ disk_size data < 2 ^ 34 →
     flattenDiskData (createDisk data).1 = Ret (createDisk data).2
     ∧ flattenDiskData (updateDisk oldDisks data).1 = Ret (updateDisk oldDisks data).2).
Proof.
  assert (Hc : flattenDiskData (createDisk data).1
    = Ret {| disk_name := disk_name data; disk_size := disk_size data mod 2 ^ 34;
             disk_description := disk_description data; disk_version := 0 |}).
  { unfold flattenDiskData, createDisk. simpl. by rewrite disk_size_round_trip. }
  assert (Hu : flattenDiskData (updateDisk oldDisks data).1
    = Ret {| disk_name := disk_name data; disk_size := disk_size data mod 2 ^ 34;
             disk_description := disk_description data;
             disk_version := disk_version (updateDisk oldDisks data).2 |}).
  { unfold flattenDiskData, updateDisk.
    destruct (diskHasChanged data oldDisks) as [[|] [o|]]; simpl;
      by rewrite disk_size_round_trip. }
  split_and!; [done|done|].
  intros Hsize. rewrite Hc, Hu, Z.mod_small by done. split.
  - reflexivity.
  - unfold updateDisk. by destruct (diskHasChanged data oldDisks) as [[|] [o|]].
Qed.

Lemma flattenDiskData_of_built_disk_witness :
  flattenDiskData (createDisk disk1).1 = Ret (createDisk disk1).2
  ∧ flattenDiskData (updateDisk [disk1] disk1).1 = Ret (updateDisk [disk1] disk1).2.
Proof.
  apply (proj2 (proj2 (flattenDiskData_of_built_disk disk1 [disk1]))).
  change (0 ≤ 10 < 2 ^ 34). lia.
Defined.

(** X10: reading a machine back.  [flattenVMData] applied to the workload the
    create path builds for a machine reports the memory in bytes (the
    declared megabytes times 2^20, modulo 2^64), the CPU count modulo 256,
    and each mount as its position in the list paired with the mount; the
    name, the flist and version 0 come back as declared. *)
Theorem flattenVMData_of_created_machine (networkName freeIP : string) (data : Vm) :
  flattenVMData (createVmWorkload networkName freeIP data)
  = Ret {| fv_cpu := vm_cpu data mod 256;
           fv_memory := (vm_memory data * 2 ^ 20) mod 2 ^ 64;
           fv_mounts :=
             imap (λ i m, {| fm_disk_name := Z.of_nat i;
                             fm_mount_point :=
                               {| mm_Name := mount_disk_name m;
                                  mm_Mountpoint := mount_point m |} |})
                  (vm_mounts data);
           fv_name := vm_name data;
           fv_flist := vm_flist data;
           fv_version := 0;
           fv_description := "" |}
  ∧ (0 < vm_memory data < 2 ^ 44 →
     ∃ flat, flattenVMData (createVmWorkload networkName freeIP data) = Ret flat
             ∧ fv_memory flat = vm_memory data * 1048576 ∧ fv_memory flat ≠ vm_memory data).
Proof.
  assert (Hflat : flattenVMData (createVmWorkload networkName freeIP data)
  = Ret {| fv_cpu := vm_cpu data mod 256;
           fv_memory := (vm_memory data * 2 ^ 20) mod 2 ^ 64;
           fv_mounts :=
             imap (λ i m, {| fm_disk_name := Z.of_nat i;
                             fm_mount_point :=
                               {| mm_Name := mount_disk_name m;
                                  mm_Mountpoint := mount_point m |} |})
                  (vm_mounts data);
           fv_name := vm_name data;
           fv_flist := vm_flist data;
           fv_version := 0;
           fv_description := "" |}).
  { unfold flattenVMData, createVmWorkload. simpl. f_equal. f_equal.
    - unfold to_uint64, Megabyte. rewrite Z.mul_mod_idemp_l by lia. reflexivity.
    - unfold machineMounts. generalize (vm_mounts data). intros ms.
      rewrite imap_fmap. reflexivity. }
  split; [exact Hflat|].
  intros Hm. eexists. split; [exact Hflat|]. simpl.
  rewrite Z.mod_small by lia. lia.
Qed.

Lemma flattenVMData_of_created_machine_witness :
  ∃ flat, flattenVMData (createVmWorkload "net1" "10.1.1.2" web1) = Ret flat
          ∧ fv_memory flat = 1024 * 1048576 ∧ fv_memory flat ≠ 1024.
Proof.
  apply (proj2 (flattenVMData_of_created_machine "net1" "10.1.1.2" web1)).
  change (0 < 1024 < 2 ^ 44). lia.
Defined.

End Flatten.

Section ReadAfterCreate.

Context `{C : Crypto}.

Lemma readWorkloads_disks (ds : list Disk) :
  Forall (λ d, 0 ≤ disk_size d < 2 ^ 34) ds →
  ∀ (gs rest : list Workload) (disks : list Disk) (vms : list FlatVm),
    Forall2 (λ g w, ∃ r, g = setResult r w) gs (map fst (map createDisk ds)) →
    readWorkloads (gs ++ rest) disks vms
    = readWorkloads rest (disks ++ map (set_disk_version 0) ds) vms.
Proof.
  induction 1 as [|d ds Hd _ IH]; intros gs rest disks vms Hgs; simpl in Hgs.
  - apply Forall2_nil_inv_r in Hgs as ->. simpl. by rewrite app_nil_r.
  - apply Forall2_cons_inv_r in Hgs as (g & gs' & [r ->] & Hgs' & ->).
    simpl. unfold flattenDiskData. simpl. rewrite disk_size_round_trip.
    rewrite Z.mod_small by done. simpl. rewrite (IH gs' rest _ vms Hgs').
    by rewrite <- app_assoc.
Qed.

Lemma readWorkloads_zdbs (gs : list Workload) :
  Forall (λ g, wl_Type g = ZDBType) gs →
  ∀ (rest : list Workload) (disks : list Disk) (vms : list FlatVm),
    readWorkloads (gs ++ rest) disks vms = readWorkloads rest disks vms.
Proof.
  induction 1 as [|g gs Hg _ IH]; intros rest disks vms; simpl; [done|].
  rewrite Hg. simpl. apply IH.
Qed.

Lemma readWorkloads_machines (gs : list Workload) :
  Forall (λ g, wl_Type g = ZMachineType ∧ ∃ flat, flattenVMData g = Ret flat) gs →
  ∀ (disks : list Disk) (vms : list FlatVm),
    ∃ flats, readWorkloads gs disks vms = Ret (disks, vms ++ flats)
             ∧ map fv_name flats = map wl_Name gs.
Proof.
  induction 1 as [|g gs [Hg [flat Hflat]] _ IH]; intros disks vms; simpl.
  - exists []. by rewrite app_nil_r.
  - rewrite Hg. simpl. rewrite Hflat. simpl.
    destruct (IH disks (vms ++ [flat])) as (flats & -> & Hnames).
    exists (flat :: flats). rewrite <- app_assoc. split; [done|]. simpl. f_equal; [|done].
    unfold flattenVMData in Hflat. rewrite Hg in Hflat.
    destruct (wl_Data g); try discriminate. by injection Hflat as <-.
Qed.

Lemma createVms_workloads (networkName : string) (ipRange : IPNet) (vms : list Vm) :
  ∀ (workloads workloads' : list Workload) (updated updated' : list Vm)
    (usedIPs usedIPs' : list string),
    createVms networkName ipRange vms workloads updated usedIPs
      = Ret (workloads', updated', usedIPs') →
    ∃ wls, workloads' = workloads ++ wls
      ∧ Forall2 (λ vm wl, ∃ ip, wl = createVmWorkload networkName ip
                                       (set_vm_ip ip (set_vm_version Version vm))) vms wls.
Proof.
  induction vms as [|vm vms IH]; intros wls wls' upd upd' used used' Hrun; simpl in Hrun.
  - injection Hrun as <- <- <-. exists []. rewrite app_nil_r. split; [done|constructor].
  - destruct (getFreeIP ipRange used) as [freeIP| |]; simpl in Hrun; try discriminate.
    apply IH in Hrun as (ws & -> & Hws).
    eexists (_ :: ws). rewrite <- app_assoc. split; [done|].
    constructor; [by exists freeIP | done].
Qed.

(** X11: reading after a create.  From the deployment a create has built, as
    the node returns it (results filled in), the read lists the declared
    disks exactly as the create listed them back, provided every size is in
    [0, 2^34) gigabytes, and one machine per declared machine, under its
    name; the storage nodes are not listed at all. *)
Theorem resourceDeploymentRead_after_create (twin_id : Z) (networkName : string)
    (ipRange : IPNet) (usedIPs : list string) (new : ResourceData) (cr : Created)
    (got : DeploymentT) :
  resourceDeploymentCreate twin_id networkName ipRange usedIPs new = Ret cr →
  Forall (λ d, 0 ≤ disk_size d < 2 ^ 34) (rd_disks new) →
  asDeployed got (created_dl cr) →
  ∃ vms, resourceDeploymentRead got = Ret (vms, updated_disks cr, 0)
         ∧ map fv_name vms = map vm_name (rd_vms new).
Proof.
  intros Hcreate Hsizes [Hver Hgot]. unfold resourceDeploymentCreate in Hcreate.
  destruct (createZdbs (rd_zdbs new)) as [[zwls zups]| |] eqn:Hz; simpl in Hcreate;
    try discriminate.
  apply createZdbs_shape in Hz as (_ & Hzt & _).
  destruct (createVms _ _ _ _ _ _) as [[[wls ups] used']| |] eqn:Hv; simpl in Hcreate;
    try discriminate.
  pose proof (createVms_shape _ _ _ _ _ _ _ _ _ Hv) as (vwls0 & _ & Hw0 & _ & _ & Hvn & _).
  apply createVms_workloads in Hv as (vwls & -> & Hvw).
  apply app_inv_head in Hw0 as <-.
  injection Hcreate as <-. simpl in *.
  rewrite <- app_assoc in Hgot.
  apply Forall2_app_inv_r in Hgot as (gd & grest & Hgd & Hgrest & Hsplit).
  apply Forall2_app_inv_r in Hgrest as (gz & gv & Hgz & Hgv & ->).
  unfold resourceDeploymentRead. rewrite Hsplit, Hver.
  rewrite (readWorkloads_disks _ Hsizes gd (gz ++ gv) [] [] Hgd).
  rewrite readWorkloads_zdbs.
  2:{ apply Forall_forall. intros g Hg.
      apply list_elem_of_lookup in Hg as [i Hi].
      destruct (Forall2_lookup_l _ _ _ i g Hgz Hi) as (w & Hw & r & ->).
      rewrite Forall_forall in Hzt. apply (Hzt w). apply list_elem_of_lookup. eauto. }
  destruct (readWorkloads_machines gv) with (disks := map (set_disk_version 0) (rd_disks new))
                                            (vms := @nil FlatVm)
    as (flats & Hread & Hnames).
  { apply Forall_forall. intros g Hg.
    apply list_elem_of_lookup in Hg as [i Hi].
    destruct (Forall2_lookup_l _ _ _ i g Hgv Hi) as (w & Hw & r & ->).
    destruct (Forall2_lookup_r _ _ _ i w Hvw Hw) as (vm & _ & ip & ->).
    split; [done|]. eexists. reflexivity. }
  simpl. rewrite Hread. simpl. exists flats. rewrite map_map. split; [done|].
  rewrite Hnames, <- Hvn. clear -Hgv.
  induction Hgv as [|g w gs ws [r ->] _ IH]; simpl; [done|]. by rewrite IH.
Qed.

End ReadAfterCreate.

Lemma resourceDeploymentRead_after_create_witness :
  ∃ cr vms,
    @resourceDeploymentCreate sampleCrypto 14 "net1" (ipNet 10 1 1 0 24) [] declared = Ret cr
    ∧ resourceDeploymentRead (created_dl cr) = Ret (vms, updated_disks cr, 0)
    ∧ map fv_name vms = map vm_name (rd_vms declared).
Proof.
  destruct (@resourceDeploymentCreate sampleCrypto 14 "net1" (ipNet 10 1 1 0 24) [] declared)
    as [cr| |] eqn:Hcr; [|vm_compute in Hcr; discriminate..].
  destruct (@resourceDeploymentRead_after_create sampleCrypto 14 "net1" (ipNet 10 1 1 0 24) []
              declared cr (created_dl cr) Hcr) as (vms & Hread & Hnames).
  - constructor; [|constructor]. change (0 ≤ 10 < 2 ^ 34). lia.
  - split; [reflexivity|]. apply Forall_Forall2_diag, Forall_forall.
    intros wl _. exists (wl_Result wl). by destruct wl.
  - exists cr, vms. split_and!; [reflexivity | exact Hread | exact Hnames].
Defined.

Section AllocatorEdges.

(** X12: a range whose address slice has fewer than four bytes (such as the
    zero range that an empty [ip_range] parses to) makes the allocator
    panic on its first index, whatever the used list. *)
Theorem getFreeIP_short_range_panics (ipRange : IPNet) (usedIPs : list string) :
  (length (IP ipRange) < 4)%nat →
  getFreeIP ipRange usedIPs = Panic "index out of range".
Proof.
  intros Hlen. unfold getFreeIP. simpl. unfold candidate, index, len.
  replace (0 <=? Z.of_nat (length (IP ipRange)) - 4) with false
    by (symmetry; apply Z.leb_gt; lia).
  reflexivity.
Qed.

Lemma getFreeIP_short_range_panics_witness :
  getFreeIP {| IP := []; Mask := [] |} ["10.1.1.2"] = Panic "index out of range".
Proof. apply getFreeIP_short_range_panics. simpl. lia. Defined.

End AllocatorEdges.

Section WaitMore.

(** X13: an error of the fetch itself ends the wait at once with that very
    error, after any number of rounds that found the deployment pending;
    the workloads are not looked at and the clock is not read again. *)
Theorem waitDeployment_fetch_error (id : Z) (ts : list Z)
    (rs : list (Outcome DeploymentT)) (t : Z) (clk : list Z)
    (ans : list (Outcome DeploymentT)) (e : string) :
  length ts = length rs → Forall (λ t, t < 4 * Minute) ts → Forall stillPending rs →
  t < 4 * Minute →
  waitDeployment {| clock := ts ++ t :: clk; answers := rs ++ Err e :: ans |} id
  = Some (Err e, EvNow :: roundEvents id (ts ++ [t])).
Proof.
  intros Hlen Hts Hrs Ht. unfold waitDeployment. simpl.
  rewrite waitLoop_pending_rounds by done. simpl.
  destruct (Z.ltb_spec t (4 * Minute)) as [_|?]; [|lia].
  rewrite roundEvents_app. simpl. by rewrite <- ?app_assoc.
Qed.

Lemma waitDeployment_fetch_error_witness :
  waitDeployment {| clock := [1000; 2000; 3000];
                    answers := [Ret (dlOf [pendingWl]); Err "context deadline exceeded"] |} 7
  = Some (Err "context deadline exceeded",
          [EvNow; EvSince 1000; EvDeploymentGet 7; EvSince 2000; EvDeploymentGet 7]).
Proof.
  apply (waitDeployment_fetch_error 7 [1000] [Ret (dlOf [pendingWl])] 2000 [3000] []).
  - reflexivity.
  - repeat constructor.
  - constructor; [|constructor]. exists (dlOf [pendingWl]).
    split_and!; [done| |by left].
    repeat constructor; intros [H _]; by apply H.
  - reflexivity.
Defined.

End WaitMore.

(** * Further properties of the network resource *)

(** ** The free WireGuard port *)

Section Ports.

Import Network.

Lemma isIn_elem_of (l : list Z) (i : Z) : isIn l i = true ↔ i ∈ l.
Proof.
  induction l as [|x l IH]; simpl.
  - split; [done|]. intros H. by apply elem_of_nil in H.
  - rewrite elem_of_cons. destruct (Z.eqb_spec i x) as [->|Hne].
    + split; auto.
    + rewrite IH. split; [auto|]. by intros [?|?].
Qed.

Lemma sampled_port (r : Z) :
  0 ≤ r < 6000 →
  to_uint16 (to_uint64 (r + 2000)) = r + 2000 ∧ wrap_int (to_uint64 (r + 2000)) = r + 2000.
Proof.
  intros Hr. unfold to_uint16, to_uint64, wrap_int.
  rewrite (Z.mod_small (r + 2000) (2 ^ 64)) by lia.
  rewrite (Z.mod_small (r + 2000) (2 ^ 16)) by lia.
  split; [done|].
  rewrite Z.mod_small by lia. lia.
Qed.

Lemma samplePort_first_free (freeports pre : list Z) (r : Z) (post : list Z) :
  Forall (λ r', 0 ≤ r' < 6000 ∧ r' + 2000 ∈ freeports) pre →
  0 ≤ r < 6000 → r + 2000 ∉ freeports →
  samplePort freeports (pre ++ r :: post) = Some (r + 2000).
Proof.
  intros Hpre Hr Hfree. induction Hpre as [|r' pre [Hr' Hin] _ IH]; simpl.
  - destruct (sampled_port r Hr) as [-> ->].
    destruct (isIn freeports (r + 2000)) eqn:E; [|done].
    by apply isIn_elem_of in E.
  - destruct (sampled_port r' Hr') as [-> _].
    by rewrite (proj2 (isIn_elem_of _ _) Hin).
Qed.

Lemma samplePort_Some (freeports rands : list Z) (p : Z) :
  Forall (λ r, 0 ≤ r < 6000) rands →
  samplePort freeports rands = Some p →
  ∃ pre r post, rands = pre ++ r :: post ∧ p = r + 2000
    ∧ Forall (λ r', r' + 2000 ∈ freeports) pre ∧ r + 2000 ∉ freeports.
Proof.
  intros Hrands. induction Hrands as [|r rands Hr _ IH]; simpl; [done|].
  destruct (sampled_port r Hr) as [-> ->].
  destruct (isIn freeports (r + 2000)) eqn:E.
  - intros H. destruct (IH H) as (pre & r0 & post & -> & -> & Hpre & Hfree).
    exists (r :: pre), r0, post. split_and!; [done|done| |done].
    constructor; [|done]. by apply isIn_elem_of.
  - intros [= <-]. exists [], r, rands. split_and!; [done|done|constructor|].
    intros Hin. apply isIn_elem_of in Hin. congruence.
Qed.

Lemma samplePort_None (freeports rands : list Z) :
  Forall (λ r, 0 ≤ r < 6000) rands →
  Forall (λ r, r + 2000 ∈ freeports) rands →
  samplePort freeports rands = None.
Proof.
  intros Hrands Hall. induction Hrands as [|r rands Hr _ IH]; simpl; [done|].
  apply Forall_cons in Hall as [Hin Hall].
  destruct (sampled_port r Hr) as [-> _].
  rewrite (proj2 (isIn_elem_of _ _) Hin). by apply IH.
Qed.

Lemma getNodeFreeWGPort_reachable (w : PortWorld) (nodeId twin : Z) :
  pw_NewClient w = Ret () → pw_NewSubstrate w = Ret () → pw_GetNode w nodeId = Ret twin →
  getNodeFreeWGPort w nodeId
  = match samplePort (pw_NetworkListWGPorts w (to_uint32 twin)).1 (pw_rand w) with
    | Some p => Some (Ret p)
    | None => None
    end.
Proof.
  intros Hc Hs Hn. unfold getNodeFreeWGPort. rewrite Hc, Hs, Hn. reflexivity.
Qed.

(** X14: the port [getNodeFreeWGPort] returns.  With the client, the ledger
    and the node's twin at hand, the result is the first draw, shifted by
    2000, that the node did not list: it lies in [2000, 8000) and is not among
    the listed ports, and every earlier draw was listed.  Whether the node's
    listing came with an error plays no part. *)
Theorem getNodeFreeWGPort_first_unlisted (w : PortWorld) (nodeId twin : Z) :
  pw_NewClient w = Ret () → pw_NewSubstrate w = Ret () → pw_GetNode w nodeId = Ret twin →
  Forall (λ r, 0 ≤ r < 6000) (pw_rand w) →
  ∀ listed err, pw_NetworkListWGPorts w (to_uint32 twin) = (listed, err) →
  (∀ pre r post,
     pw_rand w = pre ++ r :: post →
     Forall (λ r', r' + 2000 ∈ listed) pre → r + 2000 ∉ listed →
     getNodeFreeWGPort w nodeId = Some (Ret (r + 2000)))
  ∧ (∀ o, getNodeFreeWGPort w nodeId = Some o →
       ∃ pre r post, o = Ret (r + 2000) ∧ pw_rand w = pre ++ r :: post
         ∧ Forall (λ r', r' + 2000 ∈ listed) pre
         ∧ 2000 ≤ r + 2000 < 8000 ∧ r + 2000 ∉ listed).
Proof.
  intros Hc Hs Hn Hrands listed err Hl.
  rewrite (getNodeFreeWGPort_reachable w nodeId twin Hc Hs Hn), Hl. simpl. split.
  - intros pre r post Heq Hpre Hfree.
    rewrite Heq in Hrands |- *. apply Forall_app in Hrands as [Hr1 Hr2].
    apply Forall_cons in Hr2 as [Hr _].
    rewrite samplePort_first_free; [done| |done|done].
    apply Forall_forall. intros x Hx. split.
    + by apply (proj1 (Forall_forall _ _) Hr1).
    + by apply (proj1 (Forall_forall _ _) Hpre).
  - intros o Ho. destruct (samplePort listed (pw_rand w)) as [p|] eqn:E; [|done].
    injection Ho as <-.
    destruct (samplePort_Some _ _ _ Hrands E) as (pre & r & post & Heq & -> & Hpre & Hfree).
    exists pre, r, post. split_and!; try done.
    + rewrite Heq in Hrands. apply Forall_app in Hrands as [_ Hr2].
      apply Forall_cons in Hr2 as [Hr _]. lia.
    + rewrite Heq in Hrands. apply Forall_app in Hrands as [_ Hr2].
      apply Forall_cons in Hr2 as [Hr _]. lia.
Qed.

Lemma getNodeFreeWGPort_first_unlisted_witness :
  getNodeFreeWGPort
    {| pw_NewClient := Ret (); pw_NewSubstrate := Ret (); pw_GetNode := λ _, Ret 7;
       pw_NetworkListWGPorts := λ _, ([2005; 2100], Some "timeout");
       pw_rand := [5; 100; 42; 5] |} 3
  = Some (Ret (42 + 2000)).
Proof.
  refine (proj1 (getNodeFreeWGPort_first_unlisted
    {| pw_NewClient := Ret (); pw_NewSubstrate := Ret (); pw_GetNode := λ _, Ret 7;
       pw_NetworkListWGPorts := λ _, ([2005; 2100], Some "timeout");
       pw_rand := [5; 100; 42; 5] |} 3 7 eq_refl eq_refl eq_refl _
    [2005; 2100] (Some "timeout") eq_refl) [5; 100] 42 [5] eq_refl _ _).
  - simpl. repeat (apply Forall_cons; split; [simpl; lia|]). apply Forall_nil_2.
  - repeat (apply Forall_cons; split; [by apply isIn_elem_of|]). apply Forall_nil_2.
  - intros H. apply isIn_elem_of in H. discriminate H.
Defined.

(** X15: when the node lists every port of [2000, 8000), [getNodeFreeWGPort]
    does not return: whatever the draws, and however many, none of them ends
    the sampling. *)
Theorem getNodeFreeWGPort_all_listed (w : PortWorld) (nodeId twin : Z) :
  pw_NewClient w = Ret () → pw_NewSubstrate w = Ret () → pw_GetNode w nodeId = Ret twin →
  Forall (λ r, 0 ≤ r < 6000) (pw_rand w) →
  (∀ p, 2000 ≤ p < 8000 → p ∈ (pw_NetworkListWGPorts w (to_uint32 twin)).1) →
  getNodeFreeWGPort w nodeId = None.
Proof.
  intros Hc Hs Hn Hrands Hall.
  rewrite (getNodeFreeWGPort_reachable w nodeId twin Hc Hs Hn).
  rewrite samplePort_None; [done|done|].
  eapply Forall_impl; [exact Hrands|]. intros r Hr. simpl in Hr. apply Hall. lia.
Qed.

Lemma getNodeFreeWGPort_all_listed_witness :
  getNodeFreeWGPort
    {| pw_NewClient := Ret (); pw_NewSubstrate := Ret (); pw_GetNode := λ _, Ret 7;
       pw_NetworkListWGPorts := λ _, (seqZ 2000 6000, None);
       pw_rand := [0; 5999; 17; 0] |} 3
  = None.
Proof.
  apply (getNodeFreeWGPort_all_listed
    {| pw_NewClient := Ret (); pw_NewSubstrate := Ret (); pw_GetNode := λ _, Ret 7;
       pw_NetworkListWGPorts := λ _, (seqZ 2000 6000, None);
       pw_rand := [0; 5999; 17; 0] |} 3 7 eq_refl eq_refl eq_refl).
  - simpl. repeat (apply Forall_cons; split; [simpl; lia|]). apply Forall_nil_2.
  - intros p Hp. simpl. apply elem_of_seqZ. lia.
Defined.

End Ports.

(** ** The recorded state of a network *)

Section State.

Import Network.

Lemma asInt_Ret (info : gmap string Value) (key : string) (n : Z) :
  asInt info key = Ret n ↔ info !! key = Some (VInt n).
Proof.
  unfold asInt. destruct (info !! key) as [[m|s]|]; split; intros H; by simplify_eq.
Qed.

Lemma asString_Ret (info : gmap string Value) (key : string) (s : string) :
  asString info key = Ret s ↔ info !! key = Some (VString s).
Proof.
  unfold asString. destruct (info !! key) as [[m|t]|]; split; intros H; by simplify_eq.
Qed.

Lemma asInt_not_Err (info : gmap string Value) (key e : string) : asInt info key ≠ Err e.
Proof. unfold asInt. by destruct (info !! key) as [[m|s]|]. Qed.

Lemma asString_not_Err (info : gmap string Value) (key e : string) : asString info key ≠ Err e.
Proof. unfold asString. by destruct (info !! key) as [[m|s]|]. Qed.

Lemma loadOne_Ret (info : gmap string Value) (ndi : NodeDeploymentsInfo) :
  loadOne info = Ret ndi ↔ Dictify ndi ⊆ info.
Proof.
  split.
  - unfold loadOne. intros H.
    destruct (asInt info "version") as [ver| |] eqn:E1; simpl in H; try done.
    destruct (asInt info "deployment_id") as [di| |] eqn:E2; simpl in H; try done.
    destruct (asInt info "node_id") as [ni| |] eqn:E3; simpl in H; try done.
    destruct (asString info "wg_private_key") as [sk| |] eqn:E4; simpl in H; try done.
    destruct (asString info "wg_public_key") as [pk| |] eqn:E5; simpl in H; try done.
    destruct (asInt info "wg_port") as [po| |] eqn:E6; simpl in H; try done.
    destruct (asString info "ip_range") as [ir| |] eqn:E7; simpl in H; try done.
    injection H as <-.
    apply asInt_Ret in E1, E2, E3, E6. apply asString_Ret in E4, E5, E7.
    apply map_subseteq_spec. intros k v. unfold Dictify. simpl.
    rewrite !lookup_insert_Some, lookup_empty. intros Hkv.
    repeat (destruct Hkv as [[<- <-]|[_ Hkv]]; [assumption|]). done.
  - intros Hsub.
    assert (Hk : ∀ k v, Dictify ndi !! k = Some v → info !! k = Some v).
    { by apply map_subseteq_spec. }
    unfold loadOne.
    rewrite (proj2 (asInt_Ret info "version" (ndi_Version ndi))) by (by apply Hk). simpl.
    rewrite (proj2 (asInt_Ret info "deployment_id" (ndi_DeploymentID ndi))) by (by apply Hk). simpl.
    rewrite (proj2 (asInt_Ret info "node_id" (ndi_NodeID ndi))) by (by apply Hk). simpl.
    rewrite (proj2 (asString_Ret info "wg_private_key" (ndi_WGPrivateKey ndi))) by (by apply Hk). simpl.
    rewrite (proj2 (asString_Ret info "wg_public_key" (ndi_WGPublicKey ndi))) by (by apply Hk). simpl.
    rewrite (proj2 (asInt_Ret info "wg_port" (ndi_WGPort ndi))) by (by apply Hk). simpl.
    rewrite (proj2 (asString_Ret info "ip_range" (ndi_IPRange ndi))) by (by apply Hk). simpl.
    by destruct ndi.
Qed.

Lemma loadOne_not_Err (info : gmap string Value) (e : string) : loadOne info ≠ Err e.
Proof.
  unfold loadOne. intros H.
  destruct (asInt info "version") as [ver| |] eqn:E1; simpl in H; try done;
    [|by apply asInt_not_Err in E1].
  destruct (asInt info "deployment_id") as [di| |] eqn:E2; simpl in H; try done;
    [|by apply asInt_not_Err in E2].
  destruct (asInt info "node_id") as [ni| |] eqn:E3; simpl in H; try done;
    [|by apply asInt_not_Err in E3].
  destruct (asString info "wg_private_key") as [sk| |] eqn:E4; simpl in H; try done;
    [|by apply asString_not_Err in E4].
  destruct (asString info "wg_public_key") as [pk| |] eqn:E5; simpl in H; try done;
    [|by apply asString_not_Err in E5].
  destruct (asInt info "wg_port") as [po| |] eqn:E6; simpl in H; try done;
    [|by apply asInt_not_Err in E6].
  destruct (asString info "ip_range") as [ir| |] eqn:E7; simpl in H; try done.
  by apply asString_not_Err in E7.
Qed.

Lemma loadStaet_Ret (encoded : list (gmap string Value)) (infos : list NodeDeploymentsInfo) :
  loadStaet encoded = Ret infos ↔ Forall2 (λ info ndi, Dictify ndi ⊆ info) encoded infos.
Proof.
  revert infos. induction encoded as [|info encoded IH]; intros infos; simpl.
  - split.
    + intros [= <-]. constructor.
    + intros H. by inversion H.
  - split.
    + intros H. destruct (loadOne info) as [one| |] eqn:E1; simpl in H; try done.
      destruct (loadStaet encoded) as [rest| |] eqn:E2; simpl in H; try done.
      injection H as <-. constructor; [by apply loadOne_Ret|by apply IH].
    + intros H. inversion H as [|? one ? rest H1 H2]; subst.
      rewrite (proj2 (loadOne_Ret _ _) H1). simpl.
      rewrite (proj2 (IH rest) H2). reflexivity.
Qed.

(** X16: what is stored is what is loaded.  [loadStaet] applied to the list
    that [StoreState] sets returns the very records stored, in order. *)
Theorem loadStaet_StoreState (stateInfo : list NodeDeploymentsInfo) :
  loadStaet (StoreState stateInfo) = Ret stateInfo.
Proof.
  apply loadStaet_Ret. unfold StoreState.
  induction stateInfo as [|ndi l IH]; simpl; constructor; [done|exact IH].
Qed.

(** X17: when [loadStaet] returns.  It returns a list of records exactly
    when every stored map holds, under each of the seven keys, the value of
    the corresponding record field with its type (keys beyond the seven are
    not looked at); in every other case it panics, it never returns an
    error. *)
Theorem loadStaet_returns_iff (encoded : list (gmap string Value)) :
  (∀ infos, loadStaet encoded = Ret infos
            ↔ Forall2 (λ info ndi, Dictify ndi ⊆ info) encoded infos)
  ∧ (∀ e, loadStaet encoded ≠ Err e)
  ∧ (∀ pre info post key,
       encoded = pre ++ info :: post →
       key ∈ ["version"; "deployment_id"; "node_id"; "wg_private_key"; "wg_public_key";
              "wg_port"; "ip_range"] →
       info !! key = None →
       ∃ msg, loadStaet encoded = Panic msg).
Proof.
  assert (Hne : ∀ enc e, loadStaet enc ≠ Err e).
  { intros enc e. induction enc as [|info enc IH]; simpl; [done|].
    destruct (loadOne info) as [one| |] eqn:E1; simpl; try done.
    - destruct (loadStaet enc) as [rest| |] eqn:E2; simpl; try done.
    - by apply loadOne_not_Err in E1. }
  split_and!.
  - intros infos. apply loadStaet_Ret.
  - apply Hne.
  - intros pre info post key -> Hkey Hnone.
    destruct (loadStaet (pre ++ info :: post)) as [infos|e|msg] eqn:E.
    + exfalso. apply loadStaet_Ret in E.
      apply Forall2_app_inv_l in E as (i1 & i2 & _ & H2 & _).
      inversion H2 as [|? ndi ? ? Hsub _]; subst.
      assert (Hk : ∀ k v, Dictify ndi !! k = Some v → info !! k = Some v).
      { by apply map_subseteq_spec. }
      assert (is_Some (Dictify ndi !! key)) as [v Hv].
      { unfold Dictify. set_unfold in Hkey.
        destruct Hkey as [-> | [-> | [-> | [-> | [-> | [-> | [-> | []]]]]]]];
          by eexists. }
      apply Hk in Hv. congruence.
    + by apply Hne in E.
    + by eexists.
Qed.

Lemma loadStaet_returns_iff_witness :
  ∃ msg, loadStaet [delete "wg_port" (Dictify (mkNodeDeploymentsInfo 0 11 3 "sk" "pk" 3001 "10.1.3.0/24"))]
         = Panic msg.
Proof.
  apply (proj2 (proj2 (loadStaet_returns_iff _)) [] _ [] "wg_port" eq_refl).
  - set_solver.
  - apply lookup_delete_eq.
Defined.

End State.

(** ** What the topology generator builds for a node *)

Section MeshMore.

Import Network.

Context `{WG : WireGuard} `{GT : GridTypes}.

Lemma wgIP_ipNet (a b c d m : Z) :
  wgIP (ipNet a b c d m) = Ret {| IP := IPv4 100 64 b c; Mask := CIDRMask32 32 |}.
Proof. reflexivity. Qed.

Lemma wgIP_not_Err (ip : IPNet) (e : string) : wgIP ip ≠ Err e.
Proof.
  assert (Hindex : ∀ (s : list Z) i e', index s i ≠ Err e').
  { intros s i e'. unfold index. destruct (_ && _); [|done]. by destruct (s !! _). }
  unfold wgIP.
  destruct (index (IP ip) (len (IP ip) - 3)) as [a| |] eqn:Ea; simpl;
    [| by apply Hindex in Ea | done].
  destruct (index (IP ip) (len (IP ip) - 2)) as [b| |] eqn:Eb; simpl;
    [done | by apply Hindex in Eb | done].
Qed.

Lemma neighPeer_not_Err (nc : NetworkConfiguration) (neigh : Z) (e : string) :
  neighPeer nc neigh ≠ Err e.
Proof.
  unfold neighPeer.
  destruct (wgIP (ipOf nc neigh)) as [w| |] eqn:E; simpl; [| by apply wgIP_not_Err in E | done].
  destruct (neigh =? PublicNodeID nc); simpl; [|done].
  destruct (wgIP (ExternalNodeIP nc)) as [we| |] eqn:E'; simpl;
    [done | by apply wgIP_not_Err in E' | done].
Qed.

Lemma accessPeer_not_Err (nc : NetworkConfiguration) (e : string) : accessPeer nc ≠ Err e.
Proof.
  unfold accessPeer.
  destruct (wgIP (ExternalNodeIP nc)) as [we| |] eqn:E'; simpl;
    [done | by apply wgIP_not_Err in E' | done].
Qed.

Lemma peersLoop_not_Err (nc : NetworkConfiguration) (node : Z) (neighs : list Z) :
  ∀ peers e, peersLoop nc node neighs peers ≠ Err e.
Proof.
  induction neighs as [|neigh neighs IH]; intros peers e; simpl; [done|].
  destruct (node =? neigh); [apply IH|].
  destruct (neighPeer nc neigh) as [p| |] eqn:E; simpl;
    [apply IH | by apply neighPeer_not_Err in E | done].
Qed.

Lemma validAndSigned_not_Err (userInfo : UserIdentityInfo) (d : DeploymentT) (e : string) :
  validAndSigned userInfo d ≠ Err e.
Proof.
  unfold validAndSigned. destruct (Valid d); [done|].
  by destruct (Sign _ _ _).
Qed.

(** The peers the inner loop appends. *)
Lemma peersLoop_built (nc : NetworkConfiguration) (node : Z) (neighs : list Z) :
  ∀ (peers peers' : list Peer),
    peersLoop nc node neighs peers = Ret peers' →
    ∃ ps, peers' = peers ++ ps
          ∧ Forall2 (λ o p, peerOf nc o = Ret p) (Some <$> filter (λ n, n ≠ node) neighs) ps.
Proof.
  induction neighs as [|neigh neighs IH]; intros peers peers'; simpl.
  - intros [= <-]. exists []. rewrite app_nil_r. split; [done|constructor].
  - destruct (Z.eqb_spec node neigh) as [->|Hne].
    + intros Hrun. apply IH in Hrun as (ps & -> & Hps). exists ps. split; [done|].
      rewrite filter_cons_False by (intros Hn; by apply Hn). done.
    + destruct (neighPeer nc neigh) as [p| |] eqn:Hp; simpl; try discriminate.
      intros Hrun. apply IH in Hrun as (ps & -> & Hps). exists (p :: ps).
      split; [by rewrite <- app_assoc|].
      rewrite filter_cons_True by congruence. simpl.
      constructor; [exact Hp | done].
Qed.

(** What one step of the outer loop has built when it returns. *)
Lemma nodeStep_built (nc : NetworkConfiguration) (userInfo : UserIdentityInfo)
    (node : Z) (wgConfig wgConfig' : string) (d : DeploymentT) :
  nodeStep nc userInfo node wgConfig = Ret (wgConfig', d) →
  ∃ ip port peers sg,
    IPs nc !! node = Some ip ∧ WGPort nc !! node = Some port
    ∧ Forall2 (λ o p, peerOf nc o = Ret p) (peerOwners nc node) peers
    ∧ Valid (nodeDeployment userInfo (networkWorkload nc node ip port peers)) = None
    ∧ Signature (TwinID userInfo) (UserSK userInfo)
        (nodeDeployment userInfo (networkWorkload nc node ip port peers)) = Ret sg
    ∧ d = {| dl_Version := 0; dl_TwinID := TwinID userInfo; dl_ContractID := 0;
             dl_Workloads := [networkWorkload nc node ip port peers];
             dl_SignatureRequirement :=
               {| WeightRequired := 1;
                  Requests := [ {| sr_TwinID := TwinID userInfo; sr_Weight := 1 |} ];
                  Signatures := [(TwinID userInfo, sg)] |} |}.
Proof.
  unfold nodeStep.
  destruct (peersLoop nc node (NodeIDs nc) []) as [peers| |] eqn:Hpeers; simpl; try discriminate.
  apply peersLoop_built in Hpeers as (ps & -> & Hps). simpl.
  assert (Hrest : ∀ cfg (peers : list Peer),
    Forall2 (λ o p, peerOf nc o = Ret p) (peerOwners nc node) peers →
    match IPs nc !! node with
    | Some node_ip_range =>
        match WGPort nc !! node with
        | Some node_port =>
            deployment ← validAndSigned userInfo
              (nodeDeployment userInfo (networkWorkload nc node node_ip_range node_port peers));
            Ret (cfg, deployment)
        | None => Panic "free port of node not found"
        end
    | None => Panic "why node ip range not found"
    end = Ret (wgConfig', d) →
    ∃ ip port peers sg,
      IPs nc !! node = Some ip ∧ WGPort nc !! node = Some port
      ∧ Forall2 (λ o p, peerOf nc o = Ret p) (peerOwners nc node) peers
      ∧ Valid (nodeDeployment userInfo (networkWorkload nc node ip port peers)) = None
      ∧ Signature (TwinID userInfo) (UserSK userInfo)
          (nodeDeployment userInfo (networkWorkload nc node ip port peers)) = Ret sg
      ∧ d = {| dl_Version := 0; dl_TwinID := TwinID userInfo; dl_ContractID := 0;
               dl_Workloads := [networkWorkload nc node ip port peers];
               dl_SignatureRequirement :=
                 {| WeightRequired := 1;
                    Requests := [ {| sr_TwinID := TwinID userInfo; sr_Weight := 1 |} ];
                    Signatures := [(TwinID userInfo, sg)] |} |}).
  { intros cfg peers Hentries.
    destruct (IPs nc !! node) as [ip|]; [|discriminate].
    destruct (WGPort nc !! node) as [port|]; [|discriminate].
    unfold validAndSigned, Sign.
    destruct (Valid _) eqn:Hvalid; simpl; [discriminate|].
    destruct (Signature _ _ _) as [sg| |] eqn:Hsg; simpl; try discriminate.
    intros [= <- <-]. exists ip, port, peers, sg. by split_and!. }
  destruct (decide (node = PublicNodeID nc)) as [Heq|Hne].
  - rewrite (proj2 (Z.eqb_eq _ _) Heq).
    destruct (accessPeer nc) as [p| |] eqn:Hp; simpl; try discriminate.
    apply Hrest. unfold peerOwners. destruct (decide (node = PublicNodeID nc)); [|done].
    apply Forall2_app; [done|]. constructor; [exact Hp|constructor].
  - rewrite (proj2 (Z.eqb_neq _ _) Hne). simpl.
    apply Hrest. unfold peerOwners. destruct (decide (node = PublicNodeID nc)); [done|].
    by rewrite app_nil_r.
Qed.

Lemma nodeStep_not_Err (nc : NetworkConfiguration) (userInfo : UserIdentityInfo)
    (node : Z) (wgConfig e : string) :
  nodeStep nc userInfo node wgConfig ≠ Err e.
Proof.
  unfold nodeStep.
  destruct (peersLoop nc node (NodeIDs nc) []) as [peers| |] eqn:Hpeers; simpl;
    [| by apply peersLoop_not_Err in Hpeers | done].
  assert (Hrest : ∀ (cfg : string) (peers : list Peer),
    match IPs nc !! node with
    | Some node_ip_range =>
        match WGPort nc !! node with
        | Some node_port =>
            deployment ← validAndSigned userInfo
              (nodeDeployment userInfo (networkWorkload nc node node_ip_range node_port peers));
            Ret (cfg, deployment)
        | None => Panic "free port of node not found"
        end
    | None => Panic "why node ip range not found"
    end ≠ (Err e : Outcome (string * DeploymentT))).
  { intros cfg ps.
    destruct (IPs nc !! node) as [ip|]; [|done].
    destruct (WGPort nc !! node) as [port|]; [|done].
    destruct (validAndSigned _ _) as [d'| |] eqn:Hsigned; simpl;
      [done | by apply validAndSigned_not_Err in Hsigned | done]. }
  destruct (node =? PublicNodeID nc); simpl; [|apply Hrest].
  destruct (accessPeer nc) as [p| |] eqn:Hp; simpl;
    [apply Hrest | by apply accessPeer_not_Err in Hp | done].
Qed.

Lemma nodesLoop_built (nc : NetworkConfiguration) (userInfo : UserIdentityInfo)
    (P : Z → DeploymentT → Prop) :
  (∀ node cfg cfg' d, nodeStep nc userInfo node cfg = Ret (cfg', d) → P node d) →
  ∀ (nodes : list Z) (wgConfig : string) (deployments : list DeploymentT)
    (info : DeploymentInformation),
    nodesLoop nc userInfo nodes wgConfig deployments = Ret info →
    ∃ ds, Deployments info = deployments ++ ds ∧ Forall2 P nodes ds.
Proof.
  intros HP. induction nodes as [|node nodes IH]; intros wgConfig deployments info; simpl.
  - intros [= <-]. exists []. simpl. rewrite app_nil_r. split; [done|constructor].
  - destruct (nodeStep nc userInfo node wgConfig) as [[cfg d]| |] eqn:Hstep; simpl;
      try discriminate.
    intros Hrun. apply IH in Hrun as (ds & -> & Hds).
    exists (d :: ds). split; [by rewrite <- app_assoc|].
    constructor; [by eapply HP|done].
Qed.

Lemma nodesLoop_not_Err (nc : NetworkConfiguration) (userInfo : UserIdentityInfo)
    (nodes : list Z) :
  ∀ wgConfig deployments e, nodesLoop nc userInfo nodes wgConfig deployments ≠ Err e.
Proof.
  induction nodes as [|node nodes IH]; intros wgConfig deployments e; simpl; [done|].
  destruct (nodeStep nc userInfo node wgConfig) as [[cfg d]| |] eqn:Hstep; simpl;
    [apply IH | by apply nodeStep_not_Err in Hstep | done].
Qed.

(** X18: the deployment of each node.  A generation that returns has built,
    for every entry of the node list in order, a deployment of version 0 for
    the user's twin, with contract id 0 and one workload: the network
    [network1] of range 10.1.0.0/16 with the node's recorded subnet, the
    node's private key as text and its recorded port taken modulo 2^16.  The
    deployment was accepted by [Valid] and asks for weight 1 from the user's
    twin; its only signature is the one [Sign] computed for that twin over the
    deployment still unsigned. *)
Theorem generateDeployments_node_deployment (nc : NetworkConfiguration)
    (userInfo : UserIdentityInfo) (info : DeploymentInformation) :
  generateDeployments nc userInfo = Ret info →
  Forall2 (λ node d, ∃ ip port peers sg,
      IPs nc !! node = Some ip ∧ WGPort nc !! node = Some port
      ∧ dl_Version d = 0 ∧ dl_TwinID d = TwinID userInfo ∧ dl_ContractID d = 0
      ∧ dl_Workloads d
        = [ {| wl_Version := 0; wl_Name := "network1"; wl_Type := NetworkType;
               wl_Description := "test network";
               wl_Data := Network (ipNet 10 1 0 0 16) ip (KeyString (keyOf nc node))
                            (port mod 2 ^ 16) peers;
               wl_Result := noResult |} ]
      ∧ dl_SignatureRequirement d
        = {| WeightRequired := 1;
             Requests := [ {| sr_TwinID := TwinID userInfo; sr_Weight := 1 |} ];
             Signatures := [(TwinID userInfo, sg)] |}
      ∧ let unsigned :=
          {| dl_Version := dl_Version d; dl_TwinID := dl_TwinID d;
             dl_ContractID := dl_ContractID d; dl_Workloads := dl_Workloads d;
             dl_SignatureRequirement :=
               {| WeightRequired := 1;
                  Requests := [ {| sr_TwinID := TwinID userInfo; sr_Weight := 1 |} ];
                  Signatures := [] |} |} in
        Valid unsigned = None
        ∧ Signature (TwinID userInfo) (UserSK userInfo) unsigned = Ret sg)
    (NodeIDs nc) (Deployments info).
Proof.
  unfold generateDeployments. intros Hrun.
  eapply nodesLoop_built in Hrun as (ds & Heq & Hds).
  - simpl in Heq. rewrite Heq. exact Hds.
  - intros node cfg cfg' d Hstep. simpl.
    apply nodeStep_built in Hstep as (ip & port & peers & sg & Hip & Hport & _ & Hv & Hsg & ->).
    exists ip, port, peers, sg. simpl. by split_and!.
Qed.

(** X19: the allowed addresses of the peers.  In a generation that returns,
    the entry that stands for a neighbour [B] allows [B]'s subnet and [B]'s
    WireGuard address, and for the public node also the external access
    subnet and its WireGuard address; the entry of the external access point
    allows the external subnet and its WireGuard address.  The WireGuard
    address of a subnet [a.b.c.d/m] is [100.64.b.c/32]. *)
Theorem generateDeployments_allowed_ips (nc : NetworkConfiguration)
    (userInfo : UserIdentityInfo) (info : DeploymentInformation) :
  generateDeployments nc userInfo = Ret info →
  Forall2 (λ node d, ∃ peers,
      networkPeers d = Some peers
      ∧ Forall2 (λ o p,
          match o with
          | Some B =>
              ∃ w, wgIP (ipOf nc B) = Ret w
                ∧ ((B ≠ PublicNodeID nc ∧ AllowedIPs p = [ipOf nc B; w])
                   ∨ (B = PublicNodeID nc
                      ∧ ∃ we, wgIP (ExternalNodeIP nc) = Ret we
                          ∧ AllowedIPs p = [ipOf nc B; w; ExternalNodeIP nc; we]))
          | None =>
              ∃ we, wgIP (ExternalNodeIP nc) = Ret we
                ∧ AllowedIPs p = [ExternalNodeIP nc; we]
          end) (peerOwners nc node) peers)
    (NodeIDs nc) (Deployments info)
  ∧ ∀ a b c d m,
      wgIP (ipNet a b c d m) = Ret {| IP := IPv4 100 64 b c; Mask := CIDRMask32 32 |}.
Proof.
  unfold generateDeployments. intros Hrun. split; [|apply wgIP_ipNet].
  eapply nodesLoop_built in Hrun as (ds & Heq & Hds).
  - simpl in Heq. rewrite Heq. exact Hds.
  - intros node cfg cfg' d Hstep. simpl.
    apply nodeStep_built in Hstep as (ip & port & peers & sg & _ & _ & Hpeers & _ & _ & ->).
    exists peers. split; [done|].
    eapply Forall2_impl; [exact Hpeers|].
    intros [B|] p; simpl.
    + unfold neighPeer.
      destruct (wgIP (ipOf nc B)) as [w| |]; simpl; try discriminate.
      destruct (Z.eqb_spec B (PublicNodeID nc)) as [HB|HB]; simpl.
      * destruct (wgIP (ExternalNodeIP nc)) as [we| |]; simpl; try discriminate.
        intros [= <-]. exists w. split; [done|]. right. split; [done|]. by exists we.
      * intros [= <-]. exists w. split; [done|]. by left.
    + unfold accessPeer.
      destruct (wgIP (ExternalNodeIP nc)) as [we| |]; simpl; try discriminate.
      intros [= <-]. by exists we.
Qed.

(** X20: a node without subnet or port.  [generateDeployments] never returns
    an error; and when some entry of the node list has no recorded subnet or
    no recorded port, it does not return a result either: it panics. *)
Theorem generateDeployments_missing_entry_panics (nc : NetworkConfiguration)
    (userInfo : UserIdentityInfo) :
  (∀ e, generateDeployments nc userInfo ≠ Err e)
  ∧ (∀ n, n ∈ NodeIDs nc → IPs nc !! n = None ∨ WGPort nc !! n = None →
          ∃ msg, generateDeployments nc userInfo = Panic msg).
Proof.
  split.
  - intros e. apply nodesLoop_not_Err.
  - intros n Hn Hmiss.
    destruct (generateDeployments nc userInfo) as [info|e|msg] eqn:Hrun.
    + exfalso. unfold generateDeployments in Hrun.
      eapply (nodesLoop_built nc userInfo
                (λ node _, is_Some (IPs nc !! node) ∧ is_Some (WGPort nc !! node)))
        in Hrun as (ds & _ & Hds).
      * apply list_elem_of_lookup_1 in Hn as [i Hi].
        destruct (Forall2_lookup_l _ _ _ _ _ Hds Hi) as (d & _ & [[ip Hip] [port Hport]]).
        destruct Hmiss; congruence.
      * intros node cfg cfg' d Hstep.
        apply nodeStep_built in Hstep as (ip & port & _ & _ & Hip & Hport & _).
        rewrite Hip, Hport. eauto.
    + exfalso. by apply (nodesLoop_not_Err nc userInfo (NodeIDs nc) "" [] e).
    + by exists msg.
Qed.

End MeshMore.

Section MeshMoreOnSamples.

Import Network.

Lemma generateDeployments_node_deployment_witness :
  ∃ info, @generateDeployments sampleWireGuard sampleGridTypes twoNodes sampleUser = Ret info
    ∧ length (Deployments info) = 2%nat.
Proof.
  destruct (@generateDeployments sampleWireGuard sampleGridTypes twoNodes sampleUser)
    as [info| |] eqn:Hrun; [|vm_compute in Hrun; discriminate..].
  exists info. split; [done|].
  pose proof (@generateDeployments_node_deployment sampleWireGuard sampleGridTypes
                twoNodes sampleUser info Hrun) as H.
  apply Forall2_length in H. rewrite <- H. reflexivity.
Defined.

Lemma generateDeployments_allowed_ips_witness :
  ∃ info, @generateDeployments sampleWireGuard sampleGridTypes twoNodes sampleUser = Ret info
    ∧ length (Deployments info) = 2%nat.
Proof.
  destruct (@generateDeployments sampleWireGuard sampleGridTypes twoNodes sampleUser)
    as [info| |] eqn:Hrun; [|vm_compute in Hrun; discriminate..].
  exists info. split; [done|].
  pose proof (proj1 (@generateDeployments_allowed_ips sampleWireGuard sampleGridTypes
                       twoNodes sampleUser info Hrun)) as H.
  apply Forall2_length in H. rewrite <- H. reflexivity.
Defined.

Lemma generateDeployments_missing_entry_panics_witness :
  ∃ msg, @generateDeployments sampleWireGuard sampleGridTypes
           (withIPs twoNodes (delete 2 (IPs twoNodes))) sampleUser = Panic msg.
Proof.
  apply (proj2 (@generateDeployments_missing_entry_panics sampleWireGuard sampleGridTypes
                  (withIPs twoNodes (delete 2 (IPs twoNodes))) sampleUser) 2).
  - vm_compute. set_solver.
  - left. apply lookup_delete_eq.
Defined.

End MeshMoreOnSamples.

(** ** The configuration of a new network *)

Section CreateConfig.

Import Network.

Context `{WG : WireGuard} `{GT : GridTypes} `{CD : Codec}.

Lemma ipNet_third_inj (a b c c' d m : Z) : ipNet a b c d m = ipNet a b c' d m → c = c'.
Proof. unfold ipNet, IPv4. intros H. by simplify_eq. Qed.

(** Outside the nodes it visits, the loop leaves the maps as they were; it
    appends one state entry per node. *)
Lemma createLoop_frame (w : NetWorld) (nodes : list Z) :
  ∀ idx pk fp ip st pk' fp' ip' st',
    createLoop w nodes idx pk fp ip st = Some (Ret (pk', fp', ip', st')) →
    (∀ n, n ∉ nodes → pk' !! n = pk !! n ∧ fp' !! n = fp !! n ∧ ip' !! n = ip !! n)
    ∧ ∃ new, st' = st ++ new ∧ length new = length nodes.
Proof.
  induction nodes as [|node nodes IH]; intros idx pk fp ip st pk' fp' ip' st'; simpl.
  - intros [= <- <- <- <-]. split; [done|]. exists []. by rewrite app_nil_r.
  - destruct (nw_GeneratePrivateKey w (S idx)) as [key| |]; simpl; try discriminate.
    destruct (getNodeFreeWGPort _ _) as [[port| |]|]; try discriminate.
    intros Hrun. apply IH in Hrun as [Hframe (new & -> & Hlen)]. split.
    + intros n Hn. apply not_elem_of_cons in Hn as [Hne Hn].
      destruct (Hframe n Hn) as (-> & -> & ->).
      by rewrite !lookup_insert_ne.
    + eexists (_ :: new). split; [by rewrite <- app_assoc|]. simpl. by rewrite Hlen.
Qed.

(** What the loop records for each node of a list without repetition. *)
Lemma createLoop_entries (w : NetWorld) (nodes : list Z) :
  NoDup nodes →
  ∀ idx pk fp ip st pk' fp' ip' st',
    createLoop w nodes idx pk fp ip st = Some (Ret (pk', fp', ip', st')) →
    ∀ (i : nat) n, nodes !! i = Some n →
      ∃ k p,
        nw_GeneratePrivateKey w (S (idx + i)) = Ret k
        ∧ getNodeFreeWGPort (nw_port w (idx + i)%nat) (to_uint32 n) = Some (Ret p)
        ∧ pk' !! n = Some k ∧ fp' !! n = Some p
        ∧ ip' !! n = Some (ipNet 10 1 (to_uint8 (Z.of_nat (idx + i) + 3)) 0 24)
        ∧ st' !! (length st + i)%nat
          = Some {| ndi_Version := 0; ndi_DeploymentID := 0; ndi_NodeID := n;
                    ndi_WGPrivateKey := KeyString k;
                    ndi_WGPublicKey := KeyString (PublicKey k);
                    ndi_WGPort := p;
                    ndi_IPRange :=
                      IPNetString (ipNet 10 1 (to_uint8 (Z.of_nat (idx + i) + 3)) 0 24) |}.
Proof.
  induction 1 as [|node nodes Hnotin Hnd IH]; intros idx pk fp ip st pk' fp' ip' st'; simpl.
  - intros _ i n Hi. by rewrite lookup_nil in Hi.
  - destruct (nw_GeneratePrivateKey w (S idx)) as [key| |] eqn:Hkey; simpl; try discriminate.
    destruct (getNodeFreeWGPort _ _) as [[port| |]|] eqn:Hport; try discriminate.
    intros Hrun [|i] n Hi; simpl in Hi.
    + injection Hi as <-.
      destruct (createLoop_frame _ _ _ _ _ _ _ _ _ _ _ Hrun) as [Hframe (new & -> & _)].
      destruct (Hframe node Hnotin) as (-> & -> & ->).
      rewrite !lookup_insert_eq. simpl. rewrite !Nat.add_0_r.
      exists key, port. split_and!; try done.
      rewrite <- app_assoc. rewrite lookup_app_r by lia.
      by rewrite Nat.sub_diag.
    + destruct (IH _ _ _ _ _ _ _ _ _ Hrun i n Hi) as (k & p & Hk & Hp & ? & ? & Hip & Hst).
      exists k, p.
      replace (idx + S i)%nat with (S idx + i)%nat by lia.
      split_and!; try done.
      rewrite length_app in Hst. simpl in Hst.
      by replace (length st + S i)%nat with (length st + 1 + i)%nat by lia.
Qed.

(** When the loop returns. *)
Lemma createLoop_returns (w : NetWorld) (nodes : list Z) :
  ∀ idx pk fp ip st,
    (∀ (i : nat) n, nodes !! i = Some n →
       (∃ k, nw_GeneratePrivateKey w (S (idx + i)) = Ret k)
       ∧ ∃ p, getNodeFreeWGPort (nw_port w (idx + i)%nat) (to_uint32 n) = Some (Ret p)) →
    ∃ r, createLoop w nodes idx pk fp ip st = Some (Ret r).
Proof.
  induction nodes as [|node nodes IH]; intros idx pk fp ip st Hall; simpl; [by eexists|].
  destruct (Hall 0%nat node eq_refl) as [[k Hk] [p Hp]].
  rewrite Nat.add_0_r in Hk, Hp. rewrite Hk, Hp. simpl.
  apply IH. intros i n Hi.
  replace (S idx + i)%nat with (idx + S i)%nat by lia. by apply Hall.
Qed.

Lemma createConfig_parts (w : NetWorld) (node_ids : list Z)
    (nc : NetworkConfiguration) (stateInfo : list NodeDeploymentsInfo) :
  createConfig w node_ids = Some (Ret (nc, stateInfo)) →
  ∃ ek, nw_GeneratePrivateKey w 0 = Ret ek
    ∧ createLoop w node_ids 0 ∅ ∅ ∅ [] = Some (Ret (Keys nc, WGPort nc, IPs nc, stateInfo))
    ∧ NodeIDs nc = node_ids ∧ PublicNodeID nc = 1
    ∧ ExternalNodeIP nc = ipNet 10 1 2 0 24 ∧ ExternalNodeKey nc = ek
    ∧ Versions nc = ∅ ∧ DeplotmentIDs nc = ∅.
Proof.
  unfold createConfig.
  destruct (nw_GeneratePrivateKey w 0) as [ek| |]; simpl; try discriminate.
  destruct (createLoop w node_ids 0 ∅ ∅ ∅ []) as [[[[[pk fp] ip] st]| |]|]; try discriminate.
  intros [= <- <-]. exists ek. by split_and!.
Qed.

(** The configuration a create builds, entry by entry. *)
Lemma createConfig_built (w : NetWorld) (node_ids : list Z)
    (nc : NetworkConfiguration) (stateInfo : list NodeDeploymentsInfo) :
  NoDup node_ids →
  createConfig w node_ids = Some (Ret (nc, stateInfo)) →
  NodeIDs nc = node_ids ∧ PublicNodeID nc = 1 ∧ ExternalNodeIP nc = ipNet 10 1 2 0 24
  ∧ length stateInfo = length node_ids
  ∧ (∀ (i : nat) n, node_ids !! i = Some n →
       ∃ k p,
         nw_GeneratePrivateKey w (S i) = Ret k
         ∧ getNodeFreeWGPort (nw_port w i) (n mod 2 ^ 32) = Some (Ret p)
         ∧ IPs nc !! n = Some (ipNet 10 1 ((Z.of_nat i + 3) mod 256) 0 24)
         ∧ Keys nc !! n = Some k ∧ WGPort nc !! n = Some p
         ∧ stateInfo !! i
           = Some {| ndi_Version := 0; ndi_DeploymentID := 0; ndi_NodeID := n;
                     ndi_WGPrivateKey := KeyString k;
                     ndi_WGPublicKey := KeyString (PublicKey k);
                     ndi_WGPort := p;
                     ndi_IPRange :=
                       IPNetString (ipNet 10 1 ((Z.of_nat i + 3) mod 256) 0 24) |})
  ∧ ((length node_ids ≤ 253)%nat →
       (∀ n m, n ∈ node_ids → m ∈ node_ids → ipOf nc n = ipOf nc m → n = m)
       ∧ (∀ n, n ∈ node_ids → ipOf nc n ≠ ExternalNodeIP nc)).
Proof.
  intros Hnd Hrun.
  apply createConfig_parts in Hrun as (ek & Hek & Hloop & Hnodes & Hpub & Hext & _).
  pose proof (createLoop_entries w node_ids Hnd _ _ _ _ _ _ _ _ _ Hloop) as Hentries.
  destruct (createLoop_frame _ _ _ _ _ _ _ _ _ _ _ Hloop) as [_ (new & Hst & Hlen)].
  simpl in Hst. subst new.
  split_and!; try done.
  - intros i n Hi. destruct (Hentries i n Hi) as (k & p & Hk & Hp & ? & ? & Hip & Hsti).
    exists k, p. by split_and!.
  - intros Hmax.
    assert (Hsub : ∀ n, n ∈ node_ids →
      ∃ i : nat, (i < 253)%nat ∧ node_ids !! i = Some n
                 ∧ ipOf nc n = ipNet 10 1 (Z.of_nat i + 3) 0 24).
    { intros n Hn. apply list_elem_of_lookup_1 in Hn as [i Hi].
      pose proof (lookup_lt_Some _ _ _ Hi) as Hlt.
      destruct (Hentries i n Hi) as (k & p & _ & _ & _ & _ & Hip & _).
      exists i. split_and!; [lia|done|].
      unfold ipOf. rewrite Hip. simpl. unfold to_uint8.
      by rewrite Z.mod_small by lia. }
    split.
    + intros n m Hn Hm Heq.
      destruct (Hsub n Hn) as (i & Hi & Hin & Hipn).
      destruct (Hsub m Hm) as (j & Hj & Hjm & Hipm).
      rewrite Hipn, Hipm in Heq. apply ipNet_third_inj in Heq.
      assert (i = j) as -> by lia. congruence.
    + intros n Hn. destruct (Hsub n Hn) as (i & Hi & Hin & Hipn).
      rewrite Hipn, Hext. intros Heq. apply ipNet_third_inj in Heq. lia.
Qed.

(** X21: the configuration a create builds.  For a node list without
    repetition, the node at position [i] gets the subnet
    [10.1.((i+3) mod 256).0/24], the key of the key generator's call [i+1]
    and the port [getNodeFreeWGPort] returned for it, and the state entry at
    position [i] records them with version 0; the public node is 1 and the
    external access subnet [10.1.2.0/24].  With at most 253 nodes the subnets
    are pairwise different and none is the external one. *)
Theorem createConfig_subnets (w : NetWorld) (node_ids : list Z)
    (nc : NetworkConfiguration) (stateInfo : list NodeDeploymentsInfo) :
  NoDup node_ids →
  createConfig w node_ids = Some (Ret (nc, stateInfo)) →
  NodeIDs nc = node_ids ∧ PublicNodeID nc = 1 ∧ ExternalNodeIP nc = ipNet 10 1 2 0 24
  ∧ length stateInfo = length node_ids
  ∧ (∀ (i : nat) n, node_ids !! i = Some n →
       ∃ k p,
         nw_GeneratePrivateKey w (S i) = Ret k
         ∧ getNodeFreeWGPort (nw_port w i) (n mod 2 ^ 32) = Some (Ret p)
         ∧ IPs nc !! n = Some (ipNet 10 1 ((Z.of_nat i + 3) mod 256) 0 24)
         ∧ Keys nc !! n = Some k ∧ WGPort nc !! n = Some p
         ∧ stateInfo !! i
           = Some {| ndi_Version := 0; ndi_DeploymentID := 0; ndi_NodeID := n;
                     ndi_WGPrivateKey := KeyString k;
                     ndi_WGPublicKey := KeyString (PublicKey k);
                     ndi_WGPort := p;
                     ndi_IPRange :=
                       IPNetString (ipNet 10 1 ((Z.of_nat i + 3) mod 256) 0 24) |})
  ∧ ((length node_ids ≤ 253)%nat →
       (∀ n m, n ∈ node_ids → m ∈ node_ids → ipOf nc n = ipOf nc m → n = m)
       ∧ (∀ n, n ∈ node_ids → ipOf nc n ≠ ExternalNodeIP nc)).
Proof. apply createConfig_built. Qed.

(** The generation returns on a configuration whose subnets have their
    address bytes, as soon as [Valid] and [Sign] accept the deployments it
    builds. *)
Lemma nodeStep_returns_built (nc : NetworkConfiguration) (userInfo : UserIdentityInfo)
    (node : Z) (wgConfig : string) :
  (∀ n, n ∈ NodeIDs nc → 3 ≤ len (IP (ipOf nc n))) →
  3 ≤ len (IP (ExternalNodeIP nc)) →
  is_Some (IPs nc !! node) → is_Some (WGPort nc !! node) →
  (∀ d, builtFor nc userInfo node d →
        Valid d = None ∧ ∃ sg, Signature (TwinID userInfo) (UserSK userInfo) d = Ret sg) →
  ∃ r, nodeStep nc userInfo node wgConfig = Ret r.
Proof.
  intros Hips Hext [ip Hip] [port Hport] Haccept. unfold nodeStep.
  destruct (peersLoop_returns nc node (NodeIDs nc) Hips Hext []) as [peers Hpeers].
  rewrite Hpeers. simpl.
  apply peersLoop_built in Hpeers as (ps & -> & Hps). simpl.
  assert (Hrest : ∀ cfg (peers : list Peer),
    Forall2 (λ o p, peerOf nc o = Ret p) (peerOwners nc node) peers →
    ∃ r, match IPs nc !! node with
         | Some node_ip_range =>
             match WGPort nc !! node with
             | Some node_port =>
                 deployment ← validAndSigned userInfo
                   (nodeDeployment userInfo
                      (networkWorkload nc node node_ip_range node_port peers));
                 Ret (cfg, deployment)
             | None => Panic "free port of node not found"
             end
         | None => Panic "why node ip range not found"
         end = Ret (r : string * DeploymentT)).
  { intros cfg peers Hbuilt. rewrite Hip, Hport.
    destruct (Haccept (nodeDeployment userInfo (networkWorkload nc node ip port peers)))
      as [Hvalid [sg Hsg]].
    { by exists ip, port, peers. }
    unfold validAndSigned, Sign. rewrite Hvalid, Hsg. simpl. by eexists. }
  destruct (decide (node = PublicNodeID nc)) as [Heq|Hne].
  - rewrite (proj2 (Z.eqb_eq _ _) Heq).
    unfold accessPeer at 1. destruct (wgIP_returns _ Hext) as [we Hwe]. rewrite Hwe. simpl.
    apply Hrest. unfold peerOwners. destruct (decide (node = PublicNodeID nc)); [|done].
    apply Forall2_app; [done|]. constructor; [|constructor].
    simpl. unfold accessPeer. by rewrite Hwe.
  - rewrite (proj2 (Z.eqb_neq _ _) Hne). simpl.
    apply Hrest. unfold peerOwners. destruct (decide (node = PublicNodeID nc)); [done|].
    by rewrite app_nil_r.
Qed.

Lemma nodesLoop_returns_built (nc : NetworkConfiguration) (userInfo : UserIdentityInfo)
    (nodes : list Z) :
  (∀ n, n ∈ NodeIDs nc → 3 ≤ len (IP (ipOf nc n))) →
  3 ≤ len (IP (ExternalNodeIP nc)) →
  (∀ n, n ∈ nodes → is_Some (IPs nc !! n) ∧ is_Some (WGPort nc !! n)) →
  (∀ n d, n ∈ nodes → builtFor nc userInfo n d →
          Valid d = None ∧ ∃ sg, Signature (TwinID userInfo) (UserSK userInfo) d = Ret sg) →
  ∀ wgConfig deployments, ∃ info, nodesLoop nc userInfo nodes wgConfig deployments = Ret info.
Proof.
  intros Hips Hext. induction nodes as [|node nodes IH]; intros Hmaps Haccept cfg ds; simpl;
    [eauto|].
  destruct (Hmaps node) as [Hip Hport]; [by left|].
  destruct (nodeStep_returns_built nc userInfo node cfg Hips Hext Hip Hport)
    as [[cfg' d] ->].
  { intros d0. apply Haccept. by left. }
  simpl. apply IH.
  - intros n Hn. apply Hmaps. by right.
  - intros n d0 Hn. apply Haccept. by right.
Qed.

(** X22: a new network is a full mesh.  For a node list without repetition
    of at most 253 nodes, as soon as [Valid] and [Sign] accept the
    deployments that the generation builds for these nodes, the generation
    run on the configuration the create has built returns one deployment per
    node; the peer list of the node at position [i] holds, for the node at
    every other position [j], exactly one entry with the subnet
    [10.1.(j+3).0/24], and that entry carries the public key derived from
    the key generated for that node. *)
Theorem createConfig_full_mesh (w : NetWorld) (node_ids : list Z)
    (userInfo : UserIdentityInfo)
    (nc : NetworkConfiguration) (stateInfo : list NodeDeploymentsInfo) :
  NoDup node_ids → (length node_ids ≤ 253)%nat →
  createConfig w node_ids = Some (Ret (nc, stateInfo)) →
  (∀ node d, node ∈ node_ids → builtFor nc userInfo node d →
     Valid d = None ∧ ∃ sg, Signature (TwinID userInfo) (UserSK userInfo) d = Ret sg) →
  ∃ info, generateDeployments nc userInfo = Ret info
    ∧ length (Deployments info) = length node_ids
    ∧ ∀ (i : nat) A, node_ids !! i = Some A →
        ∃ dA peersA,
          Deployments info !! i = Some dA ∧ networkPeers dA = Some peersA
          ∧ ∀ (j : nat) B, node_ids !! j = Some B → j ≠ i →
              ∃ p k, filter (λ q, Subnet q = ipNet 10 1 (Z.of_nat j + 3) 0 24) peersA = [p]
                ∧ nw_GeneratePrivateKey w (S j) = Ret k
                ∧ WGPublicKey p = KeyString (PublicKey k).
Proof.
  intros Hnd Hmax Hcfg Haccept.
  destruct (createConfig_built w node_ids nc stateInfo Hnd Hcfg)
    as (Hnodes & Hpub & Hext & _ & Hentries & Hdistinct).
  pose proof (Hdistinct Hmax) as [Hinj Hnotext].
  assert (Hmaps : ∀ n, n ∈ node_ids →
            is_Some (IPs nc !! n) ∧ is_Some (WGPort nc !! n) ∧ 3 ≤ len (IP (ipOf nc n))).
  { intros n Hn. apply list_elem_of_lookup_1 in Hn as [i Hi].
    destruct (Hentries i n Hi) as (k & p & _ & _ & Hip & _ & Hp & _).
    split_and!; [by rewrite Hip|by rewrite Hp|].
    unfold ipOf. rewrite Hip. by vm_compute. }
  destruct (nodesLoop_returns_built nc userInfo (NodeIDs nc)) with (wgConfig := "")
    (deployments := @nil DeploymentT) as [info Hrun].
  { intros n Hn. rewrite Hnodes in Hn. by apply Hmaps. }
  { rewrite Hext. by vm_compute. }
  { intros n Hn. rewrite Hnodes in Hn. destruct (Hmaps n Hn) as (? & ? & _). by split. }
  { intros n d Hn. rewrite Hnodes in Hn. by apply Haccept. }
  change (generateDeployments nc userInfo = Ret info) in Hrun.
  exists info. split; [done|].
  apply generateDeployments_result in Hrun as [_ Hall]. rewrite Hnodes in Hall.
  split; [symmetry; by eapply Forall2_length|].
  intros i A Hi.
  destruct (Forall2_lookup_l _ _ _ i A Hall Hi) as (dA & HdA & peersA & Hpeers & Hpe).
  exists dA, peersA. split_and!; [done|done|].
  intros j B Hj Hji.
  assert (HB : B ∈ NodeIDs nc) by (rewrite Hnodes; by eapply list_elem_of_lookup_2).
  assert (HBA : B ≠ A).
  { intros ->. apply Hji. eapply NoDup_lookup; eauto. }
  destruct (Hentries j B Hj) as (k & p0 & Hk & _ & Hip & Hkey & _).
  pose proof (lookup_lt_Some _ _ _ Hj) as Hjlt.
  assert (HipB : ipOf nc B = ipNet 10 1 (Z.of_nat j + 3) 0 24).
  { unfold ipOf. rewrite Hip. simpl. by rewrite Z.mod_small by lia. }
  rewrite <- HipB.
  assert (Hlen : length (filter (λ q, Subnet q = ipOf nc B) peersA) = 1%nat).
  { rewrite <- (Forall2_filter_length (entryFor nc) (λ o, o = Some B)
                  (λ q, Subnet q = ipOf nc B) (peerOwners nc A) peersA Hpe).
    - apply NoDup_filter_eq_length; [apply peerOwners_NoDup; by rewrite Hnodes|].
      by apply peerOwners_other.
    - intros [n|] q Ho Hq; simpl in Hq; destruct Hq as (Hsub & _); rewrite Hsub.
      + split; [by intros [= ->]|]. intros Heq. f_equal.
        apply Hinj; [|by rewrite <- Hnodes|done].
        rewrite <- Hnodes. by eapply peerOwners_node.
      + split; [discriminate|]. intros Heq. exfalso.
        apply (Hnotext B); [by rewrite <- Hnodes|]. by rewrite Hext, <- Hext. }
  destruct (filter (λ q, Subnet q = ipOf nc B) peersA) as [|p [|? ?]] eqn:Hf;
    simpl in Hlen; try lia.
  exists p, k. split_and!; [done|done|].
  assert (Hp : p ∈ filter (λ q, Subnet q = ipOf nc B) peersA)
    by (rewrite Hf; by apply list_elem_of_singleton).
  apply (proj1 (list_elem_of_filter _ _ _)) in Hp as [Hsub Hp].
  apply list_elem_of_lookup_1 in Hp as [m Hm].
  destruct (Forall2_lookup_r _ _ _ m p Hpe Hm) as (o & Ho & Hop).
  destruct o as [n|]; simpl in Hop; destruct Hop as (Hs & Hpk & _).
  - assert (n = B) as ->.
    { apply Hinj; [|by rewrite <- Hnodes|congruence].
      rewrite <- Hnodes. eapply peerOwners_node. by eapply list_elem_of_lookup_2. }
    rewrite Hpk. unfold keyOf. by rewrite Hkey.
  - exfalso. apply (Hnotext B); [by rewrite <- Hnodes|]. congruence.
Qed.

(** X23: past 253 nodes the subnets repeat.  The third octet is a byte:
    in a node list without repetition, the node at position 253 gets
    [10.1.0.0/24], the node at position 255 gets the external access subnet
    [10.1.2.0/24] itself, and the node at position [i + 256] the subnet of
    the node at position [i]. *)
Theorem createConfig_subnets_wrap (w : NetWorld) (node_ids : list Z)
    (nc : NetworkConfiguration) (stateInfo : list NodeDeploymentsInfo) :
  NoDup node_ids →
  createConfig w node_ids = Some (Ret (nc, stateInfo)) →
  (∀ n, node_ids !! 253%nat = Some n → ipOf nc n = ipNet 10 1 0 0 24)
  ∧ (∀ n, node_ids !! 255%nat = Some n → ipOf nc n = ExternalNodeIP nc)
  ∧ (∀ (i : nat) n m, node_ids !! i = Some n → node_ids !! (i + 256)%nat = Some m →
       n ≠ m ∧ ipOf nc n = ipOf nc m).
Proof.
  intros Hnd Hrun.
  destruct (createConfig_built w node_ids nc stateInfo Hnd Hrun)
    as (Hnodes & Hpub & Hext & _ & Hentries & _).
  assert (Hsub : ∀ (i : nat) n, node_ids !! i = Some n →
            ipOf nc n = ipNet 10 1 ((Z.of_nat i + 3) mod 256) 0 24).
  { intros i n Hi. destruct (Hentries i n Hi) as (k & p & _ & _ & Hip & _).
    unfold ipOf. by rewrite Hip. }
  split_and!.
  - intros n Hn. by rewrite (Hsub _ _ Hn).
  - intros n Hn. by rewrite (Hsub _ _ Hn), Hext.
  - intros i n m Hi Him. split.
    + intros ->. assert (i = (i + 256)%nat) by (eapply NoDup_lookup; eauto). lia.
    + rewrite (Hsub _ _ Hi), (Hsub _ _ Him).
      replace (Z.of_nat (i + 256) + 3) with (Z.of_nat i + 3 + 1 * 256) by lia.
      by rewrite Z.mod_add.
Qed.

End CreateConfig.

Section CreateConfigOnSamples.

Import Network.

Lemma createConfig_subnets_witness :
  ∃ nc st, @createConfig sampleWireGuard sampleCodec sampleNetWorld [7; 4; 9] = Some (Ret (nc, st))
    ∧ IPs nc !! 9 = Some (ipNet 10 1 5 0 24)
    ∧ ∀ n, n ∈ [7; 4; 9] → ipOf nc n ≠ ExternalNodeIP nc.
Proof.
  destruct (@createConfig sampleWireGuard sampleCodec sampleNetWorld [7; 4; 9])
    as [[[nc st]| |]|] eqn:Hrun; [|vm_compute in Hrun; discriminate..].
  exists nc, st. split; [done|].
  assert (Hnd : NoDup [7; 4; 9]).
  { repeat (apply NoDup_cons_2; [rewrite ?elem_of_cons, elem_of_nil; lia|]).
    apply NoDup_nil_2. }
  destruct (@createConfig_subnets sampleWireGuard sampleCodec sampleNetWorld
              [7; 4; 9] nc st Hnd Hrun) as (_ & _ & _ & _ & Hentries & Hdistinct).
  split.
  - destruct (Hentries 2%nat 9 eq_refl) as (k & p & _ & _ & Hip & _). exact Hip.
  - apply Hdistinct. simpl. lia.
Defined.

Lemma createConfig_full_mesh_witness :
  ∃ nc st info,
    @createConfig sampleWireGuard sampleCodec sampleNetWorld [7; 4; 9] = Some (Ret (nc, st))
    ∧ @generateDeployments sampleWireGuard strictGridTypes nc sampleUser = Ret info
    ∧ length (Deployments info) = 3%nat.
Proof.
  destruct (@createConfig sampleWireGuard sampleCodec sampleNetWorld [7; 4; 9])
    as [[[nc st]| |]|] eqn:Hrun; [|vm_compute in Hrun; discriminate..].
  assert (Hnd : NoDup [7; 4; 9]).
  { repeat (apply NoDup_cons_2; [rewrite ?elem_of_cons, elem_of_nil; lia|]).
    apply NoDup_nil_2. }
  destruct (@createConfig_full_mesh sampleWireGuard strictGridTypes sampleCodec
              sampleNetWorld [7; 4; 9] sampleUser nc st Hnd) as (info & Hgen & Hlen & _).
  - simpl. lia.
  - exact Hrun.
  - intros node d _ (ip & port & peers & _ & _ & _ & ->). split; [reflexivity|].
    by exists "signed".
  - exists nc, st, info. by split_and!.
Defined.

Lemma createConfig_subnets_wrap_witness :
  ∃ nc st,
    @createConfig sampleWireGuard sampleCodec sampleNetWorld (seqZ 1 256) = Some (Ret (nc, st))
    ∧ ipOf nc 256 = ExternalNodeIP nc.
Proof.
  assert (Hret : match @createConfig sampleWireGuard sampleCodec sampleNetWorld (seqZ 1 256)
                 with Some (Ret _) => True | _ => False end) by (vm_compute; exact I).
  destruct (@createConfig sampleWireGuard sampleCodec sampleNetWorld (seqZ 1 256))
    as [[[nc st]| |]|] eqn:Hrun; try (exfalso; exact Hret).
  exists nc, st. split; [done|].
  apply (proj1 (proj2 (@createConfig_subnets_wrap sampleWireGuard sampleCodec sampleNetWorld
                         (seqZ 1 256) nc st (NoDup_seqZ 1 256) Hrun))).
  reflexivity.
Defined.

End CreateConfigOnSamples.

(** * Further properties: deleting *)

(** ** The resource id *)

Section ResourceId.

Context `{SC : Strconv}.

Lemma digit_val_pretty_N_char (d : N) :
  (d < 10)%N → digit_val (pretty_N_char d) = Some (Z.of_N d).
Proof.
  intros Hd.
  assert (d = 0 ∨ d = 1 ∨ d = 2 ∨ d = 3 ∨ d = 4 ∨ d = 5 ∨ d = 6 ∨ d = 7 ∨ d = 8 ∨ d = 9)%N
    as Hcases by lia.
  repeat (destruct Hcases as [-> | Hcases]; [reflexivity|]). by subst.
Qed.

(** Reading the digits [pretty_N_go] writes in front of [s]. *)
Lemma ParseUint_loop_pretty (x : N) :
  ∀ s, Z.of_N x < 2 ^ 64 →
       ParseUint_loop (pretty_N_go x s) 0 = ParseUint_loop s (Z.of_N x).
Proof.
  induction (N.lt_wf_0 x) as [x _ IH]; intros s Hx.
  assert (x = 0 ∨ 0 < x)%N as [-> | Hpos] by lia; [by rewrite pretty_N_go_0|].
  rewrite pretty_N_go_step by done.
  assert (Hdiv : (x `div` 10 < x)%N) by (by apply N.div_lt).
  assert (Hmod : (x `mod` 10 < 10)%N) by (by apply N.mod_lt).
  rewrite IH; [|done|lia].
  cbn [ParseUint_loop]. rewrite digit_val_pretty_N_char by done.
  rewrite N2Z.inj_div, N2Z.inj_mod. change (Z.of_N 10) with 10.
  pose proof (Z.div_mod (Z.of_N x) 10 ltac:(lia)) as Heq.
  pose proof (Z.mod_pos_bound (Z.of_N x) 10 ltac:(lia)) as Hm.
  assert (Hx0 : 0 ≤ Z.of_N x) by lia.
  unfold maxUint64, to_uint64.
  change (2 ^ 64) with 18446744073709551616 in *.
  change ((18446744073709551616 - 1) / 10 + 1) with 1844674407370955162.
  set (q := Z.of_N x / 10) in *. set (m := Z.of_N x mod 10) in *.
  assert (Hq : 0 ≤ q < 1844674407370955162) by lia.
  replace (1844674407370955162 <=? q) with false by (symmetry; apply Z.leb_gt; lia).
  rewrite (Z.mod_small (q * 10)) by lia.
  rewrite (Z.mod_small (q * 10 + m)) by lia.
  replace (q * 10 + m <? q * 10) with false by (symmetry; apply Z.ltb_ge; lia).
  replace (18446744073709551616 - 1 <? q * 10 + m) with false
    by (symmetry; apply Z.ltb_ge; lia).
  simpl. f_equal. lia.
Qed.

Lemma ParseUint_nonempty (s : string) :
  s ≠ "" →
  ParseUint s
  = match ParseUint_loop s 0 with
    | inr n => Ret n
    | inl ErrSyntax => Err ("strconv.ParseUint: parsing " +:+ Quote s +:+ ": invalid syntax")
    | inl ErrRange => Err ("strconv.ParseUint: parsing " +:+ Quote s +:+ ": value out of range")
    end.
Proof. by destruct s. Qed.

Lemma ParseUint_FormatUint (c : Z) : 0 ≤ c < 2 ^ 64 → ParseUint (FormatUint c) = Ret c.
Proof.
  intros Hc. unfold FormatUint, pretty, pretty_N.
  destruct (decide (Z.to_N c = 0%N)) as [H0|Hne].
  - assert (c = 0) as -> by lia. reflexivity.
  - assert (Hloop : ParseUint_loop (pretty_N_go (Z.to_N c) "") 0 = inr c).
    { rewrite ParseUint_loop_pretty by lia. simpl. f_equal. lia. }
    rewrite ParseUint_nonempty.
    + by rewrite Hloop.
    + intros Hempty. rewrite Hempty in Hloop. simpl in Hloop. injection Hloop. lia.
Qed.

Lemma ParseUint_loop_bound (s : string) :
  ∀ n v, 0 ≤ n ≤ maxUint64 → ParseUint_loop s n = inr v → 0 ≤ v ≤ maxUint64.
Proof.
  induction s as [|ch s IH]; intros n v Hn; simpl.
  - by intros [= <-].
  - destruct (digit_val ch) as [d|]; [|discriminate].
    destruct (_ <=? n); [discriminate|].
    destruct (_ || _) eqn:Hor; [discriminate|].
    apply orb_false_iff in Hor as [_ Hmax]. apply Z.ltb_ge in Hmax.
    apply IH. split; [|done]. unfold to_uint64. apply Z.mod_pos_bound. lia.
Qed.

End ResourceId.

(** ** Deleting a deployment *)

Section DeleteDeployment.

Context `{ID : Identity} `{SC : Strconv}.

Local Ltac eff_unfold :=
  unfold mbind, Eff_bind, bindE, callE, panicE, ignoreE, liftE, mret, Eff_ret, retE in *.

(** A call of another kind is not in a given list of calls. *)
Local Ltac no_call :=
  intros; try intro;
  match goal with
  | H : _ ∈ _ |- _ =>
      rewrite ?elem_of_cons, elem_of_nil in H;
      repeat (destruct H as [H|H]; [discriminate H|]); destruct H
  end.

(** X24: what the delete of a deployment does, and in which order.  The
    calls it makes extend the calls made before.  It asks a node to delete
    only the contract the resource id parses to, and only after the ledger
    has cancelled that contract; with an id that does not parse it makes
    neither call.  It returns without an error only after the four calls
    (ledger, node lookup, cancel, delete) have all succeeded, and the id is
    then empty. *)
Theorem resourceDeploymentDelete_cancels_first (g : Grid) (node : Z) (id : string)
    (log0 : list Call) (r : Outcome string) (log : list Call) :
  resourceDeploymentDelete g node id log0 = (r, log) →
  ∃ calls, log = log0 ++ calls
    ∧ (∀ t c, CDeploymentDelete t c ∈ calls →
         ParseUint id = Ret c
         ∧ ∃ pre, calls = pre ++ [CCancelContract c; CDeploymentDelete t c]
                  ∧ CancelContract g (log0 ++ pre) c = Ret ())
    ∧ (∀ c, CCancelContract c ∈ calls → ParseUint id = Ret c)
    ∧ (∀ newId, r = Ret newId →
         newId = ""
         ∧ ∃ twin c,
             ParseUint id = Ret c
             ∧ calls = [CNewSubstrate; CGetNode (node mod 2 ^ 32);
                        CCancelContract c; CDeploymentDelete (twin mod 2 ^ 32) c]
             ∧ GetNode g (log0 ++ [CNewSubstrate]) (node mod 2 ^ 32) = Ret twin
             ∧ DeploymentDelete g
                 (log0 ++ [CNewSubstrate; CGetNode (node mod 2 ^ 32); CCancelContract c])
                 (twin mod 2 ^ 32) c = Ret ()).
Proof.
  unfold resourceDeploymentDelete. eff_unfold. unfold to_uint32.
  intros Hrun.
  assert (Hno : ∀ (cs : list Call),
    (∀ t c, CDeploymentDelete t c ∉ cs) → (∀ c, CCancelContract c ∉ cs) →
    (∀ t c, CDeploymentDelete t c ∈ cs →
         ParseUint id = Ret c
         ∧ ∃ pre, cs = pre ++ [CCancelContract c; CDeploymentDelete t c]
                  ∧ CancelContract g (log0 ++ pre) c = Ret ())
    ∧ (∀ c, CCancelContract c ∈ cs → ParseUint id = Ret c)).
  { intros cs H1 H2. split.
    - intros t c Hin. by apply H1 in Hin.
    - intros c Hin. by apply H2 in Hin. }
  destruct IdentityFromPhrase as [[]| |]; simpl in Hrun.
  2,3: injection Hrun as <- <-; exists []; rewrite app_nil_r;
       split; [done|]; destruct (Hno []) as [? ?]; [no_call|no_call|by split_and!].
  destruct (NewSubstrate g log0) as [[]| |]; simpl in Hrun.
  2,3: injection Hrun as <- <-; exists [CNewSubstrate];
       split; [done|]; destruct (Hno [CNewSubstrate]) as [? ?];
       [no_call|no_call|by split_and!].
  destruct (GetNode g (log0 ++ [CNewSubstrate]) (node mod 2 ^ 32)) as [twin| |] eqn:Htwin;
    simpl in Hrun.
  2,3: injection Hrun as <- <-; exists [CNewSubstrate; CGetNode (node mod 2 ^ 32)];
       rewrite <- app_assoc; split; [done|];
       destruct (Hno [CNewSubstrate; CGetNode (node mod 2 ^ 32)]) as [? ?];
       [no_call|no_call|by split_and!].
  destruct (ParseUint id) as [c| |] eqn:Hid; simpl in Hrun.
  2,3: injection Hrun as <- <-; exists [CNewSubstrate; CGetNode (node mod 2 ^ 32)];
       rewrite <- app_assoc; split; [done|];
       destruct (Hno [CNewSubstrate; CGetNode (node mod 2 ^ 32)]) as [? ?];
       [no_call|no_call|by split_and!].
  rewrite <- ?app_assoc in Hrun. simpl in Hrun.
  destruct (CancelContract g (log0 ++ [CNewSubstrate; CGetNode (node mod 2 ^ 32)]) c)
    as [[]| |] eqn:Hcancel; simpl in Hrun.
  2,3: injection Hrun as <- <-;
       exists [CNewSubstrate; CGetNode (node mod 2 ^ 32); CCancelContract c];
       split; [done|]; split_and!;
       [no_call
       |intros c' H; rewrite !elem_of_cons, elem_of_nil in H;
        destruct H as [H|[H|[H|[]]]]; try discriminate H; by injection H as ->
       |done].
  rewrite <- ?app_assoc in Hrun. simpl in Hrun.
  exists [CNewSubstrate; CGetNode (node mod 2 ^ 32); CCancelContract c;
          CDeploymentDelete (twin mod 2 ^ 32) c].
  assert (Hlog : log = log0 ++ [CNewSubstrate; CGetNode (node mod 2 ^ 32); CCancelContract c;
                                CDeploymentDelete (twin mod 2 ^ 32) c]).
  { destruct (DeploymentDelete g _ _ _) as [[]| |]; simpl in Hrun;
      injection Hrun as <- <-; by rewrite <- ?app_assoc. }
  split_and!; [done| | |].
  - intros t c' H. rewrite !elem_of_cons, elem_of_nil in H.
    destruct H as [?|[?|[?|[[= -> ->]|[]]]]]; try discriminate.
    split; [done|]. exists [CNewSubstrate; CGetNode (node mod 2 ^ 32)]. by split.
  - intros c' H. rewrite !elem_of_cons, elem_of_nil in H.
    destruct H as [?|[?|[[= ->]|[?|[]]]]]; try discriminate. done.
  - intros newId ->.
    destruct (DeploymentDelete g _ _ _) as [[]| |] eqn:Hdel; simpl in Hrun; try discriminate.
    injection Hrun as <- _. split; [done|]. exists twin, c. by split_and!.
Qed.

(** X25: the id a create sets is the id a delete reads.  With the id
    [FormatUint c] that the create path sets for the contract [c] (a 64-bit
    number), and a ledger and node that answer, the delete cancels contract
    [c], has the node's twin delete deployment [c], and returns with the id
    emptied. *)
Theorem resourceDeploymentDelete_of_created_id (g : Grid) (node c twin : Z)
    (log0 : list Call) :
  0 ≤ c < 2 ^ 64 →
  IdentityFromPhrase = Ret () →
  NewSubstrate g log0 = Ret () →
  GetNode g (log0 ++ [CNewSubstrate]) (node mod 2 ^ 32) = Ret twin →
  CancelContract g (log0 ++ [CNewSubstrate; CGetNode (node mod 2 ^ 32)]) c = Ret () →
  DeploymentDelete g
    (log0 ++ [CNewSubstrate; CGetNode (node mod 2 ^ 32); CCancelContract c])
    (twin mod 2 ^ 32) c = Ret () →
  ParseUint (FormatUint c) = Ret c
  ∧ resourceDeploymentDelete g node (FormatUint c) log0
    = (Ret "", log0 ++ [CNewSubstrate; CGetNode (node mod 2 ^ 32);
                        CCancelContract c; CDeploymentDelete (twin mod 2 ^ 32) c]).
Proof.
  intros Hc Hid Hsub Hnode Hcancel Hdel.
  split; [by apply ParseUint_FormatUint|].
  unfold resourceDeploymentDelete. eff_unfold. unfold to_uint32.
  rewrite Hid. simpl. rewrite Hsub. simpl. rewrite Hnode. simpl.
  rewrite ParseUint_FormatUint by done. simpl.
  rewrite <- ?app_assoc. simpl. rewrite Hcancel. simpl.
  rewrite <- ?app_assoc. simpl. rewrite Hdel. simpl.
  by rewrite <- ?app_assoc.
Qed.

End DeleteDeployment.

Section DeleteDeploymentOnSamples.

Lemma resourceDeploymentDelete_cancels_first_witness :
  ∃ calls, [CGetNode 1] ++ [CNewSubstrate; CGetNode 5] = [CGetNode 1] ++ calls
    ∧ ∀ c, CCancelContract c ∈ calls → @ParseUint sampleStrconv "12a" = Ret c.
Proof.
  destruct (@resourceDeploymentDelete_cancels_first sampleIdentity sampleStrconv sampleGrid 5 "12a"
              [CGetNode 1] _ _ eq_refl) as (calls & Hlog & _ & Hcancel & _).
  exists calls. by split.
Defined.

Lemma resourceDeploymentDelete_of_created_id_witness :
  @resourceDeploymentDelete sampleIdentity sampleStrconv sampleGrid 5 (FormatUint 4711) []
  = (Ret "", [CNewSubstrate; CGetNode 5; CCancelContract 4711; CDeploymentDelete 105 4711]).
Proof.
  apply (proj2 (@resourceDeploymentDelete_of_created_id sampleIdentity sampleStrconv sampleGrid
                  5 4711 105 [] ltac:(lia) eq_refl eq_refl eq_refl eq_refl eq_refl)).
Defined.

End DeleteDeploymentOnSamples.

(** ** Deleting a network, and the nodes an update removes *)

Section DeleteNetwork.

Import Network.

Context `{ID : Identity}.

Local Ltac eff_unfold :=
  unfold mbind, Eff_bind, bindE, callE, panicE, ignoreE, liftE, mret, Eff_ret, retE in *.

Lemma isInInt_elem_of (l : list Z) (i : Z) : isInInt l i = true ↔ i ∈ l.
Proof.
  induction l as [|x l IH]; simpl.
  - split; [done|]. intros H. by apply elem_of_nil in H.
  - rewrite elem_of_cons. destruct (Z.eqb_spec i x) as [->|Hne].
    + split; auto.
    + rewrite IH. split; [auto|]. by intros [?|?].
Qed.

(** The calls made for one recorded node by the delete, and by the removal
    loop of the update, when the node's twin is [twin]. *)
Lemma deleteOne_calls (g : Grid) (info : NodeDeploymentsInfo) (twin : Z) (log : list Call) :
  GetNode g log (ndi_NodeID info mod 2 ^ 32) = Ret twin →
  CancelContract g (log ++ [CGetNode (ndi_NodeID info mod 2 ^ 32)])
    (ndi_DeploymentID info mod 2 ^ 64) = Ret () →
  (∀ log t c m, DeploymentDelete g log t c ≠ Panic m) →
  deleteOne g info log
  = (Ret (), log ++ [CGetNode (ndi_NodeID info mod 2 ^ 32);
                     CCancelContract (ndi_DeploymentID info mod 2 ^ 64);
                     CDeploymentDelete (twin mod 2 ^ 32) (ndi_DeploymentID info mod 2 ^ 64)]).
Proof.
  intros Hnode Hcancel Hdel. unfold deleteOne. eff_unfold. unfold to_uint32, to_uint64.
  rewrite Hnode. simpl. rewrite Hcancel. simpl.
  rewrite <- !app_assoc. simpl.
  destruct (DeploymentDelete g _ _ _) as [[]| |] eqn:E; simpl; try done.
  by apply Hdel in E.
Qed.

Lemma removeOne_calls (g : Grid) (info : NodeDeploymentsInfo) (twin : Z) (log : list Call) :
  NewSubstrate g log = Ret () →
  GetNode g (log ++ [CNewSubstrate]) (ndi_NodeID info mod 2 ^ 32) = Ret twin →
  (∀ log c m, CancelContract g log c ≠ Panic m) →
  (∀ log t c m, DeploymentDelete g log t c ≠ Panic m) →
  removeOne g info log
  = (Ret (), log ++ [CNewSubstrate; CGetNode (ndi_NodeID info mod 2 ^ 32);
                     CCancelContract (ndi_DeploymentID info mod 2 ^ 64);
                     CDeploymentDelete (twin mod 2 ^ 32) (ndi_DeploymentID info mod 2 ^ 64)]).
Proof.
  intros Hsub Hnode Hcancel Hdel. unfold removeOne. eff_unfold. unfold to_uint32, to_uint64.
  rewrite Hsub. simpl. rewrite Hnode. simpl.
  rewrite <- !app_assoc. simpl.
  destruct (CancelContract g _ _) as [[]| |] eqn:E; simpl;
    try (by apply Hcancel in E);
    rewrite <- !app_assoc; simpl;
    (destruct (DeploymentDelete g _ _ _) as [[]| |] eqn:E'; simpl;
      try (by apply Hdel in E'); by rewrite <- ?app_assoc).
Qed.

Lemma deleteLoop_cons (g : Grid) (info : NodeDeploymentsInfo)
    (rest : list NodeDeploymentsInfo) (log : list Call) :
  deleteLoop g (info :: rest) log
  = match deleteOne g info log with
    | (Ret _, log') => deleteLoop g rest log'
    | (Err e, log') => (Err e, log')
    | (Panic p, log') => (Panic p, log')
    end.
Proof. reflexivity. Qed.

(** The calls for a list of recorded nodes whose twins [twinOf] gives. *)
Lemma deleteLoop_calls (g : Grid) (twinOf : Z → Z) (stateInfo : list NodeDeploymentsInfo) :
  (∀ log n, GetNode g log n = Ret (twinOf n)) →
  (∀ log info, info ∈ stateInfo →
     CancelContract g log (ndi_DeploymentID info mod 2 ^ 64) = Ret ()) →
  (∀ log t c m, DeploymentDelete g log t c ≠ Panic m) →
  ∀ log,
    deleteLoop g stateInfo log
    = (Ret (), log ++ concat (map (λ info,
         [CGetNode (ndi_NodeID info mod 2 ^ 32);
          CCancelContract (ndi_DeploymentID info mod 2 ^ 64);
          CDeploymentDelete (twinOf (ndi_NodeID info mod 2 ^ 32) mod 2 ^ 32)
            (ndi_DeploymentID info mod 2 ^ 64)]) stateInfo)).
Proof.
  intros Hnode Hcancel Hdel. induction stateInfo as [|info rest IH]; intros log.
  - simpl. by rewrite app_nil_r.
  - rewrite deleteLoop_cons.
    rewrite (deleteOne_calls g info (twinOf (ndi_NodeID info mod 2 ^ 32)) log);
      [|apply Hnode|apply Hcancel; by left|done].
    rewrite IH.
    + simpl. by rewrite <- !app_assoc.
    + intros log' info' Hin. apply Hcancel. by right.
Qed.

(** The loop stops at the first contract the ledger refuses to cancel. *)
Lemma deleteLoop_stops (g : Grid) (twinOf : Z → Z)
    (pre : list NodeDeploymentsInfo) (info : NodeDeploymentsInfo)
    (post : list NodeDeploymentsInfo) (e : string) :
  (∀ log n, GetNode g log n = Ret (twinOf n)) →
  (∀ log info', info' ∈ pre →
     CancelContract g log (ndi_DeploymentID info' mod 2 ^ 64) = Ret ()) →
  (∀ log, CancelContract g log (ndi_DeploymentID info mod 2 ^ 64) = Err e) →
  (∀ log t c m, DeploymentDelete g log t c ≠ Panic m) →
  ∀ log,
    deleteLoop g (pre ++ info :: post) log
    = (Panic e, log ++ concat (map (λ info,
         [CGetNode (ndi_NodeID info mod 2 ^ 32);
          CCancelContract (ndi_DeploymentID info mod 2 ^ 64);
          CDeploymentDelete (twinOf (ndi_NodeID info mod 2 ^ 32) mod 2 ^ 32)
            (ndi_DeploymentID info mod 2 ^ 64)]) pre)
         ++ [CGetNode (ndi_NodeID info mod 2 ^ 32);
             CCancelContract (ndi_DeploymentID info mod 2 ^ 64)]).
Proof.
  intros Hnode Hcancel Hrefuse Hdel. induction pre as [|info' pre IH]; intros log.
  - simpl app at 1. rewrite deleteLoop_cons.
    unfold deleteOne. eff_unfold. unfold to_uint32, to_uint64.
    rewrite Hnode. simpl. rewrite Hrefuse. simpl. by rewrite <- !app_assoc.
  - rewrite <- app_comm_cons, deleteLoop_cons.
    rewrite (deleteOne_calls g info' (twinOf (ndi_NodeID info' mod 2 ^ 32)) log);
      [|apply Hnode|apply Hcancel; by left|done].
    rewrite IH.
    + simpl. by rewrite <- !app_assoc.
    + intros log' i Hin. apply Hcancel. by right.
Qed.

(** X26: deleting a network.  With the recorded state loading, the
    identity, the client and the ledger at hand, every node found and every
    contract cancelled, the delete returns after it has, for each recorded
    node in recorded order, looked the node up, cancelled its contract and
    asked its twin to delete the deployment; whether the nodes then did
    delete plays no part: such an error is printed and the delete goes on. *)
Theorem resourceNetworkDelete_all (g : Grid) (twinOf : Z → Z)
    (encoded : list (gmap string Value)) (stateInfo : list NodeDeploymentsInfo)
    (log0 : list Call) :
  loadStaet encoded = Ret stateInfo →
  IdentityFromPhrase = Ret () → NewClient g = Ret () → NewSubstrate g log0 = Ret () →
  (∀ log n, GetNode g log n = Ret (twinOf n)) →
  (∀ log info, info ∈ stateInfo →
     CancelContract g log (ndi_DeploymentID info mod 2 ^ 64) = Ret ()) →
  (∀ log t c m, DeploymentDelete g log t c ≠ Panic m) →
  resourceNetworkDelete g encoded log0
  = (Ret (), log0 ++ CNewSubstrate :: concat (map (λ info,
       [CGetNode (ndi_NodeID info mod 2 ^ 32);
        CCancelContract (ndi_DeploymentID info mod 2 ^ 64);
        CDeploymentDelete (twinOf (ndi_NodeID info mod 2 ^ 32) mod 2 ^ 32)
          (ndi_DeploymentID info mod 2 ^ 64)]) stateInfo)).
Proof.
  intros Hload Hid Hcl Hsub Hnode Hcancel Hdel.
  unfold resourceNetworkDelete. eff_unfold.
  rewrite Hload, Hid, Hcl, Hsub. simpl.
  rewrite (deleteLoop_calls g twinOf stateInfo Hnode Hcancel Hdel).
  by rewrite <- app_assoc.
Qed.

(** X27: a contract the ledger does not cancel.  When the ledger refuses to
    cancel the contract of a recorded node, the delete panics with that
    error at this node: the nodes recorded before it have been cancelled and
    asked to delete, this node's deployment is not asked to be deleted, and
    the nodes recorded after it are not touched. *)
Theorem resourceNetworkDelete_stops_at_cancel (g : Grid) (twinOf : Z → Z)
    (encoded : list (gmap string Value))
    (pre : list NodeDeploymentsInfo) (info : NodeDeploymentsInfo)
    (post : list NodeDeploymentsInfo) (e : string) (log0 : list Call) :
  loadStaet encoded = Ret (pre ++ info :: post) →
  IdentityFromPhrase = Ret () → NewClient g = Ret () → NewSubstrate g log0 = Ret () →
  (∀ log n, GetNode g log n = Ret (twinOf n)) →
  (∀ log info', info' ∈ pre →
     CancelContract g log (ndi_DeploymentID info' mod 2 ^ 64) = Ret ()) →
  (∀ log, CancelContract g log (ndi_DeploymentID info mod 2 ^ 64) = Err e) →
  (∀ log t c m, DeploymentDelete g log t c ≠ Panic m) →
  resourceNetworkDelete g encoded log0
  = (Panic e, log0 ++ CNewSubstrate :: concat (map (λ info,
       [CGetNode (ndi_NodeID info mod 2 ^ 32);
        CCancelContract (ndi_DeploymentID info mod 2 ^ 64);
        CDeploymentDelete (twinOf (ndi_NodeID info mod 2 ^ 32) mod 2 ^ 32)
          (ndi_DeploymentID info mod 2 ^ 64)]) pre)
       ++ [CGetNode (ndi_NodeID info mod 2 ^ 32);
           CCancelContract (ndi_DeploymentID info mod 2 ^ 64)]).
Proof.
  intros Hload Hid Hcl Hsub Hnode Hcancel Hrefuse Hdel.
  unfold resourceNetworkDelete. eff_unfold.
  rewrite Hload, Hid, Hcl, Hsub. simpl.
  rewrite (deleteLoop_stops g twinOf pre info post e Hnode Hcancel Hrefuse Hdel).
  by rewrite <- !app_assoc.
Qed.

Lemma removeLoop_cons (g : Grid) (node_ids : list Z) (info : NodeDeploymentsInfo)
    (rest : list NodeDeploymentsInfo) (log : list Call) :
  removeLoop g node_ids (info :: rest) log
  = if isInInt node_ids (ndi_NodeID info) then removeLoop g node_ids rest log
    else match removeOne g info log with
         | (Ret _, log') => removeLoop g node_ids rest log'
         | (Err e, log') => (Err e, log')
         | (Panic p, log') => (Panic p, log')
         end.
Proof. simpl. by destruct (isInInt node_ids (ndi_NodeID info)). Qed.

(** X28: the nodes an update removes.  With the ledger and the nodes found
    at every step, the removal loop of the update returns after it has, for
    exactly the recorded nodes that are not declared any more and in
    recorded order, connected to the ledger, looked the node up, asked for
    its contract to be cancelled and for its deployment to be deleted; a
    recorded node that is still declared gets no call, and an error of the
    cancel or of the delete is dropped without a trace. *)
Theorem removeLoop_removed_nodes (g : Grid) (twinOf : Z → Z) (node_ids : list Z)
    (stateInfo : list NodeDeploymentsInfo) :
  (∀ log, NewSubstrate g log = Ret ()) →
  (∀ log n, GetNode g log n = Ret (twinOf n)) →
  (∀ log c m, CancelContract g log c ≠ Panic m) →
  (∀ log t c m, DeploymentDelete g log t c ≠ Panic m) →
  ∀ log0,
    removeLoop g node_ids stateInfo log0
    = (Ret (), log0 ++ concat (map (λ info,
         [CNewSubstrate;
          CGetNode (ndi_NodeID info mod 2 ^ 32);
          CCancelContract (ndi_DeploymentID info mod 2 ^ 64);
          CDeploymentDelete (twinOf (ndi_NodeID info mod 2 ^ 32) mod 2 ^ 32)
            (ndi_DeploymentID info mod 2 ^ 64)])
         (filter (λ info, ndi_NodeID info ∉ node_ids) stateInfo))).
Proof.
  intros Hsub Hnode Hcancel Hdel. induction stateInfo as [|info rest IH]; intros log.
  - simpl. by rewrite app_nil_r.
  - rewrite removeLoop_cons. destruct (isInInt node_ids (ndi_NodeID info)) eqn:Hin.
    + apply isInInt_elem_of in Hin. rewrite filter_cons_False by (by intros Hn).
      apply IH.
    + assert (Hnotin : ndi_NodeID info ∉ node_ids).
      { intros H. apply isInInt_elem_of in H. congruence. }
      rewrite filter_cons_True by done.
      rewrite (removeOne_calls g info (twinOf (ndi_NodeID info mod 2 ^ 32)) log);
        [|apply Hsub|apply Hnode|done|done].
      rewrite IH. simpl. by rewrite <- !app_assoc.
Qed.

End DeleteNetwork.

Section DeleteNetworkOnSamples.

Import Network.

Lemma resourceNetworkDelete_all_witness :
  @resourceNetworkDelete sampleIdentity deafNodes (StoreState threeRecorded) []
  = (Ret (), [CNewSubstrate;
              CGetNode 7; CCancelContract 11; CDeploymentDelete 107 11;
              CGetNode 4; CCancelContract 12; CDeploymentDelete 104 12;
              CGetNode 9; CCancelContract 13; CDeploymentDelete 109 13]).
Proof.
  apply (@resourceNetworkDelete_all sampleIdentity deafNodes (λ n, n + 100)
           (StoreState threeRecorded) threeRecorded []); try reflexivity.
  intros log t c m. discriminate.
Defined.

Lemma resourceNetworkDelete_stops_at_cancel_witness :
  @resourceNetworkDelete sampleIdentity stubbornLedger (StoreState threeRecorded) []
  = (Panic "no such contract",
     [CNewSubstrate;
      CGetNode 7; CCancelContract 11; CDeploymentDelete 107 11;
      CGetNode 4; CCancelContract 12]).
Proof.
  apply (@resourceNetworkDelete_stops_at_cancel sampleIdentity stubbornLedger (λ n, n + 100)
           (StoreState threeRecorded)
           [mkNodeDeploymentsInfo 0 11 7 "sk7" "pk7" 3007 "10.1.3.0/24"]
           (mkNodeDeploymentsInfo 0 12 4 "sk4" "pk4" 3004 "10.1.4.0/24")
           [mkNodeDeploymentsInfo 0 13 9 "sk9" "pk9" 3009 "10.1.5.0/24"]
           "no such contract" []); try reflexivity.
  - intros log info' Hin. apply list_elem_of_singleton in Hin. by subst.
  - intros log t c m. discriminate.
Defined.

Lemma removeLoop_removed_nodes_witness :
  removeLoop deafNodes [7; 9] threeRecorded []
  = (Ret (), [CNewSubstrate; CGetNode 4; CCancelContract 12; CDeploymentDelete 104 12]).
Proof.
  apply (removeLoop_removed_nodes deafNodes (λ n, n + 100) [7; 9] threeRecorded).
  - reflexivity.
  - reflexivity.
  - intros log c m. discriminate.
  - intros log t c m. discriminate.
Defined.

End DeleteNetworkOnSamples.

(** ** The subnets of the nodes added by an update *)

Section UpdateSubnets.

Import Network.

Lemma isInByte_elem_of (l : list Z) (i : Z) : isInByte l i = true ↔ i ∈ l.
Proof.
  induction l as [|x l IH]; simpl.
  - split; [done|]. intros H. by apply elem_of_nil in H.
  - rewrite elem_of_cons. destruct (Z.eqb_spec i x) as [->|Hne].
    + split; auto.
    + rewrite IH. split; [auto|]. by intros [?|?].
Qed.

(** The scan ends on a byte that is not used. *)
Lemma skipUsed_free (steps : nat) (usedIps : list Z) :
  ∀ cur c, skipUsed steps usedIps cur = Some c → c ∉ usedIps.
Proof.
  induction steps as [|steps IH]; intros cur c; simpl; [done|].
  destruct (isInByte usedIps cur) eqn:E.
  - apply IH.
  - intros [= <-] Hin. apply isInByte_elem_of in Hin. congruence.
Qed.

(** With every used byte below [B], the scan from [cur] ends, at [cur] or
    at the latest at [B]. *)
Lemma skipUsed_below (usedIps : list Z) (B : Z) :
  Forall (λ u, u < B) usedIps → B ≤ 255 →
  ∀ (steps : nat) cur,
    0 ≤ cur ≤ 255 → Z.max (B - cur) 0 < Z.of_nat steps →
    ∃ c, skipUsed steps usedIps cur = Some c ∧ cur ≤ c ≤ Z.max cur B.
Proof.
  intros Hused HB. induction steps as [|steps IH]; intros cur Hcur Hsteps; simpl.
  - lia.
  - destruct (isInByte usedIps cur) eqn:E.
    + apply isInByte_elem_of in E.
      pose proof (proj1 (Forall_forall _ _) Hused cur E) as Hlt. simpl in Hlt.
      unfold to_uint8. rewrite Z.mod_small by lia.
      destruct (IH (cur + 1)) as (c & -> & Hc); [lia|lia|].
      exists c. split; [done|]. lia.
    + exists cur. split; [done|]. lia.
Qed.

Local Arguments skipUsed : simpl never.

Lemma newNodes_cons_known (nc : NetworkConfiguration) (node : Z) (nodes : list Z) (p : Z) :
  WGPort nc !! node = Some p → newNodes nc (node :: nodes) = newNodes nc nodes.
Proof. intros H. unfold newNodes. rewrite filter_cons_False; [done|]. by rewrite H. Qed.

Lemma newNodes_cons_new (nc : NetworkConfiguration) (node : Z) (nodes : list Z) :
  WGPort nc !! node = None → newNodes nc (node :: nodes) = node :: newNodes nc nodes.
Proof. intros H. unfold newNodes. by rewrite filter_cons_True. Qed.

Lemma newNodes_ext (nc nc1 : NetworkConfiguration) (nodes : list Z) :
  (∀ n, n ∈ nodes → WGPort nc1 !! n = WGPort nc !! n) →
  newNodes nc1 nodes = newNodes nc nodes.
Proof.
  intros Hsame. unfold newNodes. induction nodes as [|n nodes IH]; [done|].
  assert (Hn : WGPort nc1 !! n = WGPort nc !! n) by (apply Hsame; by left).
  assert (Hrest : filter (λ n, WGPort nc1 !! n = None) nodes
                  = filter (λ n, WGPort nc !! n = None) nodes).
  { apply IH. intros m Hm. apply Hsame. by right. }
  destruct (decide (WGPort nc !! n = None)) as [Hnone|Hsome].
  - rewrite !filter_cons_True by congruence. by rewrite Hrest.
  - rewrite !filter_cons_False by congruence. done.
Qed.

(** The loop, from any point of its run. *)
Lemma allocLoop_spec (w : NetWorld) (network_ip : IPNet) (a b d : Z)
    (usedIps : list Z) (B : Z) :
  index (IP network_ip) (len (IP network_ip) - 4) = Ret a →
  index (IP network_ip) (len (IP network_ip) - 3) = Ret b →
  index (IP network_ip) (len (IP network_ip) - 2) = Ret d →
  Forall (λ u, u < B) usedIps →
  ∀ nodes k cur nc nc',
    NoDup nodes → 0 ≤ cur ≤ 255 →
    Z.max cur B + Z.of_nat (length (newNodes nc nodes)) ≤ 256 →
    allocLoop w network_ip usedIps nodes k cur nc = Some (Ret nc') →
    ∃ cs,
      Forall2 (λ n c,
          IPs nc' !! n = Some (ipNet a b c d 24)
          ∧ Versions nc' !! n = Some (-1) ∧ DeplotmentIDs nc' !! n = Some (-1)
          ∧ is_Some (Keys nc' !! n) ∧ is_Some (WGPort nc' !! n))
        (newNodes nc nodes) cs
      ∧ Forall (λ c, cur ≤ c ≤ 255 ∧ c ∉ usedIps) cs
      ∧ StronglySorted Z.lt cs
      ∧ NodeIDs nc' = NodeIDs nc ++ newNodes nc nodes
      ∧ (∀ n, n ∉ newNodes nc nodes →
           IPs nc' !! n = IPs nc !! n ∧ Keys nc' !! n = Keys nc !! n
           ∧ WGPort nc' !! n = WGPort nc !! n ∧ Versions nc' !! n = Versions nc !! n
           ∧ DeplotmentIDs nc' !! n = DeplotmentIDs nc !! n)
      ∧ PublicNodeID nc' = PublicNodeID nc ∧ ExternalNodeIP nc' = ExternalNodeIP nc
      ∧ ExternalNodeKey nc' = ExternalNodeKey nc.
Proof.
  intros Ha Hb Hd Hused.
  induction nodes as [|node nodes IH]; intros k cur nc nc' Hnd Hcur Hroom; simpl.
  - intros [= <-]. exists []. rewrite app_nil_r.
    split_and!; try done; constructor.
  - apply NoDup_cons in Hnd as [Hnotin Hnd].
    destruct (WGPort nc !! node) as [p|] eqn:Hknown.
    + rewrite (newNodes_cons_known nc node nodes p Hknown) in *.
      by apply IH.
    + rewrite (newNodes_cons_new nc node nodes Hknown) in *. simpl in Hroom.
      destruct (skipUsed_below usedIps B Hused ltac:(lia) 256 cur Hcur ltac:(lia))
        as (c & Hskip & Hc).
      rewrite Hskip. rewrite Ha, Hb, Hd. simpl.
      destruct (nw_GeneratePrivateKey w k) as [key| |]; simpl; try discriminate.
      destruct (getNodeFreeWGPort (nw_port w k) (to_uint32 node)) as [[port| |]|];
        try discriminate.
      set (nc1 := {| NodeIDs := NodeIDs nc ++ [node];
                     Keys := <[node := key]> (Keys nc);
                     Versions := <[node := -1]> (Versions nc);
                     DeplotmentIDs := <[node := -1]> (DeplotmentIDs nc);
                     IPs := <[node := ipNet a b c d 24]> (IPs nc);
                     WGPort := <[node := port]> (WGPort nc);
                     PublicNodeID := PublicNodeID nc;
                     ExternalNodeIP := ExternalNodeIP nc;
                     ExternalNodeKey := ExternalNodeKey nc |}).
      assert (Hnew1 : newNodes nc1 nodes = newNodes nc nodes).
      { apply newNodes_ext. intros n Hn. simpl.
        rewrite lookup_insert_ne; [done|]. intros ->. done. }
      intros Hrun.
      assert (Hcur' : 0 ≤ to_uint8 (c + 1) ≤ 255).
      { unfold to_uint8. pose proof (Z.mod_pos_bound (c + 1) (2 ^ 8) ltac:(lia)). lia. }
      assert (Hnext : newNodes nc nodes = [] ∨ to_uint8 (c + 1) = c + 1).
      { destruct (newNodes nc nodes) as [|? ?]; [by left|right].
        simpl in Hroom. unfold to_uint8. rewrite Z.mod_small; lia. }
      apply IH in Hrun as (cs & Hcs & Hfree & Hsorted & Hids & Hframe & Hp & He & Hk);
        [|done|done|].
      2:{ rewrite Hnew1. destruct Hnext as [-> | ->]; simpl; lia. }
      rewrite Hnew1 in Hcs, Hids, Hframe.
      assert (Hnode_notnew : node ∉ newNodes nc nodes).
      { intros Hin. apply list_elem_of_filter in Hin as [_ Hin]. done. }
      destruct (Hframe node Hnode_notnew) as (Hip & Hkey & Hport & Hver & Hdep).
      unfold nc1 in Hip, Hkey, Hport, Hver, Hdep.
      cbn [IPs Keys WGPort Versions DeplotmentIDs] in Hip, Hkey, Hport, Hver, Hdep.
      rewrite lookup_insert_eq in Hip. rewrite lookup_insert_eq in Hkey.
      rewrite lookup_insert_eq in Hport. rewrite lookup_insert_eq in Hver.
      rewrite lookup_insert_eq in Hdep.
      exists (c :: cs). split_and!.
      * constructor; [|done]. rewrite Hip, Hkey, Hport, Hver, Hdep. by split_and!.
      * constructor.
        -- split; [lia|]. by eapply skipUsed_free.
        -- destruct Hnext as [Hnil | Heq].
           ++ rewrite Hnil in Hcs. apply Forall2_nil_inv_l in Hcs. subst cs. constructor.
           ++ eapply Forall_impl; [exact Hfree|]. intros c' [Hc' ?]. simpl.
              split; [lia|done].
      * constructor; [done|].
        destruct Hnext as [Hnil | Heq].
        -- rewrite Hnil in Hcs. apply Forall2_nil_inv_l in Hcs. subst cs. constructor.
        -- eapply Forall_impl; [exact Hfree|]. intros c' [Hc' ?]. simpl. lia.
      * rewrite Hids. simpl. by rewrite <- app_assoc.
      * intros n Hn. apply not_elem_of_cons in Hn as [Hne Hn].
        destruct (Hframe n Hn) as (-> & -> & -> & -> & ->). simpl.
        by rewrite !lookup_insert_ne.
      * by rewrite Hp.
      * by rewrite He.
      * by rewrite Hk.
Qed.

(** X29: the subnets an update gives to new nodes.  When every used third
    octet is below [B] and there is room for the new nodes up to 255, the
    loop that returns has given to each declared node the configuration did
    not know, in declared order, a subnet built from the first two bytes of
    the network range, a third octet that is not used, and, as fourth
    octet, the third byte of the network range; the third octets are at
    least 3 and increase strictly from one new node to the next, so the new
    subnets are pairwise different.  Each new node is recorded with version
    -1 and deployment id -1, and appended to the node list; for every other
    node the five maps are left as they were. *)
Theorem allocLoop_new_subnets (w : NetWorld) (network_ip : IPNet) (a b d : Z)
    (usedIps : list Z) (B : Z) (node_ids : list Z) (nc nc' : NetworkConfiguration) :
  index (IP network_ip) (len (IP network_ip) - 4) = Ret a →
  index (IP network_ip) (len (IP network_ip) - 3) = Ret b →
  index (IP network_ip) (len (IP network_ip) - 2) = Ret d →
  NoDup node_ids →
  Forall (λ u, u < B) usedIps → 3 ≤ B →
  B + Z.of_nat (length (newNodes nc node_ids)) ≤ 256 →
  allocLoop w network_ip usedIps node_ids 0 3 nc = Some (Ret nc') →
  ∃ cs,
    Forall2 (λ n c,
        IPs nc' !! n = Some (ipNet a b c d 24)
        ∧ Versions nc' !! n = Some (-1) ∧ DeplotmentIDs nc' !! n = Some (-1)
        ∧ is_Some (Keys nc' !! n) ∧ is_Some (WGPort nc' !! n))
      (newNodes nc node_ids) cs
    ∧ Forall (λ c, 3 ≤ c ≤ 255 ∧ c ∉ usedIps) cs
    ∧ StronglySorted Z.lt cs
    ∧ NodeIDs nc' = NodeIDs nc ++ newNodes nc node_ids
    ∧ (∀ n, n ∉ newNodes nc node_ids →
         IPs nc' !! n = IPs nc !! n ∧ Keys nc' !! n = Keys nc !! n
         ∧ WGPort nc' !! n = WGPort nc !! n ∧ Versions nc' !! n = Versions nc !! n
         ∧ DeplotmentIDs nc' !! n = DeplotmentIDs nc !! n).
Proof.
  intros Ha Hb Hd Hnd Hused HB Hroom Hrun.
  destruct (allocLoop_spec w network_ip a b d usedIps B Ha Hb Hd Hused
              node_ids 0 3 nc nc' Hnd ltac:(lia) ltac:(lia) Hrun)
    as (cs & Hcs & Hfree & Hsorted & Hids & Hframe & _).
  exists cs. by split_and!.
Qed.

End UpdateSubnets.

Section UpdateSubnetsOnSamples.

Import Network.

Lemma allocLoop_new_subnets_witness :
  ∃ nc', allocLoop sampleNetWorld (ipNet 10 1 0 0 16) [2; 3; 4] [1; 7; 2; 8] 0 3 twoNodes
         = Some (Ret nc')
    ∧ IPs nc' !! 7 = Some (ipNet 10 1 5 0 24)
    ∧ IPs nc' !! 8 = Some (ipNet 10 1 6 0 24)
    ∧ IPs nc' !! 1 = IPs twoNodes !! 1.
Proof.
  destruct (allocLoop sampleNetWorld (ipNet 10 1 0 0 16) [2; 3; 4] [1; 7; 2; 8] 0 3 twoNodes)
    as [[nc'| |]|] eqn:Hrun; [|vm_compute in Hrun; discriminate..].
  exists nc'. split; [done|].
  destruct (allocLoop_new_subnets sampleNetWorld (ipNet 10 1 0 0 16) 10 1 0 [2; 3; 4] 5
              [1; 7; 2; 8] twoNodes nc' eq_refl eq_refl eq_refl)
    as (cs & Hcs & Hfree & Hsorted & _ & Hframe); [| | | |exact Hrun|].
  - repeat (apply NoDup_cons_2; [rewrite ?elem_of_cons, elem_of_nil; lia|]).
    apply NoDup_nil_2.
  - repeat (apply Forall_cons; split; [simpl; lia|]). apply Forall_nil_2.
  - lia.
  - vm_compute. discriminate.
  - change (newNodes twoNodes [1; 7; 2; 8]) with [7; 8] in *.
    destruct cs as [|c1 [|c2 [|? ?]]];
      try (apply Forall2_length in Hcs; simpl in Hcs; lia).
    apply Forall2_cons in Hcs as [(Hip7 & _) Hcs].
    apply Forall2_cons in Hcs as [(Hip8 & _) _].
    apply Forall_cons in Hfree as [[Hc1 Hn1] Hfree].
    apply Forall_cons in Hfree as [[Hc2 Hn2] _].
    apply StronglySorted_inv in Hsorted as [Hsorted Hlt].
    apply Forall_cons in Hlt as [Hlt _].
    vm_compute in Hrun. injection Hrun as <-.
    split_and!; reflexivity.
Defined.

End UpdateSubnetsOnSamples.

(** ** Loading the configuration a create has stored *)

Section LoadCreated.

Import Network.

Context `{WG : WireGuard} `{CD : Codec}.

(** The create loop and the load loop, side by side: the load loop run on
    the entries the create loop appended, with contract ids filled in,
    rebuilds the maps of the create loop. *)
Lemma loadLoop_of_createLoop (w : NetWorld) (n0 : nat) (nodes : list Z) :
  ∀ idx pk fp ip st pk' fp' ip' new (new' : list NodeDeploymentsInfo) nc0,
    (idx + length nodes ≤ n0)%nat →
    (∀ (i : nat) k, (i ≤ n0)%nat →
       nw_GeneratePrivateKey w i = Ret k → ParseKey (KeyString k) = Ret k) →
    (∀ i : nat, (i < n0)%nat →
       MustParseIPNet (IPNetString (ipNet 10 1 ((Z.of_nat i + 3) mod 256) 0 24))
       = Ret (ipNet 10 1 ((Z.of_nat i + 3) mod 256) 0 24)) →
    createLoop w nodes idx pk fp ip st = Some (Ret (pk', fp', ip', st ++ new)) →
    Forall2 (λ info info', ∃ id, info' = withDeploymentID id info) new new' →
    Keys nc0 = pk → WGPort nc0 = fp → IPs nc0 = ip →
    ∃ nc', loadLoop new' nc0 = Ret nc'
      ∧ Keys nc' = pk' ∧ WGPort nc' = fp' ∧ IPs nc' = ip'
      ∧ NodeIDs nc' = NodeIDs nc0 ++ nodes
      ∧ PublicNodeID nc' = PublicNodeID nc0 ∧ ExternalNodeIP nc' = ExternalNodeIP nc0
      ∧ ExternalNodeKey nc' = ExternalNodeKey nc0
      ∧ (∀ n, Versions nc' !! n = if decide (n ∈ nodes) then Some 0 else Versions nc0 !! n)
      ∧ (∀ n, n ∉ nodes → DeplotmentIDs nc' !! n = DeplotmentIDs nc0 !! n)
      ∧ (NoDup nodes →
         ∀ (i : nat) n info', nodes !! i = Some n → new' !! i = Some info' →
           ndi_NodeID info' = n
           ∧ DeplotmentIDs nc' !! n = Some (ndi_DeploymentID info')).
Proof.
  induction nodes as [|node nodes IH];
    intros idx pk fp ip st pk' fp' ip' new new' nc0 Hn0 Hkeys Hips; simpl.
  - intros [= <- <- <- Hst] Hnew <- <- <-.
    assert (new = []) as ->.
    { apply (f_equal length) in Hst. rewrite length_app in Hst.
      destruct new; [done|simpl in Hst; lia]. }
    apply Forall2_nil_inv_l in Hnew as ->. simpl.
    exists nc0. rewrite app_nil_r.
    split_and!; [done|done|done|done|done|done|done|done| |done|].
    + intros n. destruct (decide (n ∈ [])) as [Hin|]; [|done]. by apply elem_of_nil in Hin.
    + intros _ i n info' Hi. by rewrite lookup_nil in Hi.
  - simpl in Hn0.
    destruct (nw_GeneratePrivateKey w (S idx)) as [key| |] eqn:Hkey; simpl; try discriminate.
    destruct (getNodeFreeWGPort _ _) as [[port| |]|] eqn:Hport; try discriminate.
    rewrite !lookup_insert_eq. simpl.
    intros Hrun Hnew HK HP HI.
    destruct (createLoop_frame _ _ _ _ _ _ _ _ _ _ _ Hrun) as [_ (rest & Hst & Hlen)].
    rewrite <- app_assoc in Hst. apply app_inv_head in Hst. simpl in Hst. subst new.
    apply Forall2_cons_inv_l in Hnew as (info' & rest' & [id ->] & Hrest & ->).
    cbn [loadLoop withDeploymentID ndi_WGPrivateKey ndi_IPRange ndi_NodeID ndi_Version
         ndi_DeploymentID ndi_WGPort].
    rewrite (Hkeys (S idx) key) by (exact Hkey || lia).
    unfold to_uint8 in *. change (2 ^ 8) with 256 in *.
    rewrite (Hips idx) by lia. simpl.
    edestruct (IH (S idx) (<[node := key]> pk) (<[node := port]> fp)
                 (<[node := ipNet 10 1 ((Z.of_nat idx + 3) mod 256) 0 24]> ip)
                 (st ++ [ {| ndi_Version := 0; ndi_DeploymentID := 0; ndi_NodeID := node;
                             ndi_WGPrivateKey := KeyString key;
                             ndi_WGPublicKey := KeyString (PublicKey key);
                             ndi_WGPort := port;
                             ndi_IPRange :=
                               IPNetString
                                 (ipNet 10 1 ((Z.of_nat idx + 3) mod 256) 0 24) |} ])
                 pk' fp' ip' rest rest'
                 {| NodeIDs := NodeIDs nc0 ++ [node];
                    Keys := <[node := key]> (Keys nc0);
                    Versions := <[node := 0]> (Versions nc0);
                    DeplotmentIDs := <[node := id]> (DeplotmentIDs nc0);
                    IPs := <[node := ipNet 10 1 ((Z.of_nat idx + 3) mod 256) 0 24]> (IPs nc0);
                    WGPort := <[node := port]> (WGPort nc0);
                    PublicNodeID := PublicNodeID nc0;
                    ExternalNodeIP := ExternalNodeIP nc0;
                    ExternalNodeKey := ExternalNodeKey nc0 |})
      as (nc' & Hload & HK' & HP' & HI' & Hids & Hpub & Hext & Hek & Hver & Hdepf & Hdep).
    { lia. }
    { exact Hkeys. }
    { exact Hips. }
    { rewrite <- app_assoc. simpl. exact Hrun. }
    { exact Hrest. }
    { simpl. by rewrite HK. }
    { simpl. by rewrite HP. }
    { simpl. by rewrite HI. }
    exists nc'. split_and!; [done|done|done|done| |done|done|done| | |].
    + rewrite Hids. simpl. by rewrite <- app_assoc.
    + intros n. rewrite Hver. simpl.
      destruct (decide (n ∈ nodes)) as [Hin|Hnotin].
      * destruct (decide (n ∈ node :: nodes)) as [_|Hn]; [done|].
        exfalso. apply Hn. by right.
      * destruct (decide (n = node)) as [->|Hne].
        -- rewrite lookup_insert_eq.
           destruct (decide (node ∈ node :: nodes)) as [_|Hn]; [done|].
           exfalso. apply Hn. by left.
        -- rewrite lookup_insert_ne by done.
           destruct (decide (n ∈ node :: nodes)) as [Hin|_]; [|done].
           apply elem_of_cons in Hin as [?|?]; done.
    + intros n Hn. apply not_elem_of_cons in Hn as [Hne Hn].
      rewrite (Hdepf n Hn). simpl. by rewrite lookup_insert_ne.
    + intros Hnd [|i] n info' Hi Hi'; simpl in Hi, Hi'.
      * injection Hi as <-. injection Hi' as <-. simpl. split; [done|].
        apply NoDup_cons in Hnd as [Hnotin _].
        rewrite (Hdepf node Hnotin). simpl. by rewrite lookup_insert_eq.
      * apply NoDup_cons in Hnd as [_ Hnd]. by apply (Hdep Hnd i).
Qed.

(** X30: an update loads what the create stored.  For a node list without
    repetition, with texts of the generated keys and of the subnets that
    parse back to them: from the external key, the public node and the
    external subnet as the create records them, and from its state entries
    with the contract ids filled in, [loadNetworkConfig] returns a
    configuration with the same node list, keys, subnets, ports, public
    node, external subnet and external key as the one the create built;
    every node has version 0 and the contract id of its entry. *)
Theorem loadNetworkConfig_of_created (w : NetWorld) (node_ids : list Z)
    (nc : NetworkConfiguration) (stateInfo stored : list NodeDeploymentsInfo) :
  NoDup node_ids →
  createConfig w node_ids = Some (Ret (nc, stateInfo)) →
  (∀ (i : nat) k, (i ≤ length node_ids)%nat →
     nw_GeneratePrivateKey w i = Ret k → ParseKey (KeyString k) = Ret k) →
  (∀ i : nat, (i < length node_ids)%nat →
     MustParseIPNet (IPNetString (ipNet 10 1 ((Z.of_nat i + 3) mod 256) 0 24))
     = Ret (ipNet 10 1 ((Z.of_nat i + 3) mod 256) 0 24)) →
  MustParseIPNet (IPNetString (ipNet 10 1 2 0 24)) = Ret (ipNet 10 1 2 0 24) →
  Forall2 (λ info info', ∃ id, info' = withDeploymentID id info) stateInfo stored →
  ∃ nc',
    loadNetworkConfig (KeyString (ExternalNodeKey nc)) (PublicNodeID nc)
      (IPNetString (ExternalNodeIP nc)) stored = Ret nc'
    ∧ NodeIDs nc' = NodeIDs nc ∧ Keys nc' = Keys nc ∧ IPs nc' = IPs nc
    ∧ WGPort nc' = WGPort nc ∧ PublicNodeID nc' = PublicNodeID nc
    ∧ ExternalNodeIP nc' = ExternalNodeIP nc ∧ ExternalNodeKey nc' = ExternalNodeKey nc
    ∧ ∀ (i : nat) n info', node_ids !! i = Some n → stored !! i = Some info' →
        ndi_NodeID info' = n
        ∧ Versions nc' !! n = Some 0
        ∧ DeplotmentIDs nc' !! n = Some (ndi_DeploymentID info').
Proof.
  intros Hnd Hcfg Hkeys Hips Hextip Hstored.
  apply createConfig_parts in Hcfg
    as (ek & Hek & Hloop & Hnodes & Hpub & Hext & Hekey & _).
  unfold loadNetworkConfig. rewrite Hekey, Hext.
  rewrite (Hkeys 0%nat ek) by (done || lia). simpl. rewrite Hextip. simpl.
  destruct (loadLoop_of_createLoop w (length node_ids) node_ids 0 ∅ ∅ ∅ []
              (Keys nc) (WGPort nc) (IPs nc) stateInfo stored
              {| NodeIDs := []; Keys := ∅; Versions := ∅; DeplotmentIDs := ∅; IPs := ∅;
                 WGPort := ∅; PublicNodeID := PublicNodeID nc;
                 ExternalNodeIP := ipNet 10 1 2 0 24; ExternalNodeKey := ek |})
    as (nc' & Hload & HK & HP & HI & Hids & Hp & He & Hk & Hver & _ & Hdep);
    try done.
  exists nc'. rewrite Hnodes. split_and!; try done.
  intros i n info' Hi Hi'.
  destruct (Hdep Hnd i n info' Hi Hi') as [Hn Hd].
  split_and!; [done| |done].
  rewrite Hver. destruct (decide (n ∈ node_ids)) as [_|Hnot]; [done|].
  exfalso. apply Hnot. by eapply list_elem_of_lookup_2.
Qed.

End LoadCreated.

Section LoadCreatedOnSamples.

Import Network.

Lemma loadNetworkConfig_of_created_witness :
  ∃ nc st nc',
    @createConfig sampleWireGuard sampleCodec sampleNetWorld [7; 4; 9] = Some (Ret (nc, st))
    ∧ @loadNetworkConfig sampleCodec (@KeyString sampleWireGuard (ExternalNodeKey nc))
        (PublicNodeID nc) (@IPNetString sampleCodec (ExternalNodeIP nc))
        (zip_with withDeploymentID [11; 12; 13] st) = Ret nc'
    ∧ IPs nc' = IPs nc ∧ Keys nc' = Keys nc.
Proof.
  destruct (@createConfig sampleWireGuard sampleCodec sampleNetWorld [7; 4; 9])
    as [[[nc st]| |]|] eqn:Hrun; [|vm_compute in Hrun; discriminate..].
  assert (Hnd : NoDup [7; 4; 9]).
  { repeat (apply NoDup_cons_2; [rewrite ?elem_of_cons, elem_of_nil; lia|]).
    apply NoDup_nil_2. }
  destruct (@loadNetworkConfig_of_created sampleWireGuard sampleCodec sampleNetWorld
              [7; 4; 9] nc st (zip_with withDeploymentID [11; 12; 13] st) Hnd Hrun)
    as (nc' & Hload & _ & HK & HI & _).
  - intros [|[|[|[|i]]]] k Hi [= <-]; try (simpl in Hi; lia); by vm_compute.
  - intros [|[|[|i]]] Hi; try (simpl in Hi; lia); by vm_compute.
  - by vm_compute.
  - vm_compute in Hrun. injection Hrun as _ <-.
    repeat (constructor; [by eexists|]). constructor.
  - exists nc, st, nc'. by split_and!.
Defined.

End LoadCreatedOnSamples.
